(** * mrr-cli: the interactive terminal UI (package [ui]) over the record store

    A shallow embedding of [ui.TUI] and of the functions it calls in the
    packages [models] and [db], followed by the properties of the
    controller: cursor and scroll arithmetic, the input-mode state machine,
    refresh, and rendering.

    Conventions.
    - Go's [int] and [int64] are 64-bit two's complement integers: they are
      modelled as [Z], every arithmetic result passed through [wrap64].
    - Go strings are byte sequences: [string] of the Standard Library;
      [len(s)] is [String.length], [s[:k]] is [slice_to], which faults
      outside [0 .. len(s)] as Go does.
    - [float64] is IEEE 754 binary64, modelled by [spec_float] with the
      operations of [SpecFloat] at precision 53 and maximal exponent 1024.
    - A run-time panic (index or slice out of range) is the result [Panic]. *)

From Stdlib Require Import ZArith List String Ascii Bool Lia SpecFloat.
From Stdlib Require Import Sorted Permutation.
Import ListNotations.

#[local] Open Scope string_scope.
#[local] Open Scope Z_scope.

(** ** Machine integers *)

Definition int_min : Z := - 2 ^ 63.
Definition int_max : Z := 2 ^ 63 - 1.

(** The value of a 64-bit two's complement integer after an arithmetic
    operation whose exact result is [z]. *)
Definition wrap64 (z : Z) : Z := (z + 2 ^ 63) mod 2 ^ 64 - 2 ^ 63.

(** ** Results of code that may panic *)

Inductive res (A : Type) : Type :=
| Ok (a : A)
| Panic.
Arguments Ok {A} a.
Arguments Panic {A}.

Definition bind {A B : Type} (r : res A) (k : A -> res B) : res B :=
  match r with
  | Ok a => k a
  | Panic => Panic
  end.

Notation "x <- r ;; k" := (bind r (fun x => k))
  (at level 61, r at next level, right associativity).

(** ** float64 *)

Module Float64.

Definition t : Type := spec_float.

Definition prec : Z := 53.
Definition emax : Z := 1024.

(** [float64(n)] for an integer [n]: the nearest double, ties to even. *)
Definition of_int (n : Z) : t := binary_normalize prec emax n 0 false.

Definition mul (x y : t) : t := SFmul prec emax x y.
Definition div (x y : t) : t := SFdiv prec emax x y.

(** The integer part of a finite double, rounded toward zero. *)
Definition trunc (x : t) : option Z :=
  match x with
  | S754_zero _ => Some 0
  | S754_finite s m e =>
      let a := if 0 <=? e then Z.pos m * 2 ^ e else Z.pos m / 2 ^ (- e) in
      Some (if s then - a else a)
  | S754_infinity _ | S754_nan => None
  end.

(** [int64(x)].  Go leaves the result unspecified when the value does not
    fit; the amd64 instruction CVTTSD2SQ then gives the "integer
    indefinite" value [-2^63], which is what is modelled here. *)
Definition to_int64 (x : t) : Z :=
  match trunc x with
  | Some z => if (int_min <=? z) && (z <=? int_max) then z else int_min
  | None => int_min
  end.

End Float64.

(** ** Bytes and UTF-8 (packages [unicode/utf8] and [strings]) *)

Definition byte_of (c : ascii) : Z := Z.of_N (N_of_ascii c).

(** [byte(b)]: the low eight bits of [b]. *)
Definition ascii_of (b : Z) : ascii := ascii_of_N (Z.to_N (b mod 256)).

(** [len(s)] *)
Definition len (s : string) : Z := Z.of_nat (String.length s).

Fixpoint drop (n : nat) (s : string) : string :=
  match n, s with
  | O, _ => s
  | S n', String _ s' => drop n' s'
  | S _, EmptyString => EmptyString
  end.

Fixpoint take (n : nat) (s : string) : string :=
  match n, s with
  | S n', String c s' => String c (take n' s')
  | _, _ => EmptyString
  end.

(** [s[:k]]: Go panics unless [0 <= k <= len(s)]. *)
Definition slice_to (s : string) (k : Z) : res string :=
  if (0 <=? k) && (k <=? len s) then Ok (take (Z.to_nat k) s) else Panic.

Fixpoint bytes_to_string (l : list Z) : string :=
  match l with
  | [] => EmptyString
  | b :: l' => String (ascii_of b) (bytes_to_string l')
  end.

Module utf8.

Definition RuneError : Z := 65533.
Definition RuneSelf : Z := 128.
Definition MaxRune : Z := 1114111.

Definition cont (b : Z) : bool := (128 <=? b) && (b <=? 191).

(** [utf8.DecodeRuneInString]: the first rune of [s] and its width in
    bytes; an invalid or truncated encoding is [RuneError] of width 1, the
    empty string [RuneError] of width 0. *)
Definition DecodeRuneInString (s : string) : Z * nat :=
  match s with
  | EmptyString => (RuneError, 0%nat)
  | String c0 s1 =>
      let b0 := byte_of c0 in
      if b0 <? RuneSelf then (b0, 1%nat)
      else if (194 <=? b0) && (b0 <=? 223) then
        match s1 with
        | String c1 _ =>
            let b1 := byte_of c1 in
            if cont b1
            then (Z.lor (Z.shiftl (Z.land b0 31) 6) (Z.land b1 63), 2%nat)
            else (RuneError, 1%nat)
        | _ => (RuneError, 1%nat)
        end
      else if (224 <=? b0) && (b0 <=? 239) then
        match s1 with
        | String c1 (String c2 _) =>
            let b1 := byte_of c1 in
            let b2 := byte_of c2 in
            let lo := if b0 =? 224 then 160 else 128 in
            let hi := if b0 =? 237 then 159 else 191 in
            if (lo <=? b1) && (b1 <=? hi) && cont b2
            then (Z.lor (Z.shiftl (Z.land b0 15) 12)
                    (Z.lor (Z.shiftl (Z.land b1 63) 6) (Z.land b2 63)),
                  3%nat)
            else (RuneError, 1%nat)
        | _ => (RuneError, 1%nat)
        end
      else if (240 <=? b0) && (b0 <=? 244) then
        match s1 with
        | String c1 (String c2 (String c3 _)) =>
            let b1 := byte_of c1 in
            let b2 := byte_of c2 in
            let b3 := byte_of c3 in
            let lo := if b0 =? 240 then 144 else 128 in
            let hi := if b0 =? 244 then 143 else 191 in
            if (lo <=? b1) && (b1 <=? hi) && cont b2 && cont b3
            then (Z.lor (Z.shiftl (Z.land b0 7) 18)
                    (Z.lor (Z.shiftl (Z.land b1 63) 12)
                       (Z.lor (Z.shiftl (Z.land b2 63) 6) (Z.land b3 63))),
                  4%nat)
            else (RuneError, 1%nat)
        | _ => (RuneError, 1%nat)
        end
      else (RuneError, 1%nat)
  end.

(** [for i, r := range s]: the byte offset and the rune of every
    iteration, starting at offset [i]. *)
Fixpoint range_from (fuel : nat) (i : Z) (s : string) : list (Z * Z) :=
  match fuel with
  | O => []
  | S fuel' =>
      match s with
      | EmptyString => []
      | _ =>
          let '(r, w) := DecodeRuneInString s in
          (i, r) :: range_from fuel' (i + Z.of_nat w) (drop w s)
      end
  end.

Definition range (s : string) : list (Z * Z) :=
  range_from (String.length s) 0 s.

(** The bytes that encode a valid rune [r]. *)
Definition encode_valid (r : Z) : list Z :=
  if r <? 128 then [r]
  else if r <? 2048 then
    [Z.lor 192 (Z.shiftr r 6); Z.lor 128 (Z.land r 63)]
  else if r <? 65536 then
    [Z.lor 224 (Z.shiftr r 12); Z.lor 128 (Z.land (Z.shiftr r 6) 63);
     Z.lor 128 (Z.land r 63)]
  else
    [Z.lor 240 (Z.shiftr r 18); Z.lor 128 (Z.land (Z.shiftr r 12) 63);
     Z.lor 128 (Z.land (Z.shiftr r 6) 63); Z.lor 128 (Z.land r 63)].

(** [string(r)] and [utf8.AppendRune]: the UTF-8 encoding of [r];
    surrogates and values outside Unicode are encoded as [RuneError]. *)
Definition EncodeRune (r : Z) : string :=
  if (r <? 0) || (MaxRune <? r) || ((55296 <=? r) && (r <=? 57343))
  then bytes_to_string (encode_valid RuneError)
  else bytes_to_string (encode_valid r).

End utf8.

Module strings.

(** [strings.HasPrefix] *)
Fixpoint HasPrefix (s p : string) : bool :=
  match p, s with
  | EmptyString, _ => true
  | String a p', String b s' => Ascii.eqb a b && HasPrefix s' p'
  | String _ _, EmptyString => false
  end.

(** [strings.TrimPrefix]: [s] without the leading [p], or [s] itself. *)
Definition TrimPrefix (s p : string) : string :=
  if HasPrefix s p then drop (String.length p) s else s.

Definition lower_byte (b : Z) : Z :=
  if (65 <=? b) && (b <=? 90) then b + 32 else b.

Fixpoint isASCII (s : string) : bool :=
  match s with
  | EmptyString => true
  | String c s' => (byte_of c <? utf8.RuneSelf) && isASCII s'
  end.

Fixpoint map_bytes (f : Z -> Z) (s : string) : string :=
  match s with
  | EmptyString => EmptyString
  | String c s' => String (ascii_of (f (byte_of c))) (map_bytes f s')
  end.

(** [strings.Map]: every rune of [s] replaced by its image, dropped when
    the image is negative; an invalid byte counts as [utf8.RuneError]. *)
Fixpoint mapRunes (mapping : Z -> Z) (l : list (Z * Z)) : string :=
  match l with
  | [] => EmptyString
  | (_, r) :: l' =>
      let r' := mapping r in
      if r' <? 0 then mapRunes mapping l'
      else utf8.EncodeRune r' ++ mapRunes mapping l'
  end.

Definition Map (mapping : Z -> Z) (s : string) : string :=
  mapRunes mapping (utf8.range s).

End strings.

(** ** The part of Go's library that is taken as given

    [strconv.ParseFloat(s, 64)] (the nearest double of a well-formed
    literal, an error otherwise) and the lower-case table of [unicode] for
    runes above ASCII are not part of this repository. *)
Class GoLib : Type := {
  ParseFloat : string -> option Float64.t;
  lowerTable : Z -> Z
}.

Module unicode.

(** [unicode.ToLower]: ASCII is handled in line, the rest by the table. *)
Definition ToLower `{GoLib} (r : Z) : Z :=
  if r <=? 127 then strings.lower_byte r else lowerTable r.

End unicode.

(** [strings.ToLower]: a byte-wise pass over an all-ASCII string, else
    [strings.Map(unicode.ToLower, s)]. *)
Definition ToLower `{GoLib} (s : string) : string :=
  if strings.isASCII s then strings.map_bytes strings.lower_byte s
  else strings.Map unicode.ToLower s.

(** ** Formatting (packages [fmt], [strconv], [time]) *)

Module fmt.

Fixpoint digits_of_pos_fuel (fuel : nat) (n : Z) (acc : string) : string :=
  match fuel with
  | O => acc
  | S fuel' =>
      let acc' := String (ascii_of (48 + n mod 10)) acc in
      if n / 10 =? 0 then acc' else digits_of_pos_fuel fuel' (n / 10) acc'
  end.

(** The decimal digits of [n >= 0]. *)
Definition digits (n : Z) : string :=
  digits_of_pos_fuel (S (Z.to_nat (Z.log2 n))) n EmptyString.

(** [fmt.Sprintf("%d", n)] *)
Definition Sprintf_d (n : Z) : string :=
  if n <? 0 then "-" ++ digits (- n) else digits n.

Fixpoint zeros (n : nat) : string :=
  match n with
  | O => EmptyString
  | S n' => String "0" (zeros n')
  end.

(** [appendInt] of package [time]: [x] in decimal, zero-padded to
    [width] digits, with a leading minus sign when negative. *)
Definition appendInt (x : Z) (width : nat) : string :=
  let d := digits (Z.abs x) in
  (if x <? 0 then "-" else "") ++ zeros (width - String.length d) ++ d.

(** The integer nearest to [num / den] ([den > 0]), ties to even. *)
Definition round_half_even (num den : Z) : Z :=
  let q := num / den in
  let r := num mod den in
  if (den <? 2 * r) || ((den =? 2 * r) && Z.odd q) then q + 1 else q.

(** [fmt.Sprintf("%.2f", x)]: the exact value of [x] rounded to two
    decimals, ties to even. *)
Definition Sprintf_2f (x : Float64.t) : string :=
  match x with
  | S754_zero s => (if s then "-" else "") ++ "0.00"
  | S754_infinity s => if s then "-Inf" else "+Inf"
  | S754_nan => "NaN"
  | S754_finite s m e =>
      let q := if 0 <=? e then Z.pos m * 2 ^ e * 100
               else round_half_even (Z.pos m * 100) (2 ^ (- e)) in
      (if s then "-" else "") ++ digits (q / 100) ++ "."
        ++ appendInt (q mod 100) 2
  end.

End fmt.

Module time.

(** A [time.Time], kept as the civil date and clock it displays. *)
Record Time : Type := mkTime {
  Year : Z; Month : Z; Day : Z;
  Hour : Z; Minute : Z; Second : Z
}.

(** The zero value [time.Time{}]: January 1, year 1, 00:00:00. *)
Definition zero : Time := mkTime 1 1 1 0 0 0.

(** [t.Format("2006-01-02")] *)
Definition FormatDate (t : Time) : string :=
  fmt.appendInt (Year t) 4 ++ "-" ++ fmt.appendInt (Month t) 2 ++ "-"
    ++ fmt.appendInt (Day t) 2.

(** What a DATE column keeps of a time: the calendar day. *)
Definition date_only (t : Time) : Time :=
  mkTime (Year t) (Month t) (Day t) 0 0 0.

(** Order of the stored dates (the order of their text). *)
Definition date_ltb (a b : Time) : bool :=
  (Year a <? Year b)
  || ((Year a =? Year b)
      && ((Month a <? Month b)
          || ((Month a =? Month b) && (Day a <? Day b)))).

Definition date_eqb (a b : Time) : bool :=
  (Year a =? Year b) && (Month a =? Month b) && (Day a =? Day b).

End time.

(** ** Package [models] *)

Module models.

Record Entry : Type := mkEntry {
  ID : Z;
  Amount : Z;        (* Amount in cents *)
  Source : string;   (* stripe, gumroad, paddle, manual *)
  Type_ : string;    (* recurring, one-time *)
  Note : string;
  Date : time.Time;
  CreatedAt : time.Time
}.

Definition euro : string := bytes_to_string [226; 130; 172].
Definition pound : string := bytes_to_string [194; 163].

(** [FormatAmount] formats cents as currency string. *)
Definition FormatAmount (cents : Z) (currency : string) : string :=
  let dollars := Float64.div (Float64.of_int cents) (Float64.of_int 100) in
  if String.eqb currency "EUR" then euro ++ fmt.Sprintf_2f dollars
  else if String.eqb currency "GBP" then pound ++ fmt.Sprintf_2f dollars
  else "$" ++ fmt.Sprintf_2f dollars.

End models.

(** ** Package [db]: the record store *)

(** A Go result [(T, error)]; an error is kept as its message. *)
Inductive result (A : Type) : Type :=
| Success (a : A)
| Failure (err : string).
Arguments Success {A} a.
Arguments Failure {A} err.

(** The data-access boundary the controller consumes.  Every call receives
    the store and the mutating ones return it; nothing is assumed about what
    an implementation answers. *)
Class RecordStore (S : Type) : Type := {
  GetAllEntries : S -> result (list models.Entry);
  AddEntry : Z -> string -> string -> string -> time.Time -> S -> result Z * S;
  UpdateEntry : Z -> option Z -> option string -> option string -> S
                -> option string * S;
  DeleteEntry : Z -> S -> option string * S
}.

(** The store of package [db] over SQLite, as a table in memory. *)
Module db.

Import models.

Record DB : Type := mkDB {
  rows : list Entry;      (* table [entries], in insertion order *)
  seq : Z;                (* largest identifier ever assigned *)
  clock : time.Time;      (* CURRENT_TIMESTAMP *)
  closed : bool           (* the handle was closed: every call fails *)
}.

Definition errClosed : string := "sql: database is closed".

Definition AddEntry (amount : Z) (source entryType note : string)
    (date : time.Time) (d : DB) : result Z * DB :=
  if closed d then (Failure ("failed to add entry: " ++ errClosed), d)
  else if int_max <=? seq d
  then (Failure "failed to add entry: database or disk is full", d)
  else
    let id := seq d + 1 in
    let e := mkEntry id amount source entryType note
               (time.date_only date) (clock d) in
    (Success id, mkDB (rows d ++ [e]) id (clock d) (closed d)).

Definition GetEntry (id : Z) (d : DB) : result Entry :=
  if closed d then Failure ("failed to get entry: " ++ errClosed)
  else
    match List.find (fun e => ID e =? id) (rows d) with
    | Some e => Success e
    | None => Failure ("entry not found: " ++ fmt.Sprintf_d id)
    end.

(** [ORDER BY date DESC, id DESC] *)
Definition before (a b : Entry) : bool :=
  time.date_ltb (Date b) (Date a)
  || (time.date_eqb (Date a) (Date b) && (ID b <? ID a)).

Fixpoint insert_sorted (e : Entry) (l : list Entry) : list Entry :=
  match l with
  | [] => [e]
  | x :: l' => if before x e then x :: insert_sorted e l' else e :: x :: l'
  end.

Definition order_by_date_id (l : list Entry) : list Entry :=
  List.fold_right insert_sorted [] l.

(** [strftime('%Y-%m', date)] *)
Definition year_month (t : time.Time) : string :=
  fmt.appendInt (time.Year t) 4 ++ "-" ++ fmt.appendInt (time.Month t) 2.

Definition ListEntries (month source entryType : string) (d : DB)
    : result (list Entry) :=
  if closed d then Failure ("failed to list entries: " ++ errClosed)
  else
    let keep e :=
      (String.eqb month "" || String.eqb (year_month (Date e)) month)
      && (String.eqb source "" || String.eqb (Source e) source)
      && (String.eqb entryType "" || String.eqb (Type_ e) entryType) in
    Success (order_by_date_id (List.filter keep (rows d))).

Definition set_fields (amount : option Z) (source note : option string)
    (e : Entry) : Entry :=
  mkEntry (ID e)
    (match amount with Some a => a | None => Amount e end)
    (match source with Some s => s | None => Source e end)
    (Type_ e)
    (match note with Some n => n | None => Note e end)
    (Date e) (CreatedAt e).

Definition UpdateEntry (id : Z) (amount : option Z)
    (source note : option string) (d : DB) : option string * DB :=
  match GetEntry id d with
  | Failure err => (Some err, d)
  | Success _ =>
      match amount, source, note with
      | None, None, None => (Some "no fields to update", d)
      | _, _, _ =>
          (None,
           mkDB (List.map (fun e => if ID e =? id
                                    then set_fields amount source note e
                                    else e) (rows d))
             (seq d) (clock d) (closed d))
      end
  end.

Definition DeleteEntry (id : Z) (d : DB) : option string * DB :=
  if closed d then (Some ("failed to delete entry: " ++ errClosed), d)
  else if List.existsb (fun e => ID e =? id) (rows d)
  then (None,
        mkDB (List.filter (fun e => negb (ID e =? id)) (rows d))
          (seq d) (clock d) (closed d))
  else (Some ("entry not found: " ++ fmt.Sprintf_d id), d).

(** [GetAllEntries] returns all entries (for TUI). *)
Definition GetAllEntries (d : DB) : result (list Entry) :=
  ListEntries "" "" "" d.

(** [MonthlyReport] contains aggregated data for a month; the map
    [BySource] is kept as a list of keys with their values, a key at most
    once. *)
Record MonthlyReport : Type := mkReport {
  Month : string;
  TotalRevenue : Z;
  RecurringRevenue : Z;
  OneTimeRevenue : Z;
  BySource : list (string * Z);
  EntryCount : Z
}.

(** [m[k]]: the value of a missing key is 0. *)
Fixpoint lookup (m : list (string * Z)) (k : string) : Z :=
  match m with
  | [] => 0
  | (k', x) :: m' => if String.eqb k' k then x else lookup m' k
  end.

(** [m[k] += v] *)
Fixpoint add_to (m : list (string * Z)) (k : string) (v : Z)
    : list (string * Z) :=
  match m with
  | [] => [(k, wrap64 (0 + v))]
  | (k', x) :: m' =>
      if String.eqb k' k then (k', wrap64 (x + v)) :: m'
      else (k', x) :: add_to m' k v
  end.

(** One iteration of the loop of [GetMonthlyReport]. *)
Definition account (r : MonthlyReport) (e : Entry) : MonthlyReport :=
  let total := wrap64 (TotalRevenue r + Amount e) in
  let rec := if String.eqb (Type_ e) "recurring"
             then wrap64 (RecurringRevenue r + Amount e)
             else RecurringRevenue r in
  let one := if String.eqb (Type_ e) "recurring"
             then OneTimeRevenue r
             else wrap64 (OneTimeRevenue r + Amount e) in
  mkReport (Month r) total rec one (add_to (BySource r) (Source e) (Amount e))
    (EntryCount r).

(** [GetMonthlyReport] generates a report for a specific month. *)
Definition GetMonthlyReport (month : string) (d : DB) : result MonthlyReport :=
  match ListEntries month "" "" d with
  | Failure err => Failure err
  | Success entries =>
      Success (List.fold_left account entries
                 (mkReport month 0 0 0 [] (Z.of_nat (List.length entries))))
  end.

(** The constraints of the schema: [id] is a primary key, assigned by
    AUTOINCREMENT from [1] on and never above the sequence. *)
Definition wf (d : DB) : Prop :=
  0 <= seq d <= int_max /\
  NoDup (List.map ID (rows d)) /\
  Forall (fun e => 1 <= ID e <= seq d) (rows d).

(** The order of [ORDER BY date DESC, id DESC] between a row and a later
    one. *)
Definition ordered (a b : Entry) : Prop := before b a = false.

End db.

#[export] Instance db_store : RecordStore db.DB := {
  GetAllEntries := db.GetAllEntries;
  AddEntry := db.AddEntry;
  UpdateEntry := db.UpdateEntry;
  DeleteEntry := db.DeleteEntry
}.

(** ** Package [tcell]: what the controller uses of the terminal *)

Module tcell.

Inductive Color : Type :=
| ColorDefault | ColorTeal | ColorDarkBlue | ColorWhite | ColorGreen
| ColorPurple | ColorGray | ColorYellow | ColorRed | ColorDarkGray.

Record Style : Type := mkStyle { fg : Color; bg : Color; bold : bool }.

Definition StyleDefault : Style := mkStyle ColorDefault ColorDefault false.
Definition Foreground (c : Color) (s : Style) : Style :=
  mkStyle c (bg s) (bold s).
Definition Background (c : Color) (s : Style) : Style :=
  mkStyle (fg s) c (bold s).
Definition Bold (b : bool) (s : Style) : Style := mkStyle (fg s) (bg s) b.

Inductive Key : Type :=
| KeyEscape | KeyEnter | KeyBackspace | KeyBackspace2 | KeyRune | KeyOther.

(** What [PollEvent] returns: a resize to a width and a height, a key
    with its rune, or an event of another kind. *)
Inductive Event : Type :=
| EventResize (w h : Z)
| EventKey (k : Key) (r : Z)
| EventOther.

(** A cell write [SetContent(x, y, r, nil, style)]. *)
Record Cell : Type := mkCell { cx : Z; cy : Z; crune : Z; cstyle : Style }.

(** The screen: its size and the cell writes since the last [Clear],
    most recent first. *)
Record Screen : Type := mkScreen { Size : Z * Z; cells : list Cell }.

Definition Clear (s : Screen) : Screen := mkScreen (Size s) [].
Definition SetContent (x y r : Z) (st : Style) (s : Screen) : Screen :=
  mkScreen (Size s) (mkCell x y r st :: cells s).

(** The terminal is resized before its resize event is posted. *)
Definition deliver (ev : Event) (s : Screen) : Screen :=
  match ev with
  | EventResize w h => mkScreen (w, h) (cells s)
  | _ => s
  end.

End tcell.

(** ** Package [ui]: the controller *)

Module ui.

Import models tcell.

(** [TUI] represents the terminal UI. *)
Record TUI : Type := mkTUI {
  screen : Screen;
  entries : list Entry;
  selected : Z;
  offset : Z;
  width : Z;
  height : Z;
  inputMode : string;
  inputBuf : string;
  message : string;
  msgStyle : Style
}.

Definition set_screen (v : Screen) (t : TUI) : TUI :=
  mkTUI v (entries t) (selected t) (offset t) (width t) (height t)
    (inputMode t) (inputBuf t) (message t) (msgStyle t).
Definition set_entries (v : list Entry) (t : TUI) : TUI :=
  mkTUI (screen t) v (selected t) (offset t) (width t) (height t)
    (inputMode t) (inputBuf t) (message t) (msgStyle t).
Definition set_selected (v : Z) (t : TUI) : TUI :=
  mkTUI (screen t) (entries t) v (offset t) (width t) (height t)
    (inputMode t) (inputBuf t) (message t) (msgStyle t).
Definition set_offset (v : Z) (t : TUI) : TUI :=
  mkTUI (screen t) (entries t) (selected t) v (width t) (height t)
    (inputMode t) (inputBuf t) (message t) (msgStyle t).
Definition set_size (v : Z * Z) (t : TUI) : TUI :=
  mkTUI (screen t) (entries t) (selected t) (offset t) (fst v) (snd v)
    (inputMode t) (inputBuf t) (message t) (msgStyle t).
Definition set_inputMode (v : string) (t : TUI) : TUI :=
  mkTUI (screen t) (entries t) (selected t) (offset t) (width t) (height t)
    v (inputBuf t) (message t) (msgStyle t).
Definition set_inputBuf (v : string) (t : TUI) : TUI :=
  mkTUI (screen t) (entries t) (selected t) (offset t) (width t) (height t)
    (inputMode t) v (message t) (msgStyle t).
Definition set_message (v : string) (t : TUI) : TUI :=
  mkTUI (screen t) (entries t) (selected t) (offset t) (width t) (height t)
    (inputMode t) (inputBuf t) v (msgStyle t).

(** [len(t.entries)] *)
Definition count (t : TUI) : Z := Z.of_nat (List.length (entries t)).

(** [l[i]]: Go panics unless [0 <= i < len(l)]. *)
Definition index {A : Type} (l : list A) (i : Z) : res A :=
  if (0 <=? i) && (i <? Z.of_nat (List.length l)) then
    match List.nth_error l (Z.to_nat i) with
    | Some a => Ok a
    | None => Panic
    end
  else Panic.

Definition red : Style := Foreground ColorRed StyleDefault.
Definition green : Style := Foreground ColorGreen StyleDefault.

Definition setMessage (msg : string) (style : Style) (t : TUI) : TUI :=
  mkTUI (screen t) (entries t) (selected t) (offset t) (width t) (height t)
    (inputMode t) (inputBuf t) msg style.

Definition adjustOffset (t : TUI) : TUI :=
  let visibleRows := wrap64 (height t - 6) in (* header + footer *)
  let visibleRows := if visibleRows <? 1 then 1 else visibleRows in
  let t := if selected t <? offset t then set_offset (selected t) t else t in
  if selected t >=? wrap64 (offset t + visibleRows)
  then set_offset (wrap64 (wrap64 (selected t - visibleRows) + 1)) t
  else t.

Definition moveDown (t : TUI) : TUI :=
  if selected t <? wrap64 (count t - 1)
  then adjustOffset (set_selected (wrap64 (selected t + 1)) t)
  else t.

Definition moveUp (t : TUI) : TUI :=
  if selected t >? 0
  then adjustOffset (set_selected (wrap64 (selected t - 1)) t)
  else t.

Section WithStore.

Context `{GoLib} {S : Type} `{RecordStore S}.

Definition refresh (t : TUI) (st : S) : TUI :=
  match GetAllEntries st with
  | Failure err => setMessage ("Error loading entries: " ++ err) red t
  | Success es =>
      let t := set_entries es t in
      if (selected t >=? count t) && (count t >? 0)
      then set_selected (wrap64 (count t - 1)) t
      else t
  end.

(** [submitInput]: what Enter does in an input mode, at the clock
    reading [now].  The result is the function's boolean, the
    controller and the store. *)
Definition submitInput (now : time.Time) (t : TUI) (st : S)
    : res (bool * TUI * S) :=
  if String.eqb (inputMode t) "add" then
    let amountStr := strings.TrimPrefix (inputBuf t) "$" in
    match ParseFloat amountStr with
    | None => Ok (true, setMessage "Invalid amount" red t, st)
    | Some amountFloat =>
        let amountCents :=
          Float64.to_int64 (Float64.mul amountFloat (Float64.of_int 100)) in
        match AddEntry amountCents "manual" "recurring" "" now st with
        | (Failure err, st') => Ok (true, setMessage ("Error: " ++ err) red t, st')
        | (Success _, st') => Ok (true, setMessage "Entry added!" green t, st')
        end
    end
  else if String.eqb (inputMode t) "edit" then
    if count t =? 0 then Ok (true, t, st)
    else
      let amountStr := strings.TrimPrefix (inputBuf t) "$" in
      match ParseFloat amountStr with
      | None => Ok (true, setMessage "Invalid amount" red t, st)
      | Some amountFloat =>
          let amountCents :=
            Float64.to_int64 (Float64.mul amountFloat (Float64.of_int 100)) in
          entry <- index (entries t) (selected t) ;;
          match UpdateEntry (ID entry) (Some amountCents) None None st with
          | (Some err, st') => Ok (true, setMessage ("Error: " ++ err) red t, st')
          | (None, st') => Ok (true, setMessage "Entry updated!" green t, st')
          end
      end
  else if String.eqb (inputMode t) "delete" then
    if String.eqb (ToLower (inputBuf t)) "y" && (count t >? 0) then
      entry <- index (entries t) (selected t) ;;
      match DeleteEntry (ID entry) st with
      | (Some err, st') => Ok (true, setMessage ("Error: " ++ err) red t, st')
      | (None, st') =>
          let t := setMessage "Entry deleted!" green t in
          let t := if selected t >? 0
                   then set_selected (wrap64 (selected t - 1)) t else t in
          Ok (true, t, st')
      end
    else Ok (true, set_message "" t, st)
  else Ok (true, t, st).

Definition handleInput (now : time.Time) (k : Key) (r : Z) (t : TUI) (st : S)
    : res (bool * TUI * S) :=
  match k with
  | KeyEscape => Ok (true, set_message "" t, st)
  | KeyEnter => submitInput now t st
  | KeyBackspace | KeyBackspace2 =>
      if len (inputBuf t) >? 0 then
        b <- slice_to (inputBuf t) (wrap64 (len (inputBuf t) - 1)) ;;
        Ok (false, set_inputBuf b t, st)
      else Ok (false, t, st)
  | KeyRune => Ok (false, set_inputBuf (inputBuf t ++ utf8.EncodeRune r) t, st)
  | KeyOther => Ok (false, t, st)
  end.

End WithStore.

(** *** Rendering *)

Definition put (x y r : Z) (style : Style) (t : TUI) : TUI :=
  set_screen (SetContent x y r style (screen t)) t.

Fixpoint drawRunes (x y : Z) (l : list (Z * Z)) (style : Style) (t : TUI)
    : TUI :=
  match l with
  | [] => t
  | (i, r) :: l' =>
      if wrap64 (x + i) >=? width t then t
      else drawRunes x y l' style (put (wrap64 (x + i)) y r style t)
  end.

Definition drawString (x y : Z) (str : string) (style : Style) (t : TUI)
    : TUI :=
  drawRunes x y (utf8.range str) style t.

(** [for x := lo; x < hi; x++ { SetContent(x, y, r, nil, style) }] *)
Definition fill (lo hi y r : Z) (style : Style) (t : TUI) : TUI :=
  List.fold_left (fun t k => put (lo + Z.of_nat k) y r style t)
    (List.seq 0 (Z.to_nat (hi - lo))) t.

Definition headerStyle : Style :=
  Foreground ColorTeal (Bold true StyleDefault).
Definition selectedStyle : Style :=
  Foreground ColorWhite (Background ColorDarkBlue StyleDefault).
Definition normalStyle : Style := StyleDefault.
Definition amountStyle : Style := Foreground ColorGreen StyleDefault.
Definition sourceStyle : Style := Foreground ColorPurple StyleDefault.
Definition helpStyle : Style := Foreground ColorGray StyleDefault.

(** The title: the money-bag emoji (U+1F4B0) and the program's name. *)
Definition title : string :=
  bytes_to_string [240; 159; 146; 176] ++ " MRR Tracker".

Definition help : string :=
  "j/k: navigate | a: add | e: edit | d: delete | r: refresh | q: quit".

(** The sum of the amounts of the recurring entries. *)
Definition totalMRR (es : list Entry) : Z :=
  List.fold_left
    (fun acc e =>
       if String.eqb (Type_ e) "recurring" then wrap64 (acc + Amount e)
       else acc)
    es 0.

(** The number of rows [render] gives to the entries. *)
Definition visibleRows (h : Z) : Z :=
  let v := wrap64 (h - 7) in if v <? 1 then 1 else v.

(** The note as [render] shows it in a terminal of width [w]. *)
Definition shownNote (w : Z) (note : string) : res string :=
  let maxNoteLen := wrap64 (w - 58) in
  let maxNoteLen := if maxNoteLen <? 0 then 0 else maxNoteLen in
  if len note >? maxNoteLen then
    s <- slice_to note (wrap64 (maxNoteLen - 3)) ;;
    Ok (s ++ "...")
  else Ok note.

(** One iteration of the loop over the visible entries: the row of
    entry [i] drawn on line [y]. *)
Definition renderRow (i y : Z) (t : TUI) : res TUI :=
  e <- index (entries t) i ;;
  let sel := i =? selected t in
  let style := if sel then selectedStyle else normalStyle in
  let t := if sel then fill 0 (width t) y 32 selectedStyle t else t in
  let t := drawString 2 y (fmt.Sprintf_d (ID e)) style t in
  let t := drawString 8 y (time.FormatDate (Date e)) style t in
  let t :=
    if sel then
      drawString 32 y (Source e) selectedStyle
        (drawString 20 y (FormatAmount (Amount e) "USD") selectedStyle t)
    else
      drawString 32 y (Source e) sourceStyle
        (drawString 20 y (FormatAmount (Amount e) "USD") amountStyle t) in
  let typeStyle :=
    if String.eqb (Type_ e) "one-time" && negb sel
    then Foreground ColorYellow StyleDefault else style in
  let t := drawString 44 y (Type_ e) typeStyle t in
  note <- shownNote (width t) (Note e) ;;
  Ok (drawString 56 y note style t).

(** [for i := t.offset; i < len(t.entries) && i-t.offset < visibleRows; i++],
    continued from index [i] with [y] the line drawn last. *)
Fixpoint renderRows (fuel : nat) (rows i y : Z) (t : TUI) : res TUI :=
  match fuel with
  | O => Ok t
  | Datatypes.S fuel' =>
      if (i <? count t) && (wrap64 (i - offset t) <? rows) then
        let y := wrap64 (y + 1) in
        t' <- renderRow i y t ;;
        renderRows fuel' rows (wrap64 (i + 1)) y t'
      else Ok t
  end.

(** The first lines of [render]: title, total, column headers and
    separator. *)
Definition drawHeader (t : TUI) : TUI :=
  (* Title *)
  let t := drawString 2 0 title headerStyle t in
  (* Calculate total MRR *)
  let mrrStr := "MRR: " ++ FormatAmount (totalMRR (entries t)) "USD" in
  let t := drawString (wrap64 (wrap64 (width t - len mrrStr) - 2)) 0 mrrStr
             (Bold true amountStyle) t in
  (* Column headers *)
  let y := 2 in
  let t := drawString 2 y "ID" headerStyle t in
  let t := drawString 8 y "Date" headerStyle t in
  let t := drawString 20 y "Amount" headerStyle t in
  let t := drawString 32 y "Source" headerStyle t in
  let t := drawString 44 y "Type" headerStyle t in
  let t := drawString 56 y "Note" headerStyle t in
  (* Separator *)
  let y := 3 in
  fill 2 (wrap64 (width t - 2)) y 9472 (Foreground ColorGray StyleDefault) t.

(** The last lines of [render]: the footer or help line and the status
    bar. *)
Definition drawFooter (t : TUI) : TUI :=
  (* Footer / Help *)
  let footerY := wrap64 (height t - 2) in
  let t :=
    if negb (String.eqb (message t) "") || negb (String.eqb (inputMode t) "")
    then
      let msg := if negb (String.eqb (inputMode t) "")
                 then message t ++ inputBuf t ++ "_" else message t in
      drawString 2 footerY msg (msgStyle t) t
    else drawString 2 footerY help helpStyle t in
  (* Status bar *)
  let statusY := wrap64 (height t - 1) in
  let status := " " ++ fmt.Sprintf_d (count t) ++ " entries " in
  let status :=
    if count t >? 0
    then status ++ "| " ++ fmt.Sprintf_d (wrap64 (selected t + 1)) ++ "/"
           ++ fmt.Sprintf_d (count t) ++ " "
    else status in
  drawString 0 statusY status
    (Foreground ColorWhite (Background ColorDarkGray StyleDefault)) t.

Definition render (t : TUI) : res TUI :=
  let t := set_screen (Clear (screen t)) t in
  let t := set_size (Size (screen t)) t in
  let t := drawHeader t in
  (* Entries: the separator is on line 3 *)
  t <- renderRows (Datatypes.S (List.length (entries t)))
         (visibleRows (height t)) (offset t) 3 t ;;
  Ok (drawFooter t).

(** *** The event loop *)

(** What the handling of one event decides before anything is drawn. *)
Inductive action (S : Type) : Type :=
| Quit                          (* [return nil] *)
| Redraw (t : TUI) (st : S)     (* go on to [t.render()] *)
| Idle (t : TUI) (st : S).      (* an event the loop ignores *)
Arguments Quit {S}.
Arguments Redraw {S} t st.
Arguments Idle {S} t st.

Section Loop.

Context `{GoLib} {S : Type} `{RecordStore S}.

(** A key in Normal mode. *)
Definition normalKey (k : Key) (r : Z) (t : TUI) (st : S) : action S :=
  match k with
  | KeyEscape => Quit
  | KeyRune =>
      if r =? 113 (* q *) then Quit
      else if r =? 106 (* j *) then Redraw (moveDown t) st
      else if r =? 107 (* k *) then Redraw (moveUp t) st
      else if r =? 103 (* g *) then
        Redraw (set_offset 0 (set_selected 0 t)) st
      else if r =? 71 (* G *) then
        Redraw (adjustOffset (set_selected (wrap64 (count t - 1)) t)) st
      else if r =? 97 (* a *) then
        Redraw (set_message "Add entry (amount): "
                  (set_inputBuf "" (set_inputMode "add" t))) st
      else if r =? 101 (* e *) then
        if count t >? 0
        then Redraw (set_message "Edit amount: "
                       (set_inputBuf "" (set_inputMode "edit" t))) st
        else Redraw t st
      else if r =? 100 (* d *) then
        if count t >? 0
        then Redraw (set_message "Delete this entry? (y/n): "
                       (set_inputMode "delete" t)) st
        else Redraw t st
      else if r =? 114 (* r *) then
        Redraw (setMessage "Refreshed" green (refresh t st)) st
      else Redraw t st
  | _ => Redraw t st
  end.

(** The body of the loop of [run] up to the call of [render]. *)
Definition handleEvent (now : time.Time) (ev : Event) (t : TUI) (st : S)
    : res (action S) :=
  match ev with
  | EventResize w h => Ok (Redraw (set_size (w, h) t) st)
  | EventKey k r =>
      if negb (String.eqb (inputMode t) "") then
        x <- handleInput now k r t st ;;
        let '(done, t, st) := x in
        if (done : bool)
        then Ok (Redraw (refresh (set_inputBuf "" (set_inputMode "" t)) st) st)
        else Ok (Redraw t st)
      else Ok (normalKey k r t st)
  | EventOther => Ok (Idle t st)
  end.

(** One iteration of the loop of [run]: [None] when [run] returns. *)
Definition loopBody (now : time.Time) (ev : Event) (t : TUI) (st : S)
    : res (option (TUI * S)) :=
  let t := set_screen (deliver ev (screen t)) t in
  a <- handleEvent now ev t st ;;
  match a with
  | Quit => Ok None
  | Redraw t st => t' <- render t ;; Ok (Some (t', st))
  | Idle t st => Ok (Some (t, st))
  end.

(** The loop over the events [evs], each with the clock reading at
    which it is handled. *)
Fixpoint loop (evs : list (time.Time * Event)) (t : TUI) (st : S)
    : res (option (TUI * S)) :=
  match evs with
  | [] => Ok (Some (t, st))
  | (now, ev) :: evs' =>
      o <- loopBody now ev t st ;;
      match o with
      | None => Ok None
      | Some (t', st') => loop evs' t' st'
      end
  end.

(** [run]: the first refresh and render, then the loop. *)
Definition run (evs : list (time.Time * Event)) (t : TUI) (st : S)
    : res (option (TUI * S)) :=
  t <- render (refresh t st) ;;
  loop evs t st.

End Loop.

(** [Run] starts the controller on a screen: no entry, cursor at 0. *)
Definition start (scr : Screen) : TUI :=
  mkTUI scr [] 0 0 0 0 "" "" "" StyleDefault.

End ui.

(** ** A concrete library, for running the controller

    [strconv.ParseFloat] on plain decimal literals (an optional sign,
    digits, an optional fraction) whose digits make a number below [2^53]
    with at most 22 decimals: there strconv divides the exactly
    represented mantissa by the exactly represented power of ten, one
    correctly rounded IEEE division.  Every other string is rejected by
    this instance.  The lower-case table is an excerpt of Unicode's. *)
Module golib.

Definition is_digit (c : ascii) : bool :=
  let b := byte_of c in (48 <=? b) && (b <=? 57).

(** The digits at the head of [s]: their value after [acc], their
    number, and the rest of [s]. *)
Fixpoint read_digits (s : string) (acc : Z) (n : nat) : Z * nat * string :=
  match s with
  | String c s' =>
      if is_digit c then read_digits s' (acc * 10 + (byte_of c - 48)) (Datatypes.S n)
      else (acc, n, s)
  | EmptyString => (acc, n, s)
  end.

Definition parse_unsigned (s : string) : option Float64.t :=
  let '(ip, ni, rest) := read_digits s 0 0%nat in
  let '(m, nf, rest') :=
    match rest with
    | String "." rest1 => read_digits rest1 ip 0%nat
    | _ => (ip, 0%nat, rest)
    end in
  match rest' with
  | EmptyString =>
      if (Nat.eqb (ni + nf) 0) || (2 ^ 53 <=? m) || (22 <? nf)%nat then None
      else Some (Float64.div (Float64.of_int m)
                   (Float64.of_int (10 ^ Z.of_nat nf)))
  | _ => None
  end.

Definition ParseFloat (s : string) : option Float64.t :=
  match s with
  | String "-" s' => option_map SFopp (parse_unsigned s')
  | String "+" s' => parse_unsigned s'
  | _ => parse_unsigned s
  end.

(** Capitals of Latin-1, Greek and Cyrillic, the dotted capital I, the
    Kelvin and Angstrom signs; every other rune is left as it is. *)
Definition lowerTable (r : Z) : Z :=
  if (192 <=? r) && (r <=? 222) && negb (r =? 215) then r + 32
  else if r =? 304 then 105
  else if (913 <=? r) && (r <=? 937) && negb (r =? 930) then r + 32
  else if (1024 <=? r) && (r <=? 1039) then r + 80
  else if (1040 <=? r) && (r <=? 1071) then r + 32
  else if r =? 8490 then 107
  else if r =? 8491 then 229
  else r.

End golib.

Definition decimalLib : GoLib := {|
  ParseFloat := golib.ParseFloat;
  lowerTable := golib.lowerTable
|}.

(** The doubles nearest to 49.99 and to 19.5. *)
Definition d49_99 : Float64.t := S754_finite false 7035467042882847 (-47).
Definition d19_5 : Float64.t := S754_finite false 5488762045857792 (-48).

(** [f] is a normal double within half a unit in the last place of
    [num / den]: the double a correctly rounding parser returns for it
    (the case of a tie does not arise below). *)
Definition nearest_double (num den : Z) (f : Float64.t) : Prop :=
  match f with
  | S754_finite false m e =>
      2 ^ 52 <= Z.pos m < 2 ^ 53 /\ e < 0 /\ 0 < den /\
      Z.abs (2 * (Z.pos m * den - num * 2 ^ (- e))) < den
  | _ => False
  end.

(** ** Well-formed controller states and sample data *)

Import models tcell ui.

(** Go's typing of the controller: its integers are 64-bit, and a slice
    has at most [int_max] elements. *)
Definition int_ok (z : Z) : bool := (int_min <=? z) && (z <=? int_max).

Definition well_typed (t : TUI) : Prop :=
  int_ok (selected t) && int_ok (offset t) && int_ok (width t)
  && int_ok (height t) && (count t <=? int_max) = true.

(** The cursor designates an entry. *)
Definition cursor_ok (t : TUI) : Prop := 0 <= selected t < count t.

(** The number of rows [adjustOffset] scrolls by. *)
Definition scrollRows (h : Z) : Z :=
  let v := wrap64 (h - 6) in if v <? 1 then 1 else v.

(** The cursor is inside the window of [rows] rows that starts at the
    offset. *)
Definition in_window (rows : Z) (t : TUI) : Prop :=
  offset t <= selected t <= offset t + rows - 1.

(** The amount in cents that [submitInput] makes of a parsed double:
    [int64(amountFloat * 100)]. *)
Definition cents (f : Float64.t) : Z :=
  Float64.to_int64 (Float64.mul f (Float64.of_int 100)).

(** What the scroll arithmetic relies on: a typed state, a terminal
    height that is not negative, sizes far from the end of the integers,
    and a cursor on an entry inside the window [adjustOffset] keeps. *)
Definition nav_ok (t : TUI) : Prop :=
  well_typed t /\ 0 <= height t /\ count t + height t <= int_max /\
  cursor_ok t /\ in_window (scrollRows (height t)) t.

(** A press of j ([true]) or of k ([false]) in Normal mode. *)
Definition press (t : TUI) (down : bool) : TUI :=
  if down then moveDown t else moveUp t.

(** [t'] differs from [t] in the screen only. *)
Definition only_screen (t t' : TUI) : Prop :=
  exists s, t' = set_screen s t.

(** What every state before a render satisfies: the cursor is at least
    -1 (the key G on an empty list gives -1, with the offset), it is below
    the number of entries when it is not negative and there are entries,
    and a negative cursor comes with a negative offset. *)
Definition cursor_bounded (t : TUI) : Prop :=
  -1 <= selected t <= int_max /\ count t <= int_max /\
  (0 < count t -> 0 <= selected t -> selected t < count t) /\
  (selected t < 0 -> offset t < 0).

(** What every state after a render satisfies: moreover the cursor
    designates an entry whenever there is one. *)
Definition cursor_valid (t : TUI) : Prop :=
  cursor_bounded t /\ (0 < count t -> cursor_ok t).

(** The lists that the store returns fit in a Go slice. *)
Definition lists_fit {S : Type} `{RecordStore S} : Prop :=
  forall (st : S) (es : list Entry),
    GetAllEntries st = Success es -> Z.of_nat (List.length es) <= int_max.

(** The status message reports an error. *)
Definition reports_error (t : TUI) : Prop :=
  strings.HasPrefix (message t) "Error" = true /\ msgStyle t = red.

Module sample.

Definition noon : time.Time := time.mkTime 2024 5 17 12 30 0.
Definition day : time.Time := time.mkTime 2024 5 17 0 0 0.

Definition emptyDB : db.DB := db.mkDB [] 0 noon false.
Definition closedDB : db.DB := db.mkDB [] 0 noon true.

Definition entry (id : Z) (note : string) : Entry :=
  mkEntry id 1000 "manual" "recurring" note day noon.

(** [n] entries with identifiers [n .. 1], the store's order. *)
Definition entriesN (n : nat) : list Entry :=
  List.map (fun k => entry (Z.of_nat (n - k)) "") (List.seq 0 n).

Definition screen80x24 : Screen := mkScreen (80, 24) [].

(** A controller in Normal mode over [es]. *)
Definition normal (scr : Screen) (es : list Entry) (sel off : Z) : TUI :=
  mkTUI scr es sel off (fst (Size scr)) (snd (Size scr)) "" "" ""
    StyleDefault.

(** A store that holds [n] entries. *)
Definition storeN (n : nat) : db.DB :=
  db.mkDB (entriesN n) (Z.of_nat n) noon false.

(** A controller in an input mode with a typed buffer. *)
Definition typing (mode buf : string) (es : list Entry) (sel : Z) : TUI :=
  mkTUI screen80x24 es sel 0 80 24 mode buf "" StyleDefault.

End sample.

(** ** Further notions *)

(** The exact sum of the amounts of the recurring entries. *)
Definition recurringSum (es : list Entry) : Z :=
  List.fold_right
    (fun e acc => if String.eqb (Type_ e) "recurring" then Amount e + acc
                  else acc)
    0 es.

(** The exact sum of the amounts of the entries that [p] selects. *)
Definition amountSum (p : Entry -> bool) (es : list Entry) : Z :=
  List.fold_right (fun e acc => if p e then Amount e + acc else acc) 0 es.

(** The sum of the values of a map. *)
Definition valueSum (m : list (string * Z)) : Z :=
  List.fold_right (fun kv acc => snd kv + acc) 0 m.

(** The mode is one of the four of the controller, and the edit and
    delete modes go with at least one entry. *)
Definition mode_ok (t : TUI) : Prop :=
  (inputMode t = "" \/ inputMode t = "add" \/ inputMode t = "edit"
   \/ inputMode t = "delete") /\
  (inputMode t = "edit" \/ inputMode t = "delete" -> 0 < count t).

(** The cell is in the style of the selected row: white on dark blue. *)
Definition highlighted (c : Cell) : bool :=
  match fg (cstyle c), bg (cstyle c) with
  | ColorWhite, ColorDarkBlue => true
  | _, _ => false
  end.

(** [f] holds of the [fuel] integers from [c] on. *)
Fixpoint all_from (fuel : nat) (c : Z) (f : Z -> bool) : bool :=
  match fuel with
  | O => true
  | Datatypes.S fuel' => f c && all_from fuel' (c + 1) f
  end.

(** The amount of [c] cents written with two decimals, as in 0.29. *)
Definition literal (c : Z) : string :=
  fmt.digits (c / 100) ++ "." ++ fmt.appendInt (c mod 100) 2.

(** The double nearest to [c / 100], as IEEE division gives it. *)
Definition hundredth (c : Z) : Float64.t :=
  Float64.div (Float64.of_int c) (Float64.of_int 100).

(** The literal of [c] cents parses, and its cents are [c] or [c - 1]. *)
Definition parses_within_a_cent (c : Z) : bool :=
  match golib.ParseFloat (strings.TrimPrefix (literal c) "$") with
  | Some f => (cents f =? c) || (cents f =? c - 1)
  | None => false
  end.

(** [c] cents as a float are printed as the literal of [c]. *)
Definition prints_exactly (c : Z) : bool :=
  String.eqb (fmt.Sprintf_2f (hundredth c)) (literal c).

(** The amounts the two computations above are run for: below 100.00. *)
Definition checked_amounts : Z := 10000.

(** * Properties *)

(** ** Arithmetic of machine integers *)

Lemma wrap64_small (z : Z) : int_min <= z <= int_max -> wrap64 z = z.
Proof.
  unfold wrap64, int_min, int_max. intros Hz.
  rewrite Z.mod_small; lia.
Qed.

Lemma int_ok_spec (z : Z) : int_ok z = true <-> int_min <= z <= int_max.
Proof.
  unfold int_ok. rewrite andb_true_iff, !Z.leb_le. tauto.
Qed.

Lemma well_typed_spec (t : TUI) :
  well_typed t <->
  (int_min <= selected t <= int_max) /\ (int_min <= offset t <= int_max) /\
  (int_min <= width t <= int_max) /\ (int_min <= height t <= int_max) /\
  count t <= int_max.
Proof.
  unfold well_typed. rewrite !andb_true_iff, !int_ok_spec, Z.leb_le. tauto.
Qed.

Lemma count_nonneg (t : TUI) : 0 <= count t.
Proof. unfold count. lia. Qed.

Lemma int_bounds : int_min = -9223372036854775808 /\ int_max = 9223372036854775807.
Proof. split; reflexivity. Qed.

Ltac int_arith :=
  pose proof int_bounds as [? ?]; lia.

(** Indexing succeeds exactly inside the slice. *)
Lemma index_Ok_iff {A : Type} (l : list A) (i : Z) :
  (exists a, index l i = Ok a) <-> 0 <= i < Z.of_nat (List.length l).
Proof.
  unfold index. split.
  - intros [a Ha].
    destruct ((0 <=? i) && (i <? Z.of_nat (Datatypes.length l))) eqn:E;
      [| discriminate].
    apply andb_true_iff in E. destruct E as [E1 E2].
    apply Z.leb_le in E1. apply Z.ltb_lt in E2. lia.
  - intros Hi.
    assert (E : (0 <=? i) && (i <? Z.of_nat (Datatypes.length l)) = true).
    { apply andb_true_iff. split; [apply Z.leb_le | apply Z.ltb_lt]; lia. }
    rewrite E.
    destruct (nth_error l (Z.to_nat i)) eqn:N; [eauto |].
    apply nth_error_None in N. lia.
Qed.

Lemma index_Ok_range {A : Type} (l : list A) (i : Z) (a : A) :
  index l i = Ok a -> 0 <= i < Z.of_nat (List.length l).
Proof. intros Hi. apply index_Ok_iff. eauto. Qed.

(** ** Refresh *)

Section Refresh.

Context `{GoLib} {S : Type} `{RecordStore S}.

Lemma refresh_failure (t : TUI) (st : S) (err : string) :
  GetAllEntries st = Failure err ->
  refresh t st = setMessage ("Error loading entries: " ++ err) red t.
Proof. unfold refresh. intros ->. reflexivity. Qed.

Lemma refresh_success (t : TUI) (st : S) (es : list Entry) :
  GetAllEntries st = Success es ->
  refresh t st =
    (if (selected t >=? Z.of_nat (List.length es))
        && (Z.of_nat (List.length es) >? 0)
     then set_selected (wrap64 (Z.of_nat (List.length es) - 1))
            (set_entries es t)
     else set_entries es t).
Proof. unfold refresh. intros ->. reflexivity. Qed.

(** Refresh touches neither the mode, the buffer, the offset nor the
    screen and its size. *)
Lemma refresh_frame (t : TUI) (st : S) :
  inputMode (refresh t st) = inputMode t /\
  inputBuf (refresh t st) = inputBuf t /\
  offset (refresh t st) = offset t /\
  width (refresh t st) = width t /\
  height (refresh t st) = height t /\
  screen (refresh t st) = screen t.
Proof.
  unfold refresh. destruct (GetAllEntries st) as [es | err].
  - destruct ((selected (set_entries es t) >=? count (set_entries es t))
              && (count (set_entries es t) >? 0));
      repeat split; reflexivity.
  - repeat split; reflexivity.
Qed.

(** C5.  When the store's list-all call fails during a refresh, the
    controller's entries, cursor and offset keep their previous values
    and the status message reports the error (in the error style). *)
Theorem refresh_failure_keeps_view (t : TUI) (st : S) (err : string) :
  GetAllEntries st = Failure err ->
  entries (refresh t st) = entries t /\
  selected (refresh t st) = selected t /\
  offset (refresh t st) = offset t /\
  message (refresh t st) = "Error loading entries: " ++ err /\
  reports_error (refresh t st).
Proof.
  intros Hf. rewrite (refresh_failure t st err Hf).
  unfold reports_error. cbn. repeat split; reflexivity.
Qed.

(** C10.  After a successful refresh from a state whose cursor is not
    negative: when the reloaded list is not empty the cursor is within
    [0, len(entries)-1], clamped down to the last index when it was past
    it and unchanged otherwise; when the list is empty the cursor keeps
    its value.  The cursor is never increased. *)
Theorem refresh_clamps_selected (t : TUI) (st : S) (es : list Entry) :
  GetAllEntries st = Success es ->
  Z.of_nat (List.length es) <= int_max ->
  0 <= selected t ->
  let n := Z.of_nat (List.length es) in
  let t' := refresh t st in
  entries t' = es /\
  (es <> [] -> 0 <= selected t' <= n - 1) /\
  (es <> [] -> n <= selected t -> selected t' = n - 1) /\
  (es <> [] -> selected t < n -> selected t' = selected t) /\
  (es = [] -> selected t' = selected t) /\
  selected t' <= selected t.
Proof.
  intros Hs Hn Hsel n t'. subst t'.
  rewrite (refresh_success t st es Hs). fold n.
  assert (Hlen : es <> [] -> 0 < n).
  { destruct es; [congruence | cbn; lia]. }
  assert (Hnil : es = [] -> n = 0) by (intros ->; reflexivity).
  rewrite Z.geb_leb, Z.gtb_ltb.
  destruct (n <=? selected t) eqn:E1; destruct (0 <? n) eqn:E2; cbn;
    try rewrite wrap64_small by int_arith;
    try apply Z.leb_le in E1; try apply Z.leb_gt in E1;
    try apply Z.ltb_lt in E2; try apply Z.ltb_ge in E2;
    repeat split; intros; try reflexivity;
    try (assert (0 < n) by auto); try (assert (n = 0) by auto); lia.
Qed.

End Refresh.

(** ** Bytes, UTF-8 and lower-casing *)















Section Lower.

Context `{GoLib}.

(** What is assumed of the table of [unicode]: it maps no rune outside
    ASCII to a negative value or to the letter y. *)
Hypothesis table_ok :
  forall r, 128 <= r -> 0 <= lowerTable r /\ lowerTable r <> 121.




End Lower.

(** ** Submitting an input mode *)

Section Submit.

Context `{GoLib} {S : Type} `{RecordStore S}.

Lemma submit_add (now : time.Time) (t : TUI) (st : S) :
  inputMode t = "add" ->
  submitInput now t st =
    match ParseFloat (strings.TrimPrefix (inputBuf t) "$") with
    | None => Ok (true, setMessage "Invalid amount" red t, st)
    | Some f =>
        match AddEntry (cents f) "manual" "recurring" "" now st with
        | (Failure err, st') =>
            Ok (true, setMessage ("Error: " ++ err) red t, st')
        | (Success _, st') =>
            Ok (true, setMessage "Entry added!" green t, st')
        end
    end.
Proof. unfold submitInput. intros ->. reflexivity. Qed.

Lemma submit_edit (now : time.Time) (t : TUI) (st : S) :
  inputMode t = "edit" ->
  submitInput now t st =
    if count t =? 0 then Ok (true, t, st)
    else
      match ParseFloat (strings.TrimPrefix (inputBuf t) "$") with
      | None => Ok (true, setMessage "Invalid amount" red t, st)
      | Some f =>
          entry <- index (entries t) (selected t) ;;
          match UpdateEntry (ID entry) (Some (cents f)) None None st with
          | (Some err, st') =>
              Ok (true, setMessage ("Error: " ++ err) red t, st')
          | (None, st') =>
              Ok (true, setMessage "Entry updated!" green t, st')
          end
      end.
Proof. unfold submitInput. intros ->. reflexivity. Qed.

Lemma submit_delete (now : time.Time) (t : TUI) (st : S) :
  inputMode t = "delete" ->
  submitInput now t st =
    if String.eqb (ToLower (inputBuf t)) "y" && (count t >? 0) then
      entry <- index (entries t) (selected t) ;;
      match DeleteEntry (ID entry) st with
      | (Some err, st') =>
          Ok (true, setMessage ("Error: " ++ err) red t, st')
      | (None, st') =>
          Ok (true,
              (if selected t >? 0
               then set_selected (wrap64 (selected t - 1))
                      (setMessage "Entry deleted!" green t)
               else setMessage "Entry deleted!" green t),
              st')
      end
    else Ok (true, set_message "" t, st).
Proof. unfold submitInput. intros ->. reflexivity. Qed.

(** Enter in an input mode whose submit does not panic: the mode and
    the buffer are cleared and the view is refreshed from the store. *)
Lemma enter_in_input_mode (now : time.Time) (r : Z) (t t1 : TUI)
    (st st1 : S) (b : bool) :
  inputMode t <> "" ->
  submitInput now t st = Ok (b, t1, st1) ->
  b = true ->
  handleEvent now (EventKey KeyEnter r) t st =
    Ok (Redraw (refresh (set_inputBuf "" (set_inputMode "" t1)) st1) st1).
Proof.
  intros Hm Hs ->. unfold handleEvent.
  destruct (String.eqb_spec (inputMode t) "") as [E | _]; [contradiction |].
  cbn [negb handleInput]. rewrite Hs. reflexivity.
Qed.

(** [submitInput] answers [true] whenever it returns. *)
Lemma submit_true (now : time.Time) (t t1 : TUI) (st st1 : S) (b : bool) :
  submitInput now t st = Ok (b, t1, st1) -> b = true.
Proof.
  unfold submitInput. unfold bind.
  repeat match goal with
         | |- context [if ?c then _ else _] => destruct c
         | |- context [match ?x with _ => _ end] => destruct x
         end;
    intros E; try discriminate; injection E; auto.
Qed.

(** C8.  After a confirmed delete that the store carried out, the cursor
    is one less when it was above 0 and is still 0 when it was 0; the
    same holds after the refresh that ends the handling of the key, if
    the store lists at least all entries but the deleted one. *)
Theorem delete_moves_cursor_back (now : time.Time) (r : Z) (t : TUI)
    (st st1 : S) (e : Entry) :
  well_typed t ->
  inputMode t = "delete" ->
  ToLower (inputBuf t) = "y" ->
  index (entries t) (selected t) = Ok e ->
  DeleteEntry (ID e) st = (None, st1) ->
  exists t1 t2,
    submitInput now t st = Ok (true, t1, st1) /\
    selected t1 = (if selected t >? 0 then selected t - 1 else 0) /\
    handleEvent now (EventKey KeyEnter r) t st = Ok (Redraw t2 st1) /\
    (count t - 1 <= count t2 -> selected t2 = selected t1).
Proof.
  intros Wt Hm Hy Hi Hd.
  apply well_typed_spec in Wt. destruct Wt as (Ws & _ & _ & _ & Wn).
  pose proof (index_Ok_range _ _ _ Hi) as Hr. fold (count t) in Hr.
  assert (Hsub : submitInput now t st =
                 Ok (true,
                     (if selected t >? 0
                      then set_selected (wrap64 (selected t - 1))
                             (setMessage "Entry deleted!" green t)
                      else setMessage "Entry deleted!" green t), st1)).
  { rewrite submit_delete by exact Hm. rewrite Hy.
    assert (C : (count t >? 0) = true) by (apply Z.gtb_lt; lia).
    rewrite C. cbn [String.eqb Ascii.eqb Bool.eqb andb]. rewrite Hi.
    cbn [bind]. rewrite Hd. reflexivity. }
  set (t1 := if selected t >? 0
             then set_selected (wrap64 (selected t - 1))
                    (setMessage "Entry deleted!" green t)
             else setMessage "Entry deleted!" green t) in *.
  assert (Hsel : selected t1 = (if selected t >? 0 then selected t - 1 else 0)).
  { subst t1. destruct (selected t >? 0) eqn:G; cbn.
    - apply Z.gtb_lt in G. apply wrap64_small. int_arith.
    - rewrite Z.gtb_ltb in G. apply Z.ltb_ge in G. lia. }
  exists t1. eexists. split; [exact Hsub |]. split; [exact Hsel |].
  split.
  { apply (enter_in_input_mode now r t t1 st st1 true);
      [rewrite Hm; discriminate | exact Hsub | reflexivity]. }
  set (t0 := set_inputBuf "" (set_inputMode "" t1)).
  assert (Hsel0 : selected t0 = selected t1) by reflexivity.
  assert (Hbound : selected t1 <= count t - 1 /\ 0 <= selected t1
                   /\ (selected t1 = count t - 1 -> count t = 1)).
  { rewrite Hsel. destruct (selected t >? 0) eqn:G.
    - apply Z.gtb_lt in G. lia.
    - lia. }
  unfold refresh. destruct (GetAllEntries st1) as [es | err].
  - intros Hc.
    destruct ((selected (set_entries es t0) >=? count (set_entries es t0))
              && (count (set_entries es t0) >? 0)) eqn:C.
    + exfalso. apply andb_true_iff in C. destruct C as [C1 C2].
      rewrite Z.geb_leb in C1. apply Z.leb_le in C1.
      apply Z.gtb_lt in C2.
      cbn [selected set_entries] in C1. fold (selected t0) in C1.
      unfold count in Hc, C1, C2. cbn [entries set_entries set_selected] in Hc.
      change (selected (set_entries es t0)) with (selected t0) in *.
      cbn [entries set_entries] in C1, C2.
      unfold count in Hbound. lia.
    + intros. reflexivity.
  - intros _. reflexivity.
Qed.

End Submit.

Section SubmitAdd.

Context `{GoLib} {S : Type} `{RecordStore S}.

(** C9.  With a parser that returns the nearest double, as
    [strconv.ParseFloat] does, submitting AddInput with the buffer 49.99
    calls insert with 4999 cents, source manual, kind recurring, an empty
    note and the current time, whose date the store keeps; with the
    buffer $19.5 the dollar sign is dropped and the call is made with
    1950 cents. *)
Theorem add_submits_cents (now : time.Time) (t : TUI) (st : S) :
  inputMode t = "add" ->
  ParseFloat "49.99" = Some d49_99 ->
  ParseFloat "19.5" = Some d19_5 ->
  nearest_double 4999 100 d49_99 /\
  nearest_double 195 10 d19_5 /\
  (inputBuf t = "49.99" ->
   submitInput now t st =
     match AddEntry 4999 "manual" "recurring" "" now st with
     | (Failure err, st') => Ok (true, setMessage ("Error: " ++ err) red t, st')
     | (Success _, st') => Ok (true, setMessage "Entry added!" green t, st')
     end) /\
  (inputBuf t = "$19.5" ->
   submitInput now t st =
     match AddEntry 1950 "manual" "recurring" "" now st with
     | (Failure err, st') => Ok (true, setMessage ("Error: " ++ err) red t, st')
     | (Success _, st') => Ok (true, setMessage "Entry added!" green t, st')
     end).
Proof.
  intros Hm P1 P2.
  split; [| split; [| split]].
  - cbn. repeat split; lia.
  - cbn. repeat split; lia.
  - intros Hb. rewrite submit_add by exact Hm. rewrite Hb.
    change (strings.TrimPrefix "49.99" "$") with "49.99".
    rewrite P1. change (cents d49_99) with 4999. reflexivity.
  - intros Hb. rewrite submit_add by exact Hm. rewrite Hb.
    change (strings.TrimPrefix "$19.5" "$") with "19.5".
    rewrite P2. change (cents d19_5) with 1950. reflexivity.
Qed.


End SubmitAdd.

Lemma set_screen_same (t : TUI) : set_screen (screen t) t = t.
Proof. destruct t; reflexivity. Qed.

Lemma error_prefix (err : string) :
  strings.HasPrefix ("Error: " ++ err) "Error" = true.
Proof. reflexivity. Qed.

Section Enter.

Context `{GoLib} {S : Type} `{RecordStore S}.

(** With a cursor that designates an entry whenever there is one,
    [submitInput] does not panic. *)
Lemma submit_returns (now : time.Time) (t : TUI) (st : S) :
  (0 < count t -> cursor_ok t) ->
  exists t1 st1, submitInput now t st = Ok (true, t1, st1).
Proof.
  intros Hc.
  assert (Hidx : 0 < count t -> exists e, index (entries t) (selected t) = Ok e).
  { intros Hp. apply index_Ok_iff. apply Hc. exact Hp. }
  unfold submitInput.
  destruct (String.eqb (inputMode t) "add").
  { destruct (ParseFloat _); [| eauto].
    destruct (AddEntry _ _ _ _ _ _) as [[id | err] st']; eauto. }
  destruct (String.eqb (inputMode t) "edit").
  { destruct (count t =? 0) eqn:C; [eauto |].
    apply Z.eqb_neq in C. pose proof (count_nonneg t).
    destruct (ParseFloat _); [| eauto].
    destruct Hidx as [e He]; [lia |]. rewrite He. cbn [bind].
    destruct (UpdateEntry _ _ _ _ _) as [[err |] st']; eauto. }
  destruct (String.eqb (inputMode t) "delete"); [| eauto].
  destruct (String.eqb (ToLower (inputBuf t)) "y" && (count t >? 0)) eqn:C;
    [| eauto].
  apply andb_true_iff in C. destruct C as [_ C]. apply Z.gtb_lt in C.
  destruct Hidx as [e He]; [lia |]. rewrite He. cbn [bind].
  destruct (DeleteEntry _ _) as [[err |] st']; eauto.
Qed.

Lemma reports_error_refresh (t : TUI) (st : S) :
  reports_error t -> reports_error (refresh t st).
Proof.
  unfold refresh, reports_error.
  destruct (GetAllEntries st) as [es | err]; [| intros _; split; reflexivity].
  destruct ((selected (set_entries es t) >=? count (set_entries es t))
            && (count (set_entries es t) >? 0)); intros E; exact E.
Qed.

(** An iteration of the loop returns only on Escape or q in Normal
    mode; in every other case it renders, unless it faults. *)
Lemma loop_returns_only_on_quit (now : time.Time) (ev : Event) (t : TUI)
    (st : S) :
  loopBody now ev t st = Ok None ->
  inputMode t = "" /\
  exists r, ev = EventKey KeyEscape r \/ ev = EventKey KeyRune 113.
Proof.
  unfold loopBody. cbv zeta.
  set (t0 := set_screen (deliver ev (screen t)) t).
  assert (M : inputMode t0 = inputMode t) by reflexivity.
  destruct ev as [w h | k r |]; cbn [handleEvent bind].
  - destruct (render _); cbn [bind]; discriminate.
  - rewrite M. destruct (String.eqb_spec (inputMode t) "") as [E | E];
      cbn [negb].
    + cbn [bind]. unfold normalKey.
      destruct k;
        try (destruct (render _); cbn [bind]; discriminate).
      * intros _. split; [exact E |]. exists r. left. reflexivity.
      * destruct (r =? 113) eqn:Q.
        { apply Z.eqb_eq in Q. subst r. intros _.
          split; [exact E |]. exists 113. right. reflexivity. }
        repeat match goal with
               | |- context [if ?c then _ else _] => destruct c
               end;
          destruct (render _); cbn [bind]; discriminate.
    + destruct (handleInput now k r t0 st) as [[[done t1] st1] |];
        cbn [bind]; [| discriminate].
      destruct done; cbn [bind]; destruct (render _); cbn [bind];
        discriminate.
  - discriminate.
Qed.

(** Up to the render.  In each input mode and for every buffer, from a
    state whose cursor designates an entry whenever there is one, Enter
    submits and hands [render] a controller in Normal mode with an empty
    buffer, whatever the parser and the store answer.  A failure of the
    store's add, update or delete call is put in the message, which
    stands after the refresh too.  An iteration returns only on Escape
    or q in Normal mode; whether it goes on is up to [render]. *)
Lemma enter_returns_to_normal (now : time.Time) (r : Z) (t : TUI) (st : S) :
  (0 < count t -> cursor_ok t) ->
  inputMode t = "add" \/ inputMode t = "edit" \/ inputMode t = "delete" ->
  exists t1 st1 t2,
    submitInput now t st = Ok (true, t1, st1) /\
    handleEvent now (EventKey KeyEnter r) t st = Ok (Redraw t2 st1) /\
    inputMode t2 = "" /\ inputBuf t2 = "" /\
    loopBody now (EventKey KeyEnter r) t st
      = (t3 <- render t2 ;; Ok (Some (t3, st1))) /\
    (forall now' ev u su,
       loopBody now' ev u su = Ok None ->
       inputMode u = "" /\
       exists c, ev = EventKey KeyEscape c \/ ev = EventKey KeyRune 113) /\
    (forall f err st',
       inputMode t = "add" ->
       ParseFloat (strings.TrimPrefix (inputBuf t) "$") = Some f ->
       AddEntry (cents f) "manual" "recurring" "" now st = (Failure err, st') ->
       message t1 = "Error: " ++ err /\ st1 = st' /\ reports_error t2) /\
    (forall f e err st',
       inputMode t = "edit" ->
       ParseFloat (strings.TrimPrefix (inputBuf t) "$") = Some f ->
       index (entries t) (selected t) = Ok e ->
       UpdateEntry (ID e) (Some (cents f)) None None st = (Some err, st') ->
       message t1 = "Error: " ++ err /\ st1 = st' /\ reports_error t2) /\
    (forall e err st',
       inputMode t = "delete" ->
       ToLower (inputBuf t) = "y" ->
       index (entries t) (selected t) = Ok e ->
       DeleteEntry (ID e) st = (Some err, st') ->
       message t1 = "Error: " ++ err /\ st1 = st' /\ reports_error t2).
Proof.
  intros Hc Hm.
  destruct (submit_returns now t st Hc) as (t1 & st1 & Hs).
  assert (Hne : inputMode t <> "").
  { destruct Hm as [-> | [-> | ->]]; discriminate. }
  pose proof (enter_in_input_mode now r t t1 st st1 true Hne Hs eq_refl) as He.
  set (t2 := refresh (set_inputBuf "" (set_inputMode "" t1)) st1) in *.
  exists t1, st1, t2.
  pose proof (refresh_frame (set_inputBuf "" (set_inputMode "" t1)) st1)
    as (F1 & F2 & _).
  assert (Hl : loopBody now (EventKey KeyEnter r) t st
               = (t3 <- render t2 ;; Ok (Some (t3, st1)))).
  { unfold loopBody. cbn [deliver]. rewrite set_screen_same, He.
    reflexivity. }
  assert (Hrep : forall err, message t1 = "Error: " ++ err ->
                             msgStyle t1 = red -> reports_error t2).
  { intros err M Sty. apply reports_error_refresh.
    split; cbn; [rewrite M; apply error_prefix | exact Sty]. }
  split; [exact Hs |]. split; [exact He |].
  split; [exact F1 |]. split; [exact F2 |]. split; [exact Hl |].
  split; [exact loop_returns_only_on_quit |].
  split; [| split].
  - intros f err st' M P A.
    rewrite submit_add in Hs by exact M. rewrite P, A in Hs.
    injection Hs as <- <-.
    split; [reflexivity | split; [reflexivity |]].
    apply (Hrep err); reflexivity.
  - intros f e err st' M P I U.
    rewrite submit_edit in Hs by exact M.
    pose proof (index_Ok_range _ _ _ I) as R. fold (count t) in R.
    destruct (count t =? 0) eqn:C; [apply Z.eqb_eq in C; lia |].
    rewrite P, I in Hs. cbn [bind] in Hs. rewrite U in Hs.
    injection Hs as <- <-.
    split; [reflexivity | split; [reflexivity |]].
    apply (Hrep err); reflexivity.
  - intros e err st' M Y I D.
    rewrite submit_delete in Hs by exact M.
    pose proof (index_Ok_range _ _ _ I) as R. fold (count t) in R.
    assert (C : (count t >? 0) = true) by (apply Z.gtb_lt; lia).
    rewrite Y, C, I in Hs. cbn [String.eqb Ascii.eqb Bool.eqb andb bind] in Hs.
    rewrite D in Hs. injection Hs as <- <-.
    split; [reflexivity | split; [reflexivity |]].
    apply (Hrep err); reflexivity.
Qed.


End Enter.

(** ** Cursor and scroll arithmetic *)

Lemma scrollRows_eq (h : Z) :
  0 <= h <= int_max -> scrollRows h = Z.max 1 (h - 6).
Proof.
  intros Hh. unfold scrollRows. rewrite wrap64_small by int_arith.
  destruct (h - 6 <? 1) eqn:E;
    [apply Z.ltb_lt in E | apply Z.ltb_ge in E]; lia.
Qed.

Lemma visibleRows_eq (h : Z) :
  0 <= h <= int_max -> visibleRows h = Z.max 1 (h - 7).
Proof.
  intros Hh. unfold visibleRows. rewrite wrap64_small by int_arith.
  destruct (h - 7 <? 1) eqn:E;
    [apply Z.ltb_lt in E | apply Z.ltb_ge in E]; lia.
Qed.

(** [adjustOffset] changes the offset only, and brings the cursor into
    the window of [scrollRows] rows, whatever the offset was. *)
Lemma adjustOffset_window (t : TUI) :
  well_typed t -> 0 <= height t -> 0 <= selected t < int_max ->
  selected t + height t <= int_max ->
  let t' := adjustOffset t in
  entries t' = entries t /\ selected t' = selected t /\
  height t' = height t /\ well_typed t' /\
  in_window (scrollRows (height t)) t'.
Proof.
  intros Wt Hh Hs Hsum.
  apply well_typed_spec in Wt. destruct Wt as (W1 & W2 & W3 & W4 & W5).
  pose proof (scrollRows_eq (height t) ltac:(lia)) as HV.
  unfold adjustOffset. fold (scrollRows (height t)).
  set (V := scrollRows (height t)) in *. clearbody V.
  cbv zeta.
  set (t1 := if selected t <? offset t then set_offset (selected t) t else t).
  assert (H1 : entries t1 = entries t /\ selected t1 = selected t
               /\ height t1 = height t /\ width t1 = width t
               /\ offset t1 <= selected t /\ int_min <= offset t1).
  { subst t1. destruct (selected t <? offset t) eqn:E.
    - apply Z.ltb_lt in E. cbn [entries selected height width offset set_offset].
      repeat split; lia.
    - apply Z.ltb_ge in E. repeat split; lia. }
  destruct H1 as (E1 & E2 & E3 & E4 & E5 & E6).
  rewrite E2.
  assert (HVb : 1 <= V <= int_max - 1) by int_arith.
  rewrite (wrap64_small (offset t1 + V)) by int_arith.
  rewrite (wrap64_small (selected t - V)) by int_arith.
  rewrite (wrap64_small (selected t - V + 1)) by int_arith.
  unfold count in W5.
  destruct (selected t >=? offset t1 + V) eqn:G; rewrite Z.geb_leb in G;
    [apply Z.leb_le in G | apply Z.leb_gt in G].
  - split; [exact E1 |]. split; [exact E2 |]. split; [exact E3 |]. split.
    + apply well_typed_spec. unfold count.
      cbn [entries selected offset width height set_offset].
      rewrite E1, E2, E3, E4. repeat split; int_arith.
    + unfold in_window. cbn [selected offset set_offset]. rewrite E2. lia.
  - split; [exact E1 |]. split; [exact E2 |]. split; [exact E3 |]. split.
    + apply well_typed_spec. unfold count.
      rewrite E1, E2, E3, E4. repeat split; int_arith.
    + unfold in_window. rewrite E2. lia.
Qed.

Lemma moveDown_ok (t : TUI) : nav_ok t -> nav_ok (moveDown t).
Proof.
  intros (Wt & Hh & Hsum & Hc & Hw). unfold moveDown.
  pose proof (proj1 (well_typed_spec t) Wt) as (W1 & W2 & W3 & W4 & W5).
  unfold cursor_ok in Hc.
  rewrite (wrap64_small (count t - 1)) by int_arith.
  destruct (selected t <? count t - 1) eqn:E;
    [| unfold nav_ok, cursor_ok; auto].
  apply Z.ltb_lt in E.
  rewrite (wrap64_small (selected t + 1)) by int_arith.
  set (t1 := set_selected (selected t + 1) t).
  assert (Wt1 : well_typed t1).
  { apply well_typed_spec. unfold count.
    cbn [entries selected offset width height set_selected t1].
    fold (count t). repeat split; int_arith. }
  destruct (adjustOffset_window t1 Wt1) as (A1 & A2 & A3 & A4 & A5);
    try (cbn [selected height set_selected t1]; int_arith).
  cbn [entries selected height set_selected t1] in A1, A2, A3, A5.
  unfold nav_ok, cursor_ok, count. rewrite A1, A2, A3.
  fold (count t).
  split; [exact A4 |]. split; [lia |]. split; [lia |]. split; [lia | exact A5].
Qed.

Lemma moveUp_ok (t : TUI) : nav_ok t -> nav_ok (moveUp t).
Proof.
  intros (Wt & Hh & Hsum & Hc & Hw). unfold moveUp.
  pose proof (proj1 (well_typed_spec t) Wt) as (W1 & W2 & W3 & W4 & W5).
  unfold cursor_ok in Hc.
  destruct (selected t >? 0) eqn:E;
    [| unfold nav_ok, cursor_ok; auto].
  apply Z.gtb_lt in E.
  rewrite (wrap64_small (selected t - 1)) by int_arith.
  set (t1 := set_selected (selected t - 1) t).
  assert (Wt1 : well_typed t1).
  { apply well_typed_spec. unfold count.
    cbn [entries selected offset width height set_selected t1].
    fold (count t). repeat split; int_arith. }
  destruct (adjustOffset_window t1 Wt1) as (A1 & A2 & A3 & A4 & A5);
    try (cbn [selected height set_selected t1]; int_arith).
  cbn [entries selected height set_selected t1] in A1, A2, A3, A5.
  unfold nav_ok, cursor_ok, count. rewrite A1, A2, A3.
  fold (count t).
  split; [exact A4 |]. split; [lia |]. split; [lia |]. split; [lia | exact A5].
Qed.

(** Every sequence of j and k presses keeps the cursor on an entry and
    inside the window of [scrollRows] rows, the count [adjustOffset]
    scrolls by (the terminal height less 6, at least 1). *)
Lemma presses_keep_scroll_window (keys : list bool) (t : TUI) :
  nav_ok t -> nav_ok (List.fold_left press keys t).
Proof.
  revert t. induction keys as [| k keys IH]; intros t Ht; cbn; [exact Ht |].
  apply IH. destruct k; cbn; [apply moveDown_ok | apply moveUp_ok]; exact Ht.
Qed.

(** The keys j and k in Normal mode are [moveDown] and [moveUp]. *)
Lemma normalKey_j_k `{GoLib} {S : Type} `{RecordStore S} (t : TUI) (st : S) :
  normalKey KeyRune 106 t st = Redraw (press t true) st /\
  normalKey KeyRune 107 t st = Redraw (press t false) st.
Proof. split; reflexivity. Qed.

(** ** Rendering *)

Lemma only_screen_refl (t : TUI) : only_screen t t.
Proof. exists (screen t). symmetry. apply set_screen_same. Qed.

Lemma only_screen_trans (t1 t2 t3 : TUI) :
  only_screen t1 t2 -> only_screen t2 t3 -> only_screen t1 t3.
Proof. intros [s1 ->] [s2 ->]. exists s2. reflexivity. Qed.

Lemma only_screen_fields (t t' : TUI) :
  only_screen t t' ->
  entries t' = entries t /\ selected t' = selected t /\
  offset t' = offset t /\ width t' = width t /\ height t' = height t /\
  inputMode t' = inputMode t /\ inputBuf t' = inputBuf t /\
  message t' = message t /\ msgStyle t' = msgStyle t.
Proof. intros [s ->]. repeat split; reflexivity. Qed.

Lemma put_only_screen (x y r : Z) (st : Style) (t : TUI) :
  only_screen t (put x y r st t).
Proof. eexists. reflexivity. Qed.

Lemma drawRunes_only_screen (x y : Z) (l : list (Z * Z)) (st : Style) (t : TUI) :
  only_screen t (drawRunes x y l st t).
Proof.
  revert t. induction l as [| [i r] l IH]; intros t; cbn [drawRunes].
  - apply only_screen_refl.
  - destruct (wrap64 (x + i) >=? width t); [apply only_screen_refl |].
    eapply only_screen_trans; [apply put_only_screen | apply IH].
Qed.

Lemma drawString_only_screen (x y : Z) (str : string) (st : Style) (t : TUI) :
  only_screen t (drawString x y str st t).
Proof. apply drawRunes_only_screen. Qed.

Lemma fill_only_screen (lo hi y r : Z) (st : Style) (t : TUI) :
  only_screen t (fill lo hi y r st t).
Proof.
  unfold fill. generalize (List.seq 0 (Z.to_nat (hi - lo))). intros l.
  revert t. induction l as [| k l IH]; intros t; cbn [List.fold_left].
  - apply only_screen_refl.
  - eapply only_screen_trans; [apply put_only_screen | apply IH].
Qed.

Ltac frame_step :=
  first [ apply only_screen_refl
        | eapply only_screen_trans;
          [| first [apply drawString_only_screen | apply fill_only_screen]] ].

Lemma drawHeader_only_screen (t : TUI) : only_screen t (drawHeader t).
Proof. unfold drawHeader. cbv zeta. repeat frame_step. Qed.

Lemma drawFooter_only_screen (t : TUI) : only_screen t (drawFooter t).
Proof.
  unfold drawFooter. cbv zeta.
  eapply only_screen_trans; [| apply drawString_only_screen].
  destruct (negb (message t =? "")%string || negb (inputMode t =? "")%string);
    apply drawString_only_screen.
Qed.

Lemma renderRow_only_screen (i y : Z) (t t' : TUI) :
  renderRow i y t = Ok t' -> only_screen t t'.
Proof.
  unfold renderRow. destruct (index (entries t) i) as [e |]; [| discriminate].
  cbn [bind]. cbv zeta.
  match goal with
  | |- context [shownNote ?w ?n] => destruct (shownNote w n) as [note |]
  end; [| discriminate].
  cbn [bind]. intros E. injection E as <-.
  destruct (i =? selected t); repeat frame_step.
Qed.

Lemma renderRows_only_screen (fuel : nat) (rows i y : Z) (t t' : TUI) :
  renderRows fuel rows i y t = Ok t' -> only_screen t t'.
Proof.
  revert i y t. induction fuel as [| fuel IH]; intros i y t; cbn [renderRows].
  - intros E. injection E as <-. apply only_screen_refl.
  - destruct ((i <? count t) && (wrap64 (i - offset t) <? rows)).
    + destruct (renderRow i (wrap64 (y + 1)) t) as [t1 |] eqn:R;
        [| discriminate].
      cbn [bind]. intros E.
      eapply only_screen_trans;
        [apply (renderRow_only_screen _ _ _ _ R) | apply (IH _ _ _ E)].
    + intros E. injection E as <-. apply only_screen_refl.
Qed.

(** [render] re-reads the size from the screen and otherwise changes the
    screen only. *)
Lemma render_only_screen (t t' : TUI) :
  render t = Ok t' -> only_screen (set_size (Size (screen t)) t) t'.
Proof.
  unfold render. cbv zeta.
  set (t0 := set_size _ (set_screen (Clear (screen t)) t)).
  assert (H0 : only_screen (set_size (Size (screen t)) t) t0).
  { exists (Clear (screen t)). reflexivity. }
  destruct (renderRows _ _ _ _ _) as [t1 |] eqn:R; [| discriminate].
  cbn [bind]. intros E. injection E as <-.
  eapply only_screen_trans; [exact H0 |].
  eapply only_screen_trans; [apply drawHeader_only_screen |].
  eapply only_screen_trans; [apply (renderRows_only_screen _ _ _ _ _ _ R) |].
  apply drawFooter_only_screen.
Qed.

(** The note column: no fault in a terminal at least 61 columns wide. *)
Lemma shownNote_ok (w : Z) (note : string) :
  61 <= w <= int_max -> exists s, shownNote w note = Ok s.
Proof.
  intros Hw. unfold shownNote.
  rewrite (wrap64_small (w - 58)) by int_arith.
  destruct (w - 58 <? 0) eqn:E; [apply Z.ltb_lt in E; lia |].
  rewrite (wrap64_small (w - 58 - 3)) by int_arith.
  destruct (len note >? w - 58) eqn:G; [| eauto].
  apply Z.gtb_lt in G. unfold slice_to.
  assert (C : (0 <=? w - 58 - 3) && (w - 58 - 3 <=? len note) = true).
  { apply andb_true_iff. split; apply Z.leb_le; lia. }
  rewrite C. cbn [bind]. eauto.
Qed.

(** The note column faults in a narrower terminal as soon as the note
    does not fit: the bound of the slice is negative. *)
Lemma shownNote_faults (w : Z) (note : string) :
  int_min + 58 <= w <= 60 -> Z.max 0 (w - 58) < len note ->
  shownNote w note = Panic.
Proof.
  intros Hw Hn. unfold shownNote.
  rewrite (wrap64_small (w - 58)) by int_arith.
  destruct (w - 58 <? 0) eqn:E;
    [apply Z.ltb_lt in E | apply Z.ltb_ge in E].
  - assert (G : (len note >? 0) = true) by (apply Z.gtb_lt; lia).
    rewrite G. reflexivity.
  - assert (G : (len note >? w - 58) = true) by (apply Z.gtb_lt; lia).
    rewrite G. rewrite (wrap64_small (w - 58 - 3)) by int_arith.
    unfold slice_to.
    assert (C : (0 <=? w - 58 - 3) = false) by (apply Z.leb_gt; lia).
    rewrite C. reflexivity.
Qed.

Lemma renderRow_ok (i y : Z) (t : TUI) :
  0 <= i < count t -> 61 <= width t <= int_max ->
  exists t', renderRow i y t = Ok t'.
Proof.
  intros Hi Hw. unfold renderRow.
  destruct (proj2 (index_Ok_iff (entries t) i) Hi) as [e He].
  rewrite He. cbn [bind]. cbv zeta.
  match goal with
  | |- context [shownNote (width ?T) ?n] =>
      assert (Wd : width T = width t);
      [| rewrite Wd; destruct (shownNote_ok (width t) n Hw) as [s Hs];
         rewrite Hs; cbn [bind]; eauto]
  end.
  apply only_screen_fields.
  destruct (i =? selected t); repeat frame_step.
Qed.

Lemma renderRows_ok (fuel : nat) (rows i y : Z) (t : TUI) :
  0 <= i -> count t <= int_max -> 61 <= width t <= int_max ->
  exists t', renderRows fuel rows i y t = Ok t'.
Proof.
  revert i y t. induction fuel as [| fuel IH]; intros i y t Hi Hc Hw;
    cbn [renderRows]; [eauto |].
  destruct ((i <? count t) && (wrap64 (i - offset t) <? rows)) eqn:C;
    [| eauto].
  apply andb_true_iff in C. destruct C as [C _]. apply Z.ltb_lt in C.
  destruct (renderRow_ok i (wrap64 (y + 1)) t) as [t1 R]; [lia | exact Hw |].
  rewrite R. cbn [bind].
  pose proof (only_screen_fields _ _ (renderRow_only_screen _ _ _ _ R))
    as (F1 & _ & _ & F4 & _).
  rewrite (wrap64_small (i + 1)) by int_arith.
  apply IH; [lia | unfold count; rewrite F1; exact Hc | rewrite F4; exact Hw].
Qed.

(** [render] returns whenever the offset is not negative and the screen
    is at least 61 columns wide. *)
Lemma render_ok (t : TUI) :
  0 <= offset t -> count t <= int_max ->
  61 <= fst (Size (screen t)) <= int_max ->
  exists t', render t = Ok t'.
Proof.
  intros Ho Hc Hw. unfold render. cbv zeta.
  set (t0 := set_size _ (set_screen (Clear (screen t)) t)).
  pose proof (only_screen_fields _ _ (drawHeader_only_screen t0))
    as (F1 & _ & F3 & F4 & _).
  destruct (renderRows_ok (Datatypes.S (List.length (entries (drawHeader t0))))
              (visibleRows (height (drawHeader t0))) (offset (drawHeader t0)) 3
              (drawHeader t0)) as [t1 R].
  - rewrite F3. exact Ho.
  - unfold count. rewrite F1. exact Hc.
  - rewrite F4. exact Hw.
  - rewrite R. cbn [bind]. eauto.
Qed.

(** ** Resize *)

Section Resize.

Context `{GoLib} {S : Type} `{RecordStore S}.

(** Handling a resize stores the new width and height and renders; the
    scroll adjustment is not applied: entries, cursor and offset are
    those of the state before, whether or not the cursor is inside the
    new window.  The iteration never returns. *)
Lemma resize_keeps_cursor_and_offset (now : time.Time) (w h : Z)
    (t : TUI) (st : S) :
  handleEvent now (EventResize w h) t st = Ok (Redraw (set_size (w, h) t) st) /\
  match loopBody now (EventResize w h) t st with
  | Ok (Some (t', st')) =>
      st' = st /\ width t' = w /\ height t' = h /\
      entries t' = entries t /\ selected t' = selected t /\
      offset t' = offset t
  | Ok None => False
  | Panic => True
  end.
Proof.
  split; [reflexivity |].
  unfold loopBody. cbn [deliver handleEvent bind].
  set (t0 := set_size (w, h) (set_screen (mkScreen (w, h) (cells (screen t))) t)).
  destruct (render t0) as [t' |] eqn:R; cbn [bind]; [| exact I].
  pose proof (only_screen_fields _ _ (render_only_screen _ _ R))
    as (F1 & F2 & F3 & F4 & F5 & _).
  repeat split; assumption.
Qed.

End Resize.

(** ** The cursor in the states the loop reaches *)

Lemma wrap64_range (z : Z) : int_min <= wrap64 z <= int_max.
Proof.
  unfold wrap64, int_min, int_max.
  pose proof (Z.mod_pos_bound (z + 2 ^ 63) (2 ^ 64) ltac:(lia)). lia.
Qed.

Lemma scrollRows_range (h : Z) : 1 <= scrollRows h <= int_max.
Proof.
  unfold scrollRows. pose proof (wrap64_range (h - 6)).
  destruct (wrap64 (h - 6) <? 1) eqn:E;
    [| apply Z.ltb_ge in E]; int_arith.
Qed.

Lemma visibleRows_range (h : Z) : 1 <= visibleRows h <= int_max.
Proof.
  unfold visibleRows. pose proof (wrap64_range (h - 7)).
  destruct (wrap64 (h - 7) <? 1) eqn:E;
    [| apply Z.ltb_ge in E]; int_arith.
Qed.

Lemma cursor_bounded_ext (t t' : TUI) :
  entries t' = entries t -> selected t' = selected t -> offset t' = offset t ->
  cursor_bounded t -> cursor_bounded t'.
Proof.
  unfold cursor_bounded, count. intros -> -> ->. tauto.
Qed.

(** [adjustOffset] changes the offset only. *)
Lemma adjustOffset_frame (t : TUI) :
  entries (adjustOffset t) = entries t /\
  selected (adjustOffset t) = selected t.
Proof.
  unfold adjustOffset. cbv zeta.
  destruct (selected t <? offset t);
    match goal with
    | |- context [if ?c then _ else _] => destruct c
    end; split; reflexivity.
Qed.

(** After the key G on an empty list the offset is negative as well. *)
Lemma adjustOffset_negative (t : TUI) :
  selected t = -1 -> offset (adjustOffset t) < 0.
Proof.
  intros Hs. unfold adjustOffset. fold (scrollRows (height t)).
  pose proof (scrollRows_range (height t)) as HV.
  set (V := scrollRows (height t)) in *. clearbody V. cbv zeta.
  set (t1 := if selected t <? offset t then set_offset (selected t) t else t).
  assert (H1 : selected t1 = -1 /\ offset t1 < 0).
  { subst t1. destruct (selected t <? offset t) eqn:E.
    - cbn [selected offset set_offset]. lia.
    - apply Z.ltb_ge in E. split; [exact Hs | lia]. }
  destruct H1 as [S1 O1].
  destruct (selected t1 >=? wrap64 (offset t1 + V)); [| exact O1].
  cbn [offset set_offset]. rewrite S1.
  rewrite (wrap64_small (-1 - V)) by int_arith.
  rewrite (wrap64_small (-1 - V + 1)) by int_arith. lia.
Qed.

Lemma moveDown_bounded (t : TUI) : cursor_bounded t -> cursor_bounded (moveDown t).
Proof.
  intros (B1 & B2 & B3 & B4). unfold moveDown.
  pose proof (count_nonneg t) as Hc.
  rewrite (wrap64_small (count t - 1)) by int_arith.
  destruct (selected t <? count t - 1) eqn:E;
    [apply Z.ltb_lt in E | unfold cursor_bounded; auto].
  rewrite (wrap64_small (selected t + 1)) by int_arith.
  destruct (adjustOffset_frame (set_selected (selected t + 1) t)) as [F1 F2].
  cbn [entries selected set_selected] in F1, F2.
  set (t2 := adjustOffset (set_selected (selected t + 1) t)) in *.
  unfold cursor_bounded, count. rewrite F1, F2. fold (count t).
  repeat split; lia.
Qed.

Lemma moveUp_bounded (t : TUI) : cursor_bounded t -> cursor_bounded (moveUp t).
Proof.
  intros (B1 & B2 & B3 & B4). unfold moveUp.
  destruct (selected t >? 0) eqn:E;
    [apply Z.gtb_lt in E | unfold cursor_bounded; auto].
  rewrite (wrap64_small (selected t - 1)) by int_arith.
  destruct (adjustOffset_frame (set_selected (selected t - 1) t)) as [F1 F2].
  cbn [entries selected set_selected] in F1, F2.
  set (t2 := adjustOffset (set_selected (selected t - 1) t)) in *.
  unfold cursor_bounded, count. rewrite F1, F2. fold (count t).
  repeat split; lia.
Qed.

Lemma jump_last_bounded (t : TUI) :
  cursor_bounded t ->
  cursor_bounded (adjustOffset (set_selected (wrap64 (count t - 1)) t)).
Proof.
  intros (B1 & B2 & B3 & B4).
  pose proof (count_nonneg t) as Hc.
  rewrite (wrap64_small (count t - 1)) by int_arith.
  destruct (adjustOffset_frame (set_selected (count t - 1) t)) as [F1 F2].
  cbn [entries selected set_selected] in F1, F2.
  pose proof (adjustOffset_negative (set_selected (count t - 1) t)) as N.
  cbn [selected set_selected] in N.
  set (t2 := adjustOffset (set_selected (count t - 1) t)) in *.
  unfold cursor_bounded, count. rewrite F1, F2. fold (count t).
  repeat split; lia.
Qed.

Section Reach.

Context `{GoLib} {S : Type} `{RecordStore S}.

Hypothesis fit : lists_fit.

Lemma refresh_bounded (t : TUI) (st : S) :
  cursor_bounded t -> cursor_bounded (refresh t st).
Proof.
  intros (B1 & B2 & B3 & B4). unfold refresh.
  destruct (GetAllEntries st) as [es | err] eqn:G;
    [| unfold cursor_bounded; auto].
  pose proof (fit st es G) as Hn.
  cbn [selected set_entries]. unfold count. cbn [entries set_entries].
  set (n := Z.of_nat (List.length es)) in *.
  rewrite Z.geb_leb, Z.gtb_ltb.
  destruct (n <=? selected t) eqn:E1; destruct (0 <? n) eqn:E2;
    cbn [andb];
    try apply Z.leb_le in E1; try apply Z.leb_gt in E1;
    try apply Z.ltb_lt in E2; try apply Z.ltb_ge in E2.
  all: try rewrite wrap64_small by int_arith.
  all: unfold cursor_bounded, count;
    cbn [entries selected offset set_selected set_entries]; fold n;
    repeat split; lia.
Qed.

Lemma submitInput_bounded (now : time.Time) (t t1 : TUI) (st st1 : S) (b : bool) :
  cursor_bounded t -> submitInput now t st = Ok (b, t1, st1) ->
  cursor_bounded t1.
Proof.
  intros Hb. pose proof Hb as (B1 & B2 & B3 & B4).
  unfold submitInput.
  destruct (String.eqb (inputMode t) "add").
  { destruct (ParseFloat _).
    - destruct (AddEntry _ _ _ _ _ _) as [[id | err] st'];
        intros E; injection E as <- <- <-; exact Hb.
    - intros E; injection E as <- <- <-; exact Hb. }
  destruct (String.eqb (inputMode t) "edit").
  { destruct (count t =? 0); [intros E; injection E as <- <- <-; exact Hb |].
    destruct (ParseFloat _); [| intros E; injection E as <- <- <-; exact Hb].
    destruct (index (entries t) (selected t)); cbn [bind]; [| discriminate].
    destruct (UpdateEntry _ _ _ _ _) as [[err |] st'];
      intros E; injection E as <- <- <-; exact Hb. }
  destruct (String.eqb (inputMode t) "delete");
    [| intros E; injection E as <- <- <-; exact Hb].
  destruct (String.eqb (ToLower (inputBuf t)) "y" && (count t >? 0));
    [| intros E; injection E as <- <- <-; exact Hb].
  destruct (index (entries t) (selected t)) as [e |] eqn:I; cbn [bind];
    [| discriminate].
  pose proof (index_Ok_range _ _ _ I) as R. fold (count t) in R.
  destruct (DeleteEntry _ _) as [[err |] st'];
    intros E; injection E as <- <- <-; [exact Hb |].
  cbn [selected setMessage].
  destruct (selected t >? 0) eqn:G; [apply Z.gtb_lt in G | exact Hb].
  rewrite (wrap64_small (selected t - 1)) by int_arith.
  unfold cursor_bounded, count.
  cbn [entries selected offset set_selected setMessage]. fold (count t).
  repeat split; lia.
Qed.

Lemma handleInput_bounded (now : time.Time) (k : Key) (r : Z) (t t1 : TUI)
    (st st1 : S) (b : bool) :
  cursor_bounded t -> handleInput now k r t st = Ok (b, t1, st1) ->
  cursor_bounded t1.
Proof.
  intros Hb. unfold handleInput. destruct k.
  - intros E; injection E as <- <- <-; exact Hb.
  - apply submitInput_bounded. exact Hb.
  - destruct (len (inputBuf t) >? 0);
      [destruct (slice_to _ _); cbn [bind]; [| discriminate] |];
      intros E; injection E as <- <- <-; exact Hb.
  - destruct (len (inputBuf t) >? 0);
      [destruct (slice_to _ _); cbn [bind]; [| discriminate] |];
      intros E; injection E as <- <- <-; exact Hb.
  - intros E; injection E as <- <- <-; exact Hb.
  - intros E; injection E as <- <- <-; exact Hb.
Qed.

Lemma normalKey_bounded (k : Key) (r : Z) (t t' : TUI) (st st' : S) :
  cursor_bounded t -> normalKey k r t st = Redraw t' st' -> cursor_bounded t'.
Proof.
  intros Hb. pose proof Hb as (B1 & B2 & B3 & B4). unfold normalKey.
  destruct k; try (intros E; injection E as <- <-; exact Hb);
    [discriminate |].
  destruct (r =? 113); [discriminate |].
  destruct (r =? 106);
    [intros E; injection E as <- <-; apply moveDown_bounded; exact Hb |].
  destruct (r =? 107);
    [intros E; injection E as <- <-; apply moveUp_bounded; exact Hb |].
  destruct (r =? 103).
  { intros E; injection E as <- <-.
    unfold cursor_bounded, count.
    cbn [entries selected offset set_selected set_offset]. fold (count t).
    repeat split; try lia; int_arith. }
  destruct (r =? 71);
    [intros E; injection E as <- <-; apply jump_last_bounded; exact Hb |].
  destruct (r =? 97); [intros E; injection E as <- <-; exact Hb |].
  destruct (r =? 101);
    [destruct (count t >? 0); intros E; injection E as <- <-; exact Hb |].
  destruct (r =? 100);
    [destruct (count t >? 0); intros E; injection E as <- <-; exact Hb |].
  destruct (r =? 114); intros E; injection E as <- <-; [| exact Hb].
  apply (cursor_bounded_ext (refresh t st)); try reflexivity.
  apply refresh_bounded. exact Hb.
Qed.

Lemma renderRows_negative_offset (fuel : nat) (rows y : Z) (t : TUI) :
  0 < count t -> offset t < 0 -> 1 <= rows ->
  renderRows (Datatypes.S fuel) rows (offset t) y t = Panic.
Proof.
  intros Hc Ho Hr. cbn [renderRows].
  rewrite Z.sub_diag. rewrite (wrap64_small 0) by int_arith.
  assert (C : (offset t <? count t) && (0 <? rows) = true).
  { apply andb_true_iff. split; apply Z.ltb_lt; lia. }
  rewrite C. unfold renderRow, index.
  assert (N : (0 <=? offset t) = false) by (apply Z.leb_gt; exact Ho).
  rewrite N. reflexivity.
Qed.

(** With entries and a negative offset, [render] faults on the first
    row. *)
Lemma render_negative_offset (t : TUI) :
  0 < count t -> offset t < 0 -> render t = Panic.
Proof.
  intros Hc Ho. unfold render. cbv zeta.
  set (t0 := set_size _ (set_screen (Clear (screen t)) t)).
  pose proof (only_screen_fields _ _ (drawHeader_only_screen t0))
    as (F1 & _ & F3 & _).
  rewrite renderRows_negative_offset; [reflexivity | | |].
  - unfold count. rewrite F1. exact Hc.
  - rewrite F3. exact Ho.
  - apply visibleRows_range.
Qed.

(** A render that returns was given a cursor on an entry, if there is
    one. *)
Lemma render_cursor_valid (u u' : TUI) :
  cursor_bounded u -> render u = Ok u' -> cursor_valid u'.
Proof.
  intros Hu R.
  pose proof (only_screen_fields _ _ (render_only_screen _ _ R))
    as (F1 & F2 & F3 & _).
  cbn [entries selected offset set_size] in F1, F2, F3.
  assert (Hu' : cursor_bounded u').
  { apply (cursor_bounded_ext u); assumption. }
  split; [exact Hu' |]. intros Hc.
  destruct Hu' as (B1 & B2 & B3 & B4). unfold cursor_ok.
  destruct (Z.lt_ge_cases (selected u') 0) as [Neg | Pos]; [| auto with zarith].
  exfalso. pose proof (B4 Neg) as Ho.
  rewrite (render_negative_offset u) in R; [discriminate | |].
  - unfold count in *. rewrite <- F1. exact Hc.
  - rewrite <- F3. exact Ho.
Qed.

(** Every iteration of the loop that goes on keeps the cursor on an entry
    whenever there is one. *)
Lemma loopBody_cursor_valid (now : time.Time) (ev : Event) (t t' : TUI)
    (st st' : S) :
  cursor_valid t -> loopBody now ev t st = Ok (Some (t', st')) ->
  cursor_valid t'.
Proof.
  intros [Hb Hv]. unfold loopBody. cbv zeta.
  set (t0 := set_screen (deliver ev (screen t)) t).
  assert (Hb0 : cursor_bounded t0).
  { apply (cursor_bounded_ext t); try reflexivity. exact Hb. }
  assert (Hv0 : 0 < count t0 -> cursor_ok t0) by exact Hv.
  clearbody t0. clear Hv. rename Hv0 into Hv.
  pose proof render_cursor_valid as Fin.
  destruct ev as [w h | k r |]; cbn [handleEvent bind].
  - assert (Hb1 : cursor_bounded (set_size (w, h) t0)) by exact Hb0.
    destruct (render (set_size (w, h) t0)) as [u' |] eqn:R; cbn [bind];
      [| discriminate].
    intros E. injection E as <- <-.
    exact (Fin _ _ Hb1 R).
  - destruct (negb (inputMode t0 =? "")%string).
    + destruct (handleInput now k r t0 st) as [[[done t1] st1] |] eqn:HI;
        cbn [bind]; [| discriminate].
      pose proof (handleInput_bounded _ _ _ _ _ _ _ _ Hb0 HI) as Hb1.
      destruct done; cbn [bind].
      * assert (Hb2 : cursor_bounded
                        (refresh (set_inputBuf "" (set_inputMode "" t1)) st1)).
        { apply refresh_bounded. exact Hb1. }
        destruct (render (refresh (set_inputBuf "" (set_inputMode "" t1)) st1))
          as [u' |] eqn:R; cbn [bind]; [| discriminate].
        intros E. injection E as <- <-. exact (Fin _ _ Hb2 R).
      * destruct (render t1) as [u' |] eqn:R; cbn [bind]; [| discriminate].
        intros E. injection E as <- <-. exact (Fin _ _ Hb1 R).
    + cbn [bind]. destruct (normalKey k r t0 st) as [| t1 st1 | t1 st1] eqn:NK;
        [discriminate | |].
      * destruct (render t1) as [u' |] eqn:R; cbn [bind]; [| discriminate].
        intros E. injection E as <- <-.
        exact (Fin _ _ (normalKey_bounded _ _ _ _ _ _ Hb0 NK) R).
      * exfalso. unfold normalKey in NK.
        destruct k; try discriminate.
        repeat match type of NK with
               | (if ?c then _ else _) = _ => destruct c
               end; discriminate.
  - intros E. injection E as <- <-. split; [exact Hb0 |].
    intros Hc. apply Hv. exact Hc.
Qed.

Lemma loop_cursor_valid (evs : list (time.Time * Event)) (t t' : TUI)
    (st st' : S) :
  cursor_valid t -> loop evs t st = Ok (Some (t', st')) -> cursor_valid t'.
Proof.
  revert t st. induction evs as [| [now ev] evs IH]; intros t st Hv;
    cbn [loop].
  - intros E. injection E as <- <-. exact Hv.
  - destruct (loopBody now ev t st) as [[[t1 st1] |] |] eqn:L; cbn [bind];
      try discriminate.
    apply IH. apply (loopBody_cursor_valid _ _ _ _ _ _ Hv L).
Qed.

(** In every state that [run] reaches from its start, the cursor
    designates an entry whenever there is one. *)
Lemma run_cursor_valid (evs : list (time.Time * Event)) (scr : Screen)
    (t' : TUI) (st st' : S) :
  run evs (start scr) st = Ok (Some (t', st')) -> cursor_valid t'.
Proof.
  unfold run.
  assert (Hb : cursor_bounded (refresh (start scr) st)).
  { apply refresh_bounded. unfold cursor_bounded, count. cbn.
    repeat split; try lia; int_arith. }
  destruct (render (refresh (start scr) st)) as [t1 |] eqn:R; cbn [bind];
    [| discriminate].
  apply loop_cursor_valid. apply (render_cursor_valid _ _ Hb R).
Qed.

End Reach.

(** ** The controller on concrete inputs *)



(** C2, on an input.  In a terminal of height 8 with two entries, the
    cursor on the first: after j the cursor is on the second entry and the
    offset is still 0, [adjustOffset] counting 2 rows; [render] counts 1
    row, draws the first entry only and leaves line 5 empty, so the
    cursor is outside the window [render] shows. *)
Theorem cursor_leaves_render_window :
  let t := sample.normal (mkScreen (80, 8) []) (sample.entriesN 2) 0 0 in
  nav_ok t /\ in_window (visibleRows (height t)) t /\
  exists t',
    loopBody (H := decimalLib) sample.noon (EventKey KeyRune 106) t
      sample.emptyDB = Ok (Some (t', sample.emptyDB)) /\
    selected t' = 1 /\ offset t' = 0 /\
    scrollRows (height t') = 2 /\ visibleRows (height t') = 1 /\
    ~ in_window (visibleRows (height t')) t' /\
    List.filter (fun c => cy c =? 5) (cells (screen t')) = [].
Proof.
  cbv zeta. split; [| split].
  - unfold nav_ok, cursor_ok, in_window. vm_compute. intuition congruence.
  - unfold in_window. vm_compute. intuition congruence.
  - eexists. split; [vm_compute; reflexivity |].
    cbn [selected offset height]. unfold in_window.
    cbn [selected offset].
    repeat split; try reflexivity. vm_compute. intuition congruence.
Qed.

(** C3, on an input.  In a terminal 40 columns wide, [render] faults on
    an entry whose note is the one letter x: the note is longer than the
    width of the note column, clamped to 0, and the slice bound is -3. *)
Theorem render_faults_on_narrow_terminal :
  let t := sample.normal (mkScreen (40, 24) []) [sample.entry 1 "x"] 0 0 in
  nav_ok t /\
  visibleRows 24 = 17 /\
  shownNote 40 "x" = Panic /\
  slice_to "x" (-3) = Panic /\
  render t = Panic.
Proof.
  cbv zeta. split.
  - unfold nav_ok, cursor_ok, in_window. vm_compute. intuition congruence.
  - repeat split; vm_compute; reflexivity.
Qed.

(** C4, on an input.  With 20 entries, the cursor on index 10 and the
    offset 0 in a terminal of height 24, the selected row is drawn
    highlighted.  A resize to height 10 leaves the offset at 0, where
    [adjustOffset], which the j, k and G branches call, would set it to
    7: the cursor is outside the new window by either count of rows,
    [render] draws the entries 0 to 2 on lines 4 to 6, and no cell of the
    screen is highlighted. *)
Theorem resize_leaves_cursor_outside_window :
  let t := sample.normal sample.screen80x24 (sample.entriesN 20) 10 0 in
  nav_ok t /\ in_window (visibleRows (height t)) t /\
  (exists t0, render t = Ok t0 /\
     List.existsb highlighted (cells (screen t0)) = true) /\
  exists t',
    loopBody (H := decimalLib) sample.noon (EventResize 80 10) t
      sample.emptyDB = Ok (Some (t', sample.emptyDB)) /\
    height t' = 10 /\ selected t' = 10 /\ offset t' = 0 /\
    offset (adjustOffset t') = 7 /\
    ~ in_window (scrollRows (height t')) t' /\
    ~ in_window (visibleRows (height t')) t' /\
    List.existsb highlighted (cells (screen t')) = false /\
    List.existsb (fun c => cy c =? 6) (cells (screen t')) = true /\
    List.existsb (fun c => cy c =? 7) (cells (screen t')) = false.
Proof.
  cbv zeta. split; [| split; [| split]].
  - unfold nav_ok, cursor_ok, in_window. vm_compute. intuition congruence.
  - unfold in_window. vm_compute. intuition congruence.
  - eexists. split; [vm_compute; reflexivity |]. vm_compute. reflexivity.
  - eexists. split; [vm_compute; reflexivity |].
    cbn [selected offset height]. unfold in_window.
    cbn [selected offset].
    repeat split; try reflexivity; vm_compute; intuition congruence.
Qed.

(** C7, on inputs.  A terminal of 40 columns and 24 lines over a store
    of 18 entries, the oldest with the note x: [render] shows 17 rows, so
    the session starts and the keys d and y are handled.  On Enter the
    delete succeeds; the controller handed to [render] is in Normal mode
    with an empty buffer and the message "Entry deleted!", the refresh
    has moved the entry with the note into the last row shown, and
    [render] faults on it: the session ends by a panic, without a quit.
    The same happens when the submit fails: the controller shows the one
    entry of the store and is in EditInput with the buffer 7, meanwhile
    the command line has deleted that entry and added one with the note
    x; on Enter the update fails with "entry not found: 1", that error is
    the message of the controller handed to [render], and the iteration
    panics, so the message is never drawn.  In a terminal of 80 columns
    the session of an empty store ends on the key G, by a panic, as it
    ends on q, by a return. *)
Theorem session_ends_on_render_fault :
  let scr := mkScreen (40, 24) [] in
  let key r := (sample.noon, EventKey KeyRune r) in
  let enter := EventKey KeyEnter 13 in
  let noted id :=
    mkEntry id 1000 "manual" "recurring" "x" sample.day sample.noon in
  let st18 :=
    db.mkDB
      (List.map (fun k => sample.entry (Z.of_nat (18 - k)) "") (List.seq 0 17)
       ++ [noted 1]) 18 sample.noon false in
  (exists t,
     run (H := decimalLib) [key 100; key 121] (start scr) st18
       = Ok (Some (t, st18)) /\
     inputMode t = "delete" /\ inputBuf t = "y" /\
     List.length (entries t) = 18%nat /\ selected t = 0 /\ width t = 40 /\
     visibleRows (height t) = 17 /\
     (exists t2 st2,
        handleEvent (H := decimalLib) sample.noon enter t st18
          = Ok (Redraw t2 st2) /\
        inputMode t2 = "" /\ inputBuf t2 = "" /\
        message t2 = "Entry deleted!" /\
        List.length (entries t2) = 17%nat /\
        index (entries t2) 16 = Ok (noted 1) /\
        shownNote (width t2) "x" = Panic /\ render t2 = Panic) /\
     run (H := decimalLib) [key 100; key 121; (sample.noon, enter)]
       (start scr) st18 = Panic) /\
  (exists t,
     let st := db.mkDB [noted 2] 2 sample.noon false in
     run (H := decimalLib) [key 101; key 55] (start scr) (sample.storeN 1)
       = Ok (Some (t, sample.storeN 1)) /\
     inputMode t = "edit" /\ inputBuf t = "7" /\
     entries t = [sample.entry 1 ""] /\ selected t = 0 /\ width t = 40 /\
     db.AddEntry 1000 "manual" "recurring" "x" sample.noon
       (snd (db.DeleteEntry 1 (sample.storeN 1))) = (Success 2, st) /\
     db.UpdateEntry 1 (Some 700) None None st
       = (Some "entry not found: 1", st) /\
     (exists t2,
        handleEvent (H := decimalLib) sample.noon enter t st
          = Ok (Redraw t2 st) /\
        inputMode t2 = "" /\ inputBuf t2 = "" /\
        message t2 = "Error: entry not found: 1" /\ reports_error t2 /\
        entries t2 = [noted 2] /\ render t2 = Panic) /\
     loopBody (H := decimalLib) sample.noon enter t st = Panic) /\
  run (H := decimalLib) [key 71] (start sample.screen80x24) sample.emptyDB
    = Panic /\
  run (H := decimalLib) [key 113] (start sample.screen80x24) sample.emptyDB
    = Ok None.
Proof.
  cbv zeta. split; [| split; [| split]].
  - eexists. split; [vm_compute; reflexivity |].
    repeat (split; [reflexivity |]).
    split.
    + eexists. eexists. split; [vm_compute; reflexivity |].
      repeat (split; [reflexivity |]).
      vm_compute. reflexivity.
    + vm_compute. reflexivity.
  - eexists. split; [vm_compute; reflexivity |].
    repeat (split; [reflexivity |]).
    split.
    + eexists. split; [vm_compute; reflexivity |].
      repeat (split; [reflexivity |]).
      split; [split; reflexivity |].
      split; [reflexivity |].
      vm_compute. reflexivity.
    + vm_compute. reflexivity.
  - vm_compute. reflexivity.
  - vm_compute. reflexivity.
Qed.

(** ** The theorems at concrete inputs *)

Lemma refresh_failure_keeps_view_witness :
  let t := sample.normal sample.screen80x24 (sample.entriesN 3) 1 0 in
  GetAllEntries sample.closedDB
    = Failure "failed to list entries: sql: database is closed" /\
  entries (refresh t sample.closedDB) = sample.entriesN 3 /\
  selected (refresh t sample.closedDB) = 1 /\
  reports_error (refresh t sample.closedDB).
Proof.
  cbv zeta. split; [reflexivity |].
  destruct (refresh_failure_keeps_view (H0 := db_store)
              (sample.normal sample.screen80x24 (sample.entriesN 3) 1 0)
              sample.closedDB
              "failed to list entries: sql: database is closed" eq_refl)
    as (A & B & _ & _ & C).
  split; [exact A |]. split; [exact B | exact C].
Defined.

Lemma refresh_clamps_selected_witness :
  let t := sample.normal sample.screen80x24 (sample.entriesN 9) 8 0 in
  GetAllEntries (sample.storeN 2) = Success (sample.entriesN 2) /\
  Z.of_nat (List.length (sample.entriesN 2)) <= int_max /\
  0 <= selected t /\
  selected (refresh t (sample.storeN 2)) = 1.
Proof.
  cbv zeta.
  assert (L : Z.of_nat (List.length (sample.entriesN 2)) <= int_max)
    by (vm_compute; discriminate).
  assert (P : 0 <= selected
                     (sample.normal sample.screen80x24 (sample.entriesN 9) 8 0))
    by (vm_compute; discriminate).
  split; [reflexivity |]. split; [exact L |]. split; [exact P |].
  destruct (refresh_clamps_selected (H0 := db_store)
              (sample.normal sample.screen80x24 (sample.entriesN 9) 8 0)
              (sample.storeN 2) (sample.entriesN 2) eq_refl L P)
    as (_ & _ & A & _).
  apply A; [discriminate | vm_compute; discriminate].
Defined.

Lemma delete_moves_cursor_back_witness :
  let t := sample.typing "delete" "Y" (sample.entriesN 3) 2 in
  well_typed t /\ inputMode t = "delete" /\
  ToLower (H := decimalLib) (inputBuf t) = "y" /\
  index (entries t) (selected t) = Ok (sample.entry 1 "") /\
  DeleteEntry 1 (sample.storeN 3)
    = (None, db.mkDB [sample.entry 3 ""; sample.entry 2 ""]
               3 sample.noon false) /\
  exists t1,
    submitInput (H := decimalLib) sample.noon t (sample.storeN 3)
      = Ok (true, t1,
            db.mkDB [sample.entry 3 ""; sample.entry 2 ""]
              3 sample.noon false) /\
    selected t1 = 1.
Proof.
  cbv zeta.
  destruct (delete_moves_cursor_back (H := decimalLib) (H0 := db_store)
              sample.noon 13
              (sample.typing "delete" "Y" (sample.entriesN 3) 2)
              (sample.storeN 3)
              (db.mkDB [sample.entry 3 ""; sample.entry 2 ""]
                 3 sample.noon false)
              (sample.entry 1 "") eq_refl eq_refl eq_refl eq_refl eq_refl)
    as (t1 & t2 & A & B & _).
  repeat (split; [reflexivity |]).
  exists t1. split; [exact A | exact B].
Defined.

Lemma add_submits_cents_witness :
  let t := sample.typing "add" "49.99" [] 0 in
  let e := mkEntry 1 4999 "manual" "recurring" "" sample.day sample.noon in
  inputMode t = "add" /\
  golib.ParseFloat "49.99" = Some d49_99 /\
  golib.ParseFloat "19.5" = Some d19_5 /\
  submitInput (H := decimalLib) sample.noon t sample.emptyDB
    = Ok (true, setMessage "Entry added!" green t,
          db.mkDB [e] 1 sample.noon false).
Proof.
  cbv zeta. repeat (split; [reflexivity |]).
  destruct (add_submits_cents (H := decimalLib) (H0 := db_store) sample.noon
              (sample.typing "add" "49.99" [] 0) sample.emptyDB
              eq_refl eq_refl eq_refl) as (_ & _ & A & _).
  rewrite (A eq_refl). reflexivity.
Defined.

Lemma enter_returns_to_normal_witness :
  let t := sample.typing "add" "49.99" (sample.entriesN 3) 1 in
  (0 < count t -> cursor_ok t) /\
  (inputMode t = "add" \/ inputMode t = "edit" \/ inputMode t = "delete") /\
  exists t2,
    handleEvent (H := decimalLib) sample.noon (EventKey KeyEnter 13) t
      sample.closedDB = Ok (Redraw t2 sample.closedDB) /\
    inputMode t2 = "" /\ inputBuf t2 = "" /\ reports_error t2.
Proof.
  cbv zeta.
  assert (C : 0 < count (sample.typing "add" "49.99" (sample.entriesN 3) 1) ->
              cursor_ok (sample.typing "add" "49.99" (sample.entriesN 3) 1)).
  { intros _. unfold cursor_ok. vm_compute. intuition congruence. }
  split; [exact C |]. split; [left; reflexivity |].
  destruct (enter_returns_to_normal (H := decimalLib) (H0 := db_store)
              sample.noon 13
              (sample.typing "add" "49.99" (sample.entriesN 3) 1)
              sample.closedDB C (or_introl eq_refl))
    as (t1 & st1 & t2 & _ & A & B1 & B2 & _ & _ & D & _).
  destruct (D d49_99 "failed to add entry: sql: database is closed"
              sample.closedDB eq_refl eq_refl eq_refl) as (_ & E & F).
  exists t2. rewrite E in A. auto.
Defined.


(** * Further properties *)

(** ** Faults of the loop *)

Lemma renderRows_offset_negative (fuel : nat) (rows y : Z) (t : TUI) :
  offset t < 0 -> 1 <= rows ->
  renderRows (Datatypes.S fuel) rows (offset t) y t = Panic.
Proof.
  intros Ho Hr. cbn [renderRows]. pose proof (count_nonneg t) as Hc.
  rewrite Z.sub_diag. rewrite (wrap64_small 0) by int_arith.
  assert (C : (offset t <? count t) && (0 <? rows) = true).
  { apply andb_true_iff. split; apply Z.ltb_lt; lia. }
  rewrite C. unfold renderRow, index.
  assert (N : (0 <=? offset t) = false) by (apply Z.leb_gt; exact Ho).
  rewrite N. reflexivity.
Qed.

Lemma render_offset_negative (t : TUI) : offset t < 0 -> render t = Panic.
Proof.
  intros Ho. unfold render. cbv zeta.
  set (t0 := set_size _ (set_screen (Clear (screen t)) t)).
  pose proof (only_screen_fields _ _ (drawHeader_only_screen t0))
    as (_ & _ & F3 & _).
  rewrite renderRows_offset_negative; [reflexivity | |].
  - rewrite F3. exact Ho.
  - apply visibleRows_range.
Qed.

(** X1.  [render] faults whenever the offset is negative, with or without
    entries: the loop over the rows starts at the index [offset], which is
    below [len(entries)], and indexes the entries there.  So a render that
    returns leaves an offset that is not negative. *)
Theorem render_faults_on_negative_offset (t : TUI) :
  (offset t < 0 -> render t = Panic) /\
  (forall t', render t = Ok t' -> 0 <= offset t /\ 0 <= offset t').
Proof.
  split; [apply render_offset_negative |].
  intros t' R.
  pose proof (only_screen_fields _ _ (render_only_screen _ _ R))
    as (_ & _ & F3 & _).
  cbn [offset set_size] in F3. rewrite F3.
  destruct (Z.lt_ge_cases (offset t) 0) as [Neg | Pos]; [| lia].
  rewrite (render_offset_negative t Neg) in R. discriminate.
Qed.

Lemma render_faults_on_negative_offset_witness :
  let t := sample.normal sample.screen80x24 (sample.entriesN 3) 0 (-1) in
  offset t < 0 /\ render t = Panic.
Proof.
  cbv zeta.
  assert (N : offset (sample.normal sample.screen80x24 (sample.entriesN 3) 0 (-1))
              < 0) by reflexivity.
  split; [exact N |].
  apply (proj1 (render_faults_on_negative_offset _) N).
Defined.

Section Faults.

Context `{GoLib} {S : Type} `{RecordStore S}.

(** X2.  The key G in Normal mode with no entries sets the cursor to
    [len(entries)-1 = -1], [adjustOffset] then makes the offset negative,
    and the render of the same iteration faults: the program panics. *)
Theorem jump_last_on_empty_list_faults (now : time.Time) (t : TUI) (st : S) :
  inputMode t = "" -> count t = 0 ->
  normalKey KeyRune 71 t st
    = Redraw (adjustOffset (set_selected (-1) t)) st /\
  offset (adjustOffset (set_selected (-1) t)) < 0 /\
  loopBody now (EventKey KeyRune 71) t st = Panic.
Proof.
  intros Hm Hc.
  assert (E : normalKey KeyRune 71 t st
              = Redraw (adjustOffset (set_selected (-1) t)) st).
  { unfold normalKey. cbn [Z.eqb Pos.eqb]. rewrite Hc. reflexivity. }
  assert (N : offset (adjustOffset (set_selected (-1) t)) < 0).
  { apply adjustOffset_negative. reflexivity. }
  split; [exact E |]. split; [exact N |].
  unfold loopBody. cbn [deliver]. rewrite set_screen_same.
  unfold handleEvent. rewrite Hm. cbn [String.eqb negb bind].
  rewrite E. rewrite (render_offset_negative _ N). reflexivity.
Qed.

Lemma handleEvent_returns (now : time.Time) (ev : Event) (t : TUI) (st : S) :
  (0 < count t -> cursor_ok t) ->
  len (inputBuf t) <= int_max ->
  exists a, handleEvent now ev t st = Ok a.
Proof.
  intros Hc Hl.
  destruct ev as [w h | k r |]; cbn [handleEvent]; [eauto | | eauto].
  destruct (negb (inputMode t =? "")%string); [| eauto].
  assert (HI : exists d t1 st1, handleInput now k r t st = Ok (d, t1, st1)).
  { assert (B : (len (inputBuf t) >? 0) = true ->
                exists b, slice_to (inputBuf t) (wrap64 (len (inputBuf t) - 1))
                          = Ok b).
    { intros G. apply Z.gtb_lt in G. unfold slice_to.
      rewrite (wrap64_small (len (inputBuf t) - 1)) by int_arith.
      assert (C : (0 <=? len (inputBuf t) - 1)
                  && (len (inputBuf t) - 1 <=? len (inputBuf t)) = true).
      { apply andb_true_iff. split; apply Z.leb_le; lia. }
      rewrite C. eauto. }
    unfold handleInput. destruct k; eauto.
    - destruct (submit_returns now t st Hc) as (t1 & st1 & E). eauto.
    - destruct (len (inputBuf t) >? 0); [| eauto].
      destruct (B eq_refl) as [b ->]. cbn [bind]. eauto.
    - destruct (len (inputBuf t) >? 0); [| eauto].
      destruct (B eq_refl) as [b ->]. cbn [bind]. eauto. }
  destruct HI as (d & t1 & st1 & E). rewrite E. cbn [bind].
  destruct d; eauto.
Qed.

(** X3.  The handling of an event before the render does not fault when
    the cursor designates an entry whenever there is one (and the buffer
    is a Go string): indexing [entries[selected]] in the edit and delete
    submits is the only place where it could.  A fault of an iteration is
    then a fault of its [render]. *)
Theorem event_handling_does_not_fault (now : time.Time) (ev : Event)
    (t : TUI) (st : S) :
  (0 < count t -> cursor_ok t) ->
  len (inputBuf t) <= int_max ->
  (exists a, handleEvent now ev t st = Ok a) /\
  (loopBody now ev t st = Panic ->
   exists t1 st1,
     handleEvent now ev (set_screen (deliver ev (screen t)) t) st
       = Ok (Redraw t1 st1) /\
     render t1 = Panic).
Proof.
  intros Hc Hl.
  split; [apply handleEvent_returns; assumption |].
  unfold loopBody. cbv zeta.
  destruct (handleEvent_returns now ev
              (set_screen (deliver ev (screen t)) t) st Hc Hl) as [a Ha].
  rewrite Ha. cbn [bind].
  destruct a as [| t1 st1 | t1 st1]; [discriminate | | discriminate].
  destruct (render t1) eqn:R; cbn [bind]; [discriminate |].
  intros _. eauto.
Qed.

End Faults.

Lemma jump_last_on_empty_list_faults_witness :
  let t := start sample.screen80x24 in
  inputMode t = "" /\ count t = 0 /\
  loopBody (H := decimalLib) sample.noon (EventKey KeyRune 71) t sample.emptyDB
    = Panic.
Proof.
  cbv zeta. split; [reflexivity |]. split; [reflexivity |].
  apply (jump_last_on_empty_list_faults (H := decimalLib) (H0 := db_store)
           sample.noon (start sample.screen80x24) sample.emptyDB
           eq_refl eq_refl).
Defined.

Lemma event_handling_does_not_fault_witness :
  let t := sample.typing "edit" "12.5" (sample.entriesN 3) 2 in
  (0 < count t -> cursor_ok t) /\ len (inputBuf t) <= int_max /\
  exists a,
    handleEvent (H := decimalLib) sample.noon (EventKey KeyEnter 13) t
      (sample.storeN 3) = Ok a.
Proof.
  cbv zeta.
  assert (C : 0 < count (sample.typing "edit" "12.5" (sample.entriesN 3) 2) ->
              cursor_ok (sample.typing "edit" "12.5" (sample.entriesN 3) 2)).
  { intros _. unfold cursor_ok. vm_compute. intuition congruence. }
  assert (L : len (inputBuf (sample.typing "edit" "12.5" (sample.entriesN 3) 2))
              <= int_max) by (vm_compute; discriminate).
  split; [exact C |]. split; [exact L |].
  apply (event_handling_does_not_fault (H := decimalLib) (H0 := db_store)
           sample.noon (EventKey KeyEnter 13) _ (sample.storeN 3) C L).
Defined.

(** ** Navigation *)

Lemma press_frame (t : TUI) (down : bool) :
  entries (press t down) = entries t /\ height (press t down) = height t /\
  inputMode (press t down) = inputMode t.
Proof.
  assert (A : forall u, entries (adjustOffset u) = entries u
                        /\ height (adjustOffset u) = height u
                        /\ inputMode (adjustOffset u) = inputMode u).
  { intros u. unfold adjustOffset. cbv zeta.
    destruct (selected u <? offset u);
      match goal with
      | |- context [if ?c then _ else _] => destruct c
      end; repeat split; reflexivity. }
  destruct down; cbn [press]; [unfold moveDown | unfold moveUp];
    match goal with
    | |- context [if ?c then _ else _] => destruct c
    end; try (repeat split; reflexivity);
    match goal with
    | |- context [adjustOffset ?u] => destruct (A u) as (A1 & A2 & A3)
    end; rewrite A1, A2, A3; repeat split; reflexivity.
Qed.

(** X4.  From a state whose cursor is on an entry and inside the window
    that [adjustOffset] scrolls by (the height less 6, at least 1), every
    sequence of j and k presses keeps the cursor on an entry and inside
    that window, and leaves the entries and the height as they are. *)
Theorem navigation_keeps_cursor_in_scroll_window (keys : list bool) (t : TUI) :
  nav_ok t ->
  let t' := List.fold_left press keys t in
  cursor_ok t' /\ in_window (scrollRows (height t')) t' /\
  entries t' = entries t /\ height t' = height t.
Proof.
  intros Hn. cbv zeta.
  pose proof (presses_keep_scroll_window keys t Hn) as (_ & _ & _ & C & W).
  split; [exact C |]. split; [exact W |].
  clear. revert t. induction keys as [| k keys IH]; intros t; cbn [List.fold_left];
    [split; reflexivity |].
  destruct (IH (press t k)) as [E1 E2].
  destruct (press_frame t k) as (F1 & F2 & _).
  rewrite E1, E2. split; assumption.
Qed.

Lemma navigation_keeps_cursor_in_scroll_window_witness :
  let t := sample.normal sample.screen80x24 (sample.entriesN 40) 17 0 in
  nav_ok t /\
  selected (List.fold_left press [true; true; true; false] t) = 19 /\
  offset (List.fold_left press [true; true; true; false] t) = 3 /\
  in_window (scrollRows 24)
    (List.fold_left press [true; true; true; false] t).
Proof.
  cbv zeta.
  assert (N : nav_ok (sample.normal sample.screen80x24 (sample.entriesN 40) 17 0)).
  { unfold nav_ok, cursor_ok, in_window. vm_compute. intuition congruence. }
  split; [exact N |].
  destruct (navigation_keeps_cursor_in_scroll_window [true; true; true; false]
              _ N) as (_ & W & _ & _).
  split; [reflexivity |]. split; [reflexivity | exact W].
Defined.

Section Jumps.

Context {S : Type} `{RecordStore S}.

(** X5.  The key g puts the cursor and the offset at 0.  The key G, when
    there are entries, puts the cursor on the last one and scrolls so that
    it is inside the window of [adjustOffset]; the entries are untouched
    and nothing is asked of the store. *)
Theorem jump_keys (t : TUI) (st : S) :
  well_typed t -> 0 <= height t -> 0 < count t ->
  count t + height t <= int_max ->
  (exists t1, normalKey KeyRune 103 t st = Redraw t1 st /\
     selected t1 = 0 /\ offset t1 = 0 /\ entries t1 = entries t) /\
  (exists t2, normalKey KeyRune 71 t st = Redraw t2 st /\
     selected t2 = count t - 1 /\ entries t2 = entries t /\
     in_window (scrollRows (height t)) t2).
Proof.
  intros Wt Hh Hc Hsum.
  pose proof (proj1 (well_typed_spec t) Wt) as (W1 & W2 & W3 & W4 & W5).
  split.
  - eexists. split; [reflexivity |]. repeat split; reflexivity.
  - eexists. split; [reflexivity |].
    rewrite (wrap64_small (count t - 1)) by int_arith.
    set (t1 := set_selected (count t - 1) t).
    assert (Wt1 : well_typed t1).
    { apply well_typed_spec. unfold count.
      cbn [entries selected offset width height set_selected t1].
      fold (count t). repeat split; int_arith. }
    destruct (adjustOffset_window t1 Wt1) as (A1 & A2 & A3 & A4 & A5);
      try (cbn [selected height set_selected t1]; int_arith).
    cbn [entries selected height set_selected t1] in A1, A2, A3, A5.
    split; [exact A2 |]. split; [exact A1 | exact A5].
Qed.

End Jumps.

Lemma jump_keys_witness :
  let t := sample.normal sample.screen80x24 (sample.entriesN 40) 3 0 in
  well_typed t /\ 0 <= height t /\ 0 < count t /\
  count t + height t <= int_max /\
  exists t2,
    normalKey KeyRune 71 t sample.emptyDB = Redraw t2 sample.emptyDB /\
    selected t2 = 39 /\ in_window (scrollRows 24) t2.
Proof.
  cbv zeta.
  assert (A : well_typed (sample.normal sample.screen80x24 (sample.entriesN 40) 3 0))
    by reflexivity.
  assert (B : 0 <= height (sample.normal sample.screen80x24 (sample.entriesN 40) 3 0))
    by (vm_compute; discriminate).
  assert (C : 0 < count (sample.normal sample.screen80x24 (sample.entriesN 40) 3 0))
    by reflexivity.
  assert (D : count (sample.normal sample.screen80x24 (sample.entriesN 40) 3 0)
              + height (sample.normal sample.screen80x24 (sample.entriesN 40) 3 0)
              <= int_max) by (vm_compute; discriminate).
  repeat (split; [assumption |]).
  destruct (jump_keys (H := db_store) _ sample.emptyDB
              A B C D) as (_ & t2 & E & F & _ & W).
  exists t2. split; [exact E |]. split; [exact F | exact W].
Defined.

(** ** What render draws and what it leaves *)

(** X6.  A render that returns has changed the screen and set the width
    and the height to the size the screen reports, and nothing else:
    entries, cursor, offset, mode, buffer and message are as before. *)
Theorem render_changes_screen_and_size_only (t t' : TUI) :
  render t = Ok t' ->
  entries t' = entries t /\ selected t' = selected t /\
  offset t' = offset t /\ inputMode t' = inputMode t /\
  inputBuf t' = inputBuf t /\ message t' = message t /\
  msgStyle t' = msgStyle t /\
  width t' = fst (Size (screen t)) /\ height t' = snd (Size (screen t)).
Proof.
  intros R.
  pose proof (only_screen_fields _ _ (render_only_screen _ _ R))
    as (F1 & F2 & F3 & F4 & F5 & F6 & F7 & F8 & F9).
  repeat split; assumption.
Qed.

(** X7.  [render] returns whenever the offset is not negative and the
    screen is at least 61 columns wide: then every note can be cut to the
    width of its column, and every row that is drawn exists. *)
Theorem render_returns_on_wide_terminal (t : TUI) :
  0 <= offset t -> count t <= int_max ->
  61 <= fst (Size (screen t)) <= int_max ->
  exists t', render t = Ok t' /\ entries t' = entries t /\
             selected t' = selected t /\ offset t' = offset t.
Proof.
  intros Ho Hc Hw. destruct (render_ok t Ho Hc Hw) as [t' R].
  exists t'. split; [exact R |].
  pose proof (only_screen_fields _ _ (render_only_screen _ _ R))
    as (F1 & F2 & F3 & _).
  repeat split; assumption.
Qed.

Lemma render_returns_on_wide_terminal_witness :
  let t := mkTUI (mkScreen (61, 10) []) [sample.entry 1 "a note of some length"]
             0 0 0 0 "" "" "" StyleDefault in
  0 <= offset t /\ count t <= int_max /\
  61 <= fst (Size (screen t)) <= int_max /\
  exists t', render t = Ok t' /\ width t' = 61 /\ height t' = 10.
Proof.
  cbv zeta.
  set (t := mkTUI (mkScreen (61, 10) []) [sample.entry 1 "a note of some length"]
              0 0 0 0 "" "" "" StyleDefault).
  assert (A : 0 <= offset t) by (vm_compute; discriminate).
  assert (B : count t <= int_max) by (vm_compute; discriminate).
  assert (C : 61 <= fst (Size (screen t)) <= int_max)
    by (vm_compute; split; discriminate).
  split; [exact A |]. split; [exact B |]. split; [exact C |].
  destruct (render_returns_on_wide_terminal t A B C) as (t' & R & _).
  exists t'. split; [exact R |].
  pose proof (only_screen_fields _ _ (render_only_screen _ _ R))
    as (_ & _ & _ & W & Hh & _).
  split; assumption.
Defined.

Lemma render_changes_screen_and_size_only_witness :
  let t := mkTUI (mkScreen (70, 12) []) (sample.entriesN 4) 2 1 0 0
             "edit" "4" "Edit amount: " StyleDefault in
  exists t', render t = Ok t' /\ selected t' = 2 /\ offset t' = 1 /\
             inputBuf t' = "4" /\ width t' = 70 /\ height t' = 12.
Proof.
  cbv zeta.
  destruct (render (mkTUI (mkScreen (70, 12) []) (sample.entriesN 4) 2 1 0 0
                      "edit" "4" "Edit amount: " StyleDefault))
    as [t' |] eqn:R; [| vm_compute in R; discriminate].
  exists t'. split; [reflexivity |].
  destruct (render_changes_screen_and_size_only _ _ R)
    as (_ & A & B & _ & C & _ & _ & D & E).
  repeat split; assumption.
Defined.

Lemma length_append (a b : string) :
  String.length (a ++ b) = (String.length a + String.length b)%nat.
Proof. induction a as [| c a IH]; cbn; [reflexivity | rewrite IH; reflexivity]. Qed.

Lemma length_take (n : nat) (s : string) :
  (n <= String.length s)%nat -> String.length (take n s) = n.
Proof.
  revert s. induction n as [| n IH]; intros s Hn; [reflexivity |].
  destruct s as [| c s]; cbn in *; [lia |]. rewrite IH; lia.
Qed.

(** X8.  The note column in a terminal of width [w]: with [m] the width
    less 58, at least 0, a note of at most [m] bytes is shown whole; a
    longer one is cut to its first [w - 61] bytes followed by three dots,
    [m] bytes in all, when [w] is at least 61, and makes the slice fault
    when [w] is 60 or less.  What is shown never exceeds [m] bytes. *)
Theorem shown_note_fits_or_faults (w : Z) (note : string) :
  int_min + 58 <= w <= int_max ->
  let m := Z.max 0 (w - 58) in
  (shownNote w note = Panic <-> m < len note /\ w <= 60) /\
  (forall s, shownNote w note = Ok s ->
     len s <= m /\
     (len note <= m -> s = note) /\
     (m < len note -> s = take (Z.to_nat (w - 61)) note ++ "...")).
Proof.
  intros Hw m. unfold shownNote.
  rewrite (wrap64_small (w - 58)) by int_arith.
  assert (Hm : (if w - 58 <? 0 then 0 else w - 58) = m).
  { subst m. destruct (w - 58 <? 0) eqn:E;
      [apply Z.ltb_lt in E | apply Z.ltb_ge in E]; lia. }
  rewrite Hm.
  assert (Hm0 : 0 <= m <= int_max) by (subst m; int_arith).
  assert (Hlen : 0 <= len note) by (unfold len; lia).
  rewrite (wrap64_small (m - 3)) by int_arith.
  destruct (len note >? m) eqn:G;
    [apply Z.gtb_lt in G | rewrite Z.gtb_ltb in G; apply Z.ltb_ge in G].
  - unfold slice_to.
    destruct ((0 <=? m - 3) && (m - 3 <=? len note)) eqn:C.
    + apply andb_true_iff in C. destruct C as [C1 C2].
      apply Z.leb_le in C1. apply Z.leb_le in C2. cbn [bind].
      assert (Hw61 : m - 3 = w - 61) by (subst m; lia).
      split.
      * split; [discriminate | intros [_ L]; subst m; lia].
      * intros s E. injection E as <-.
        assert (L : len (take (Z.to_nat (m - 3)) note ++ "...") = m).
        { unfold len. rewrite length_append, length_take.
          - cbn [String.length]. lia.
          - unfold len in C2. lia. }
        split; [lia |]. split; [lia |].
        intros _. rewrite Hw61. reflexivity.
    + cbn [bind]. apply andb_false_iff in C.
      assert (L : m - 3 < 0).
      { destruct C as [C | C]; apply Z.leb_gt in C; lia. }
      split.
      * split; [intros _; split; [exact G | subst m; lia] | reflexivity].
      * intros s E. discriminate.
  - split.
    + split; [discriminate | intros [L _]; lia].
    + intros s E. injection E as <-. split; [exact G |].
      split; [reflexivity | lia].
Qed.

Lemma shown_note_fits_or_faults_witness :
  int_min + 58 <= 64 <= int_max /\
  shownNote 64 "a long note" = Ok "a l..." /\
  len "a l..." <= Z.max 0 (64 - 58).
Proof.
  assert (R : int_min + 58 <= 64 <= int_max) by (vm_compute; split; discriminate).
  split; [exact R |]. split; [reflexivity |].
  destruct (shown_note_fits_or_faults 64 "a long note" R) as [_ B].
  apply (B "a l..." eq_refl).
Defined.

Lemma wrap64_add_l (a b : Z) : wrap64 (wrap64 a + b) = wrap64 (a + b).
Proof.
  unfold wrap64.
  replace ((a + 2 ^ 63) mod 2 ^ 64 - 2 ^ 63 + b + 2 ^ 63)
    with ((a + 2 ^ 63) mod 2 ^ 64 + b) by ring.
  rewrite Z.add_mod_idemp_l by lia.
  replace (a + 2 ^ 63 + b) with (a + b + 2 ^ 63) by ring. reflexivity.
Qed.

Lemma totalMRR_from (es : list Entry) (a : Z) :
  List.fold_left
    (fun acc e =>
       if String.eqb (Type_ e) "recurring" then wrap64 (acc + Amount e)
       else acc) es (wrap64 a)
  = wrap64 (a + recurringSum es).
Proof.
  revert a. induction es as [| e es IH]; intros a; cbn [List.fold_left recurringSum List.fold_right].
  - rewrite Z.add_0_r. reflexivity.
  - fold (recurringSum es).
    destruct (String.eqb (Type_ e) "recurring").
    + rewrite wrap64_add_l, IH. f_equal. ring.
    + apply IH.
Qed.

Lemma recurringSum_perm (es es' : list Entry) :
  Permutation es es' -> recurringSum es = recurringSum es'.
Proof.
  induction 1 as [| e l l' P IH | a b l | l l' l'' P1 IH1 P2 IH2];
    cbn [recurringSum List.fold_right].
  - reflexivity.
  - fold (recurringSum l). fold (recurringSum l'). rewrite IH. reflexivity.
  - fold (recurringSum l).
    destruct (String.eqb (Type_ a) "recurring"),
             (String.eqb (Type_ b) "recurring"); lia.
  - congruence.
Qed.

(** X9.  The total in the header is the sum of the amounts of all
    recurring entries of the snapshot, reduced to 64 bits: it is the exact
    sum whenever that fits, whatever the partial sums, and it does not
    depend on the order of the entries. *)
Theorem total_mrr_is_sum_of_recurring (es : list Entry) :
  totalMRR es = wrap64 (recurringSum es) /\
  (int_min <= recurringSum es <= int_max -> totalMRR es = recurringSum es) /\
  (forall es', Permutation es es' -> totalMRR es' = totalMRR es).
Proof.
  assert (E : forall l, totalMRR l = wrap64 (recurringSum l)).
  { intros l. unfold totalMRR.
    change 0 with (wrap64 0) at 1. rewrite totalMRR_from. reflexivity. }
  split; [apply E |]. split.
  - intros R. rewrite E. apply wrap64_small. exact R.
  - intros es' P. rewrite !E, (recurringSum_perm _ _ P). reflexivity.
Qed.

Lemma total_mrr_is_sum_of_recurring_witness :
  let es := [mkEntry 1 int_max "manual" "recurring" "" sample.day sample.noon;
             mkEntry 2 500 "stripe" "one-time" "" sample.day sample.noon;
             mkEntry 3 (-10) "manual" "recurring" "" sample.day sample.noon] in
  int_min <= recurringSum es <= int_max /\ totalMRR es = int_max - 10.
Proof.
  cbv zeta.
  set (es := [mkEntry 1 int_max "manual" "recurring" "" sample.day sample.noon;
              mkEntry 2 500 "stripe" "one-time" "" sample.day sample.noon;
              mkEntry 3 (-10) "manual" "recurring" "" sample.day sample.noon]).
  assert (R : int_min <= recurringSum es <= int_max)
    by (vm_compute; split; discriminate).
  split; [exact R |].
  destruct (total_mrr_is_sum_of_recurring es) as (_ & A & _).
  rewrite (A R). reflexivity.
Defined.

(** X10.  [drawString] only adds cells to the screen, all on its line and
    in its style, at most one for each rune of the string, and none at or
    beyond the width of the terminal; it keeps the size of the screen. *)
Theorem drawString_stays_inside_width (x y : Z) (str : string) (st : Style)
    (t : TUI) :
  exists new,
    cells (screen (drawString x y str st t)) = (new ++ cells (screen t))%list /\
    Forall (fun c => cx c < width t /\ cy c = y /\ cstyle c = st) new /\
    (List.length new <= List.length (utf8.range str))%nat /\
    Size (screen (drawString x y str st t)) = Size (screen t).
Proof.
  unfold drawString. generalize (utf8.range str). intros l.
  revert t. induction l as [| [i r] l IH]; intros t; cbn [drawRunes].
  - exists []. repeat split; [constructor | cbn; lia].
  - destruct (wrap64 (x + i) >=? width t) eqn:G.
    + exists []. repeat split; [constructor | cbn; lia].
    + rewrite Z.geb_leb in G. apply Z.leb_gt in G.
      destruct (IH (put (wrap64 (x + i)) y r st t)) as (new & E & F & L & Sz).
      exists (new ++ [mkCell (wrap64 (x + i)) y r st])%list.
      rewrite E. cbn [put screen set_screen SetContent cells].
      split; [rewrite <- List.app_assoc; reflexivity |].
      split; [| split].
      * apply Forall_app. split; [exact F |].
        constructor; [| constructor]. cbn. repeat split. exact G.
      * rewrite List.length_app. cbn [List.length]. lia.
      * rewrite Sz. reflexivity.
Qed.

(** ** The input buffer *)

Lemma take_append_all (a b : string) :
  take (String.length a) (a ++ b) = a.
Proof. induction a as [| c a IH]; cbn; [destruct b; reflexivity | rewrite IH; reflexivity]. Qed.


Lemma set_inputBuf_same (t : TUI) : set_inputBuf (inputBuf t) t = t.
Proof. destruct t; reflexivity. Qed.


Section Buffer.

Context `{GoLib} {S : Type} `{RecordStore S}.


End Buffer.


(** ** The record store of package [db] *)

(** The order of the listing, in terms of the dates and identifiers. *)
Lemma before_spec (a b : Entry) :
  db.before a b = true <->
  time.Year (Date b) < time.Year (Date a) \/
  (time.Year (Date a) = time.Year (Date b) /\
   (time.Month (Date b) < time.Month (Date a) \/
    (time.Month (Date a) = time.Month (Date b) /\
     (time.Day (Date b) < time.Day (Date a) \/
      (time.Day (Date a) = time.Day (Date b) /\ ID b < ID a))))).
Proof.
  unfold db.before, time.date_ltb, time.date_eqb.
  rewrite !orb_true_iff, !andb_true_iff, !orb_true_iff, !andb_true_iff,
    !Z.ltb_lt, !Z.eqb_eq.
  lia.
Qed.

Lemma before_false (a b : Entry) :
  db.before a b = false <-> ~ (db.before a b = true).
Proof. destruct (db.before a b); split; congruence. Qed.

Lemma insert_sorted_perm (e : Entry) (l : list Entry) :
  Permutation (db.insert_sorted e l) (e :: l).
Proof.
  induction l as [| x l IH]; cbn [db.insert_sorted]; [reflexivity |].
  destruct (db.before x e); [| reflexivity].
  rewrite IH. apply perm_swap.
Qed.

Lemma order_by_perm (l : list Entry) : Permutation (db.order_by_date_id l) l.
Proof.
  unfold db.order_by_date_id.
  induction l as [| x l IH]; cbn [List.fold_right]; [reflexivity |].
  rewrite insert_sorted_perm. constructor. exact IH.
Qed.

Lemma insert_sorted_sorted (e : Entry) (l : list Entry) :
  StronglySorted db.ordered l -> StronglySorted db.ordered (db.insert_sorted e l).
Proof.
  induction l as [| x l IH]; intros Hs; cbn [db.insert_sorted].
  - constructor; constructor.
  - inversion Hs as [| ? ? Hs' Hx]; subst.
    destruct (db.before x e) eqn:B.
    + constructor; [apply IH; exact Hs' |].
      rewrite Forall_forall. intros y Hy.
      apply (Permutation_in _ (insert_sorted_perm e l)) in Hy.
      destruct Hy as [<- | Hy].
      * unfold db.ordered. apply before_false. rewrite before_spec.
        apply before_spec in B. lia.
      * rewrite Forall_forall in Hx. apply Hx. exact Hy.
    + constructor; [exact Hs |].
      constructor; [exact B |].
      rewrite Forall_forall in Hx |- *. intros y Hy.
      pose proof (Hx y Hy) as Hxy. unfold db.ordered in *.
      apply before_false. apply before_false in Hxy. apply before_false in B.
      rewrite before_spec in *. lia.
Qed.

Lemma order_by_sorted (l : list Entry) :
  StronglySorted db.ordered (db.order_by_date_id l).
Proof.
  unfold db.order_by_date_id.
  induction l as [| x l IH]; cbn [List.fold_right]; [constructor |].
  apply insert_sorted_sorted. exact IH.
Qed.

Lemma filter_all {A : Type} (f : A -> bool) (l : list A) :
  (forall x, f x = true) -> List.filter f l = l.
Proof.
  intros Hf. induction l as [| x l IH]; cbn; [reflexivity |].
  rewrite Hf, IH. reflexivity.
Qed.

(** The listing of an open database: its rows in the order of the
    query. *)
Lemma GetAllEntries_open (d : db.DB) :
  db.closed d = false ->
  db.GetAllEntries d = Success (db.order_by_date_id (db.rows d)).
Proof.
  intros Hc. unfold db.GetAllEntries, db.ListEntries. rewrite Hc.
  rewrite filter_all; [reflexivity |]. intros e. reflexivity.
Qed.

Lemma GetAllEntries_cases (d : db.DB) (es : list Entry) :
  db.GetAllEntries d = Success es ->
  db.closed d = false /\ es = db.order_by_date_id (db.rows d).
Proof.
  destruct (db.closed d) eqn:Hc.
  - unfold db.GetAllEntries, db.ListEntries. rewrite Hc. discriminate.
  - rewrite (GetAllEntries_open d Hc). intros E. injection E as <-. auto.
Qed.

(** Distinct integers between 1 and [n] are at most [n]. *)
Lemma distinct_in_range (l : list Z) (n : Z) :
  0 <= n ->
  NoDup l -> Forall (fun x => 1 <= x <= n) l -> Z.of_nat (List.length l) <= n.
Proof.
  intros Hpos Hn Hr.
  assert (Hm : NoDup (List.map Z.to_nat l)).
  { induction Hn as [| x l Hx Hn IH]; cbn; [constructor |].
    inversion Hr as [| ? ? Hx1 Hr']; subst.
    constructor; [| apply IH; exact Hr'].
    rewrite in_map_iff. intros (y & E & Hy).
    rewrite Forall_forall in Hr'. pose proof (Hr' y Hy).
    assert (y = x) by lia. subst y. contradiction. }
  assert (Hi : incl (List.map Z.to_nat l) (List.seq 1 (Z.to_nat n))).
  { intros k Hk. apply in_map_iff in Hk. destruct Hk as (x & <- & Hx).
    rewrite Forall_forall in Hr. pose proof (Hr x Hx).
    apply in_seq. lia. }
  pose proof (NoDup_incl_length Hm Hi) as L.
  rewrite List.length_map, List.length_seq in L. lia.
Qed.

Lemma wf_rows_fit (d : db.DB) :
  db.wf d -> Z.of_nat (List.length (db.rows d)) <= int_max.
Proof.
  intros (Hs & Hn & Hr).
  assert (L : Z.of_nat (List.length (List.map ID (db.rows d))) <= db.seq d).
  { apply distinct_in_range; [lia | exact Hn |].
    rewrite Forall_map. exact Hr. }
  rewrite List.length_map in L. lia.
Qed.

Lemma wf_fit (d : db.DB) (es : list Entry) :
  db.wf d -> db.GetAllEntries d = Success es ->
  Z.of_nat (List.length es) <= int_max.
Proof.
  intros Hw E. destruct (GetAllEntries_cases d es E) as [_ ->].
  rewrite (Permutation_length (order_by_perm (db.rows d))).
  apply wf_rows_fit. exact Hw.
Qed.

Lemma wf_AddEntry (amount : Z) (source entryType note : string)
    (date : time.Time) (d : db.DB) :
  db.wf d -> db.wf (snd (db.AddEntry amount source entryType note date d)).
Proof.
  intros Hw. pose proof Hw as (Hs & Hn & Hr). unfold db.AddEntry.
  destruct (db.closed d); [exact Hw |].
  destruct (int_max <=? db.seq d) eqn:F; [exact Hw |].
  apply Z.leb_gt in F. cbn [snd]. unfold db.wf. cbn [db.seq db.rows].
  split; [lia |]. split.
  - rewrite List.map_app. cbn [List.map ID].
    apply NoDup_app; [exact Hn | repeat constructor; auto |].
    intros x Hx [<- | []].
    apply in_map_iff in Hx. destruct Hx as (e & E & He).
    rewrite Forall_forall in Hr. pose proof (Hr e He). lia.
  - apply Forall_app. split.
    + eapply Forall_impl; [| exact Hr]. cbn. intros e He. lia.
    + constructor; [cbn; lia | constructor].
Qed.

Lemma wf_UpdateEntry (id : Z) (amount : option Z) (source note : option string)
    (d : db.DB) :
  db.wf d -> db.wf (snd (db.UpdateEntry id amount source note d)).
Proof.
  intros Hw. pose proof Hw as (Hs & Hn & Hr). unfold db.UpdateEntry.
  destruct (db.GetEntry id d) as [e0 | err]; [| exact Hw].
  assert (Hm : forall a s n,
             db.wf (db.mkDB
                      (List.map (fun e => if ID e =? id
                                          then db.set_fields a s n e else e)
                         (db.rows d))
                      (db.seq d) (db.clock d) (db.closed d))).
  { intros a s n. unfold db.wf. cbn [db.seq db.rows].
    assert (Hid : List.map ID
                    (List.map (fun e => if ID e =? id
                                        then db.set_fields a s n e else e)
                       (db.rows d))
                  = List.map ID (db.rows d)).
    { rewrite List.map_map. apply List.map_ext. intros e.
      destruct (ID e =? id); reflexivity. }
    split; [exact Hs |]. split; [rewrite Hid; exact Hn |].
    rewrite Forall_map. eapply Forall_impl; [| exact Hr].
    intros e He. cbn. destruct (ID e =? id); exact He. }
  destruct amount, source, note; cbn [snd]; try apply Hm; exact Hw.
Qed.

Lemma NoDup_map_filter {A B : Type} (g : A -> B) (f : A -> bool) (l : list A) :
  NoDup (List.map g l) -> NoDup (List.map g (List.filter f l)).
Proof.
  induction l as [| x l IH]; cbn; [auto |].
  intros Hn. inversion Hn as [| ? ? Hx Hn']; subst.
  destruct (f x); cbn; [| auto].
  constructor; [| auto].
  rewrite in_map_iff in *. intros (y & E & Hy).
  apply Hx. exists y. split; [exact E |].
  apply filter_In in Hy. tauto.
Qed.

Lemma wf_DeleteEntry (id : Z) (d : db.DB) :
  db.wf d -> db.wf (snd (db.DeleteEntry id d)).
Proof.
  intros Hw. pose proof Hw as (Hs & Hn & Hr). unfold db.DeleteEntry.
  destruct (db.closed d); [exact Hw |].
  destruct (List.existsb _ _); [| exact Hw].
  cbn [snd]. unfold db.wf. cbn [db.seq db.rows].
  split; [exact Hs |]. split; [apply NoDup_map_filter; exact Hn |].
  rewrite Forall_forall in *. intros e He.
  apply filter_In in He. apply Hr. tauto.
Qed.

(** ** The states that run reaches *)

Lemma adjustOffset_mode (u : TUI) :
  inputMode (adjustOffset u) = inputMode u /\ entries (adjustOffset u) = entries u.
Proof.
  unfold adjustOffset. cbv zeta.
  destruct (selected u <? offset u);
    match goal with
    | |- context [if ?c then _ else _] => destruct c
    end; split; reflexivity.
Qed.

Section Modes.

Context `{GoLib} {S : Type} `{RecordStore S}.

(** A key that does not end the input mode leaves mode, entries and
    store as they are. *)
Lemma handleInput_goes_on (now : time.Time) (k : Key) (r : Z) (t t1 : TUI)
    (st st1 : S) :
  handleInput now k r t st = Ok (false, t1, st1) ->
  inputMode t1 = inputMode t /\ entries t1 = entries t /\ st1 = st.
Proof.
  unfold handleInput. destruct k.
  - discriminate.
  - intros E. apply submit_true in E. discriminate.
  - destruct (len (inputBuf t) >? 0);
      [destruct (slice_to _ _); cbn [bind]; [| discriminate] |];
      intros E; injection E as <- <-; auto.
  - destruct (len (inputBuf t) >? 0);
      [destruct (slice_to _ _); cbn [bind]; [| discriminate] |];
      intros E; injection E as <- <-; auto.
  - intros E; injection E as <- <-; auto.
  - intros E; injection E as <- <-; auto.
Qed.

Lemma normalKey_mode_ok (k : Key) (r : Z) (t t' : TUI) (st st' : S) :
  inputMode t = "" -> normalKey k r t st = Redraw t' st' -> mode_ok t'.
Proof.
  intros Hm.
  assert (Same : forall u, inputMode u = "" -> mode_ok u).
  { intros u E. unfold mode_ok. rewrite E.
    split; [auto |]. intros [X | X]; discriminate. }
  unfold normalKey.
  destruct k; try (intros E; injection E as <- <-; apply Same; exact Hm);
    [discriminate |].
  destruct (r =? 113); [discriminate |].
  destruct (r =? 106).
  { intros E; injection E as <- <-. apply Same.
    destruct (press_frame t true) as (_ & _ & M). rewrite <- Hm. exact M. }
  destruct (r =? 107).
  { intros E; injection E as <- <-. apply Same.
    destruct (press_frame t false) as (_ & _ & M). rewrite <- Hm. exact M. }
  destruct (r =? 103);
    [intros E; injection E as <- <-; apply Same; exact Hm |].
  destruct (r =? 71).
  { intros E; injection E as <- <-. apply Same.
    rewrite (proj1 (adjustOffset_mode _)). exact Hm. }
  destruct (r =? 97).
  { intros E; injection E as <- <-. unfold mode_ok. cbn.
    split; [auto |]. intros [X | X]; discriminate. }
  destruct (r =? 101).
  { destruct (count t >? 0) eqn:C; intros E; injection E as <- <-;
      [| apply Same; exact Hm].
    apply Z.gtb_lt in C. unfold mode_ok. cbn. split; [auto |].
    intros _. exact C. }
  destruct (r =? 100).
  { destruct (count t >? 0) eqn:C; intros E; injection E as <- <-;
      [| apply Same; exact Hm].
    apply Z.gtb_lt in C. unfold mode_ok. cbn. split; [auto |].
    intros _. exact C. }
  destruct (r =? 114); intros E; injection E as <- <-;
    [| apply Same; exact Hm].
  apply Same. cbn [inputMode setMessage].
  rewrite (proj1 (refresh_frame t st)). exact Hm.
Qed.

Lemma loopBody_mode_ok (now : time.Time) (ev : Event) (t t' : TUI)
    (st st' : S) :
  mode_ok t -> loopBody now ev t st = Ok (Some (t', st')) -> mode_ok t'.
Proof.
  intros Hm. unfold loopBody. cbv zeta.
  set (t0 := set_screen (deliver ev (screen t)) t).
  assert (Hm0 : mode_ok t0) by exact Hm. clearbody t0.
  assert (Fin : forall u u', mode_ok u -> render u = Ok u' -> mode_ok u').
  { intros u u' Hu R.
    pose proof (only_screen_fields _ _ (render_only_screen _ _ R))
      as (F1 & _ & _ & _ & _ & F6 & _).
    cbn [entries inputMode set_size] in F1, F6.
    unfold mode_ok, count in *. rewrite F1, F6. exact Hu. }
  destruct ev as [w h | k r |]; cbn [handleEvent bind].
  - assert (Hm1 : mode_ok (set_size (w, h) t0)) by exact Hm0.
    destruct (render (set_size (w, h) t0)) as [u' |] eqn:R; cbn [bind];
      [| discriminate].
    intros E. injection E as <- <-. exact (Fin _ _ Hm1 R).
  - destruct (String.eqb_spec (inputMode t0) "") as [E0 | E0]; cbn [negb].
    + cbn [bind].
      destruct (normalKey k r t0 st) as [| t1 st1 | t1 st1] eqn:NK;
        [discriminate | |].
      * destruct (render t1) as [u' |] eqn:R; cbn [bind]; [| discriminate].
        intros E. injection E as <- <-.
        exact (Fin _ _ (normalKey_mode_ok _ _ _ _ _ _ E0 NK) R).
      * exfalso. unfold normalKey in NK.
        destruct k; try discriminate.
        repeat match type of NK with
               | (if ?c then _ else _) = _ => destruct c
               end; discriminate.
    + destruct (handleInput now k r t0 st) as [[[done t1] st1] |] eqn:HI;
        cbn [bind]; [| discriminate].
      destruct done; cbn [bind].
      * destruct (render (refresh (set_inputBuf "" (set_inputMode "" t1)) st1))
          as [u' |] eqn:R; cbn [bind]; [| discriminate].
        intros E. injection E as <- <-.
        refine (Fin _ _ _ R).
        unfold mode_ok.
        rewrite (proj1 (refresh_frame (set_inputBuf "" (set_inputMode "" t1)) st1)).
        cbn. split; [auto |]. intros [X | X]; discriminate.
      * destruct (render t1) as [u' |] eqn:R; cbn [bind]; [| discriminate].
        intros E. injection E as <- <-. refine (Fin _ _ _ R).
        destruct (handleInput_goes_on _ _ _ _ _ _ _ HI) as (M1 & M2 & _).
        unfold mode_ok, count. rewrite M1, M2. exact Hm0.
  - intros E. injection E as <- <-. exact Hm0.
Qed.

(** X12.  In every state that [run] reaches, the mode is one of the four
    of the controller, and the edit and delete modes are only ever active
    with at least one entry: they are entered with entries, and the
    entries change only when the mode ends. *)
Theorem input_modes_have_entries (evs : list (time.Time * Event))
    (scr : Screen) (t' : TUI) (st st' : S) :
  run evs (start scr) st = Ok (Some (t', st')) -> mode_ok t'.
Proof.
  unfold run.
  destruct (render (refresh (start scr) st)) as [t1 |] eqn:R; cbn [bind];
    [| discriminate].
  assert (M1 : mode_ok t1).
  { pose proof (only_screen_fields _ _ (render_only_screen _ _ R))
      as (_ & _ & _ & _ & _ & F6 & _).
    cbn [inputMode set_size] in F6.
    rewrite (proj1 (refresh_frame (start scr) st)) in F6. cbn in F6.
    unfold mode_ok. rewrite F6. split; [auto |].
    intros [X | X]; discriminate. }
  clear R. revert t1 st M1.
  induction evs as [| [now ev] evs IH]; intros t1 st1 M1; cbn [loop].
  - intros E. injection E as <- <-. exact M1.
  - destruct (loopBody now ev t1 st1) as [[[t2 st2] |] |] eqn:L; cbn [bind];
      try discriminate.
    apply IH. exact (loopBody_mode_ok _ _ _ _ _ _ M1 L).
Qed.

End Modes.

Lemma input_modes_have_entries_witness :
  let evs := [(sample.noon, EventKey KeyRune 97);
              (sample.noon, EventKey KeyRune 53);
              (sample.noon, EventKey KeyEnter 13);
              (sample.noon, EventKey KeyRune 100)] in
  exists t' st',
    run (H := decimalLib) evs (start sample.screen80x24) sample.emptyDB
      = Ok (Some (t', st')) /\
    inputMode t' = "delete" /\ count t' = 1 /\ mode_ok t'.
Proof.
  cbv zeta.
  destruct (run (H := decimalLib)
              [(sample.noon, EventKey KeyRune 97);
               (sample.noon, EventKey KeyRune 53);
               (sample.noon, EventKey KeyEnter 13);
               (sample.noon, EventKey KeyRune 100)]
              (start sample.screen80x24) sample.emptyDB)
    as [[[t' st'] |] |] eqn:R.
  - exists t', st'. split; [reflexivity |].
    pose proof (input_modes_have_entries _ _ _ _ _ R) as M.
    vm_compute in R. injection R as <- <-.
    split; [reflexivity |]. split; [reflexivity | exact M].
  - vm_compute in R. discriminate.
  - vm_compute in R. discriminate.
Defined.

Section ReachGood.

Context `{GoLib} {S : Type} `{RecordStore S}.

(** An invariant of the store, kept by its three mutations, under which
    its listings fit in a Go slice. *)
Variable Good : S -> Prop.

Hypothesis good_add :
  forall a s ty n d st, Good st -> Good (snd (AddEntry a s ty n d st)).
Hypothesis good_update :
  forall id a s n st, Good st -> Good (snd (UpdateEntry id a s n st)).
Hypothesis good_delete :
  forall id st, Good st -> Good (snd (DeleteEntry id st)).
Hypothesis good_fit :
  forall st es, Good st -> GetAllEntries st = Success es ->
                Z.of_nat (List.length es) <= int_max.

Lemma refresh_bounded_good (t : TUI) (st : S) :
  Good st -> cursor_bounded t -> cursor_bounded (refresh t st).
Proof.
  intros Hg (B1 & B2 & B3 & B4). unfold refresh.
  destruct (GetAllEntries st) as [es | err] eqn:G;
    [| unfold cursor_bounded; auto].
  pose proof (good_fit st es Hg G) as Hn.
  cbn [selected set_entries]. unfold count. cbn [entries set_entries].
  set (n := Z.of_nat (List.length es)) in *.
  rewrite Z.geb_leb, Z.gtb_ltb.
  destruct (n <=? selected t) eqn:E1; destruct (0 <? n) eqn:E2;
    cbn [andb];
    try apply Z.leb_le in E1; try apply Z.leb_gt in E1;
    try apply Z.ltb_lt in E2; try apply Z.ltb_ge in E2.
  all: try rewrite wrap64_small by int_arith.
  all: unfold cursor_bounded, count;
    cbn [entries selected offset set_selected set_entries]; fold n;
    repeat split; lia.
Qed.

Lemma submitInput_good (now : time.Time) (t t1 : TUI) (st st1 : S) (b : bool) :
  Good st -> submitInput now t st = Ok (b, t1, st1) -> Good st1.
Proof.
  intros Hg. unfold submitInput.
  destruct (String.eqb (inputMode t) "add").
  { destruct (ParseFloat _).
    - pose proof (good_add (cents t0) "manual" "recurring" "" now st Hg) as G.
      fold (cents t0).
      destruct (AddEntry _ _ _ _ _ _) as [[id | err] st'];
        intros E; injection E as <- <- <-; exact G.
    - intros E; injection E as <- <- <-; exact Hg. }
  destruct (String.eqb (inputMode t) "edit").
  { destruct (count t =? 0); [intros E; injection E as <- <- <-; exact Hg |].
    destruct (ParseFloat _); [| intros E; injection E as <- <- <-; exact Hg].
    destruct (index (entries t) (selected t)) as [e |]; cbn [bind];
      [| discriminate].
    pose proof (good_update (ID e) (Some (cents t0)) None None st Hg) as G.
    fold (cents t0).
    destruct (UpdateEntry _ _ _ _ _) as [[err |] st'];
      intros E; injection E as <- <- <-; exact G. }
  destruct (String.eqb (inputMode t) "delete");
    [| intros E; injection E as <- <- <-; exact Hg].
  destruct (String.eqb (ToLower (inputBuf t)) "y" && (count t >? 0));
    [| intros E; injection E as <- <- <-; exact Hg].
  destruct (index (entries t) (selected t)) as [e |]; cbn [bind];
    [| discriminate].
  pose proof (good_delete (ID e) st Hg) as G.
  destruct (DeleteEntry _ _) as [[err |] st'];
    intros E; injection E as <- <- <-; exact G.
Qed.

Lemma handleInput_good (now : time.Time) (k : Key) (r : Z) (t t1 : TUI)
    (st st1 : S) (b : bool) :
  Good st -> handleInput now k r t st = Ok (b, t1, st1) -> Good st1.
Proof.
  intros Hg. unfold handleInput. destruct k.
  - intros E; injection E as <- <- <-; exact Hg.
  - apply submitInput_good. exact Hg.
  - destruct (len (inputBuf t) >? 0);
      [destruct (slice_to _ _); cbn [bind]; [| discriminate] |];
      intros E; injection E as <- <- <-; exact Hg.
  - destruct (len (inputBuf t) >? 0);
      [destruct (slice_to _ _); cbn [bind]; [| discriminate] |];
      intros E; injection E as <- <- <-; exact Hg.
  - intros E; injection E as <- <- <-; exact Hg.
  - intros E; injection E as <- <- <-; exact Hg.
Qed.

Lemma normalKey_good (k : Key) (r : Z) (t t' : TUI) (st st' : S) :
  Good st -> cursor_bounded t -> normalKey k r t st = Redraw t' st' ->
  cursor_bounded t' /\ st' = st.
Proof.
  intros Hg Hb. pose proof Hb as (B1 & B2 & B3 & B4). unfold normalKey.
  destruct k; try (intros E; injection E as <- <-; split; [exact Hb | reflexivity]);
    [discriminate |].
  destruct (r =? 113); [discriminate |].
  destruct (r =? 106);
    [intros E; injection E as <- <-; split;
     [apply moveDown_bounded; exact Hb | reflexivity] |].
  destruct (r =? 107);
    [intros E; injection E as <- <-; split;
     [apply moveUp_bounded; exact Hb | reflexivity] |].
  destruct (r =? 103).
  { intros E; injection E as <- <-. split; [| reflexivity].
    unfold cursor_bounded, count.
    cbn [entries selected offset set_selected set_offset]. fold (count t).
    repeat split; try lia; int_arith. }
  destruct (r =? 71);
    [intros E; injection E as <- <-; split;
     [apply jump_last_bounded; exact Hb | reflexivity] |].
  destruct (r =? 97);
    [intros E; injection E as <- <-; split; [exact Hb | reflexivity] |].
  destruct (r =? 101);
    [destruct (count t >? 0); intros E; injection E as <- <-;
     (split; [exact Hb | reflexivity]) |].
  destruct (r =? 100);
    [destruct (count t >? 0); intros E; injection E as <- <-;
     (split; [exact Hb | reflexivity]) |].
  destruct (r =? 114); intros E; injection E as <- <-;
    [| split; [exact Hb | reflexivity]].
  split; [| reflexivity].
  apply (cursor_bounded_ext (refresh t st)); try reflexivity.
  apply refresh_bounded_good; assumption.
Qed.

Lemma loopBody_good (now : time.Time) (ev : Event) (t t' : TUI) (st st' : S) :
  cursor_valid t -> Good st -> loopBody now ev t st = Ok (Some (t', st')) ->
  cursor_valid t' /\ Good st'.
Proof.
  intros [Hb Hv] Hg. unfold loopBody. cbv zeta.
  set (t0 := set_screen (deliver ev (screen t)) t).
  assert (Hb0 : cursor_bounded t0).
  { apply (cursor_bounded_ext t); try reflexivity. exact Hb. }
  assert (Hv0 : 0 < count t0 -> cursor_ok t0) by exact Hv.
  clearbody t0. clear Hv. rename Hv0 into Hv.
  pose proof render_cursor_valid as Fin.
  destruct ev as [w h | k r |]; cbn [handleEvent bind].
  - assert (Hb1 : cursor_bounded (set_size (w, h) t0)) by exact Hb0.
    destruct (render (set_size (w, h) t0)) as [u' |] eqn:R; cbn [bind];
      [| discriminate].
    intros E. injection E as <- <-. split; [exact (Fin _ _ Hb1 R) | exact Hg].
  - destruct (negb (inputMode t0 =? "")%string).
    + destruct (handleInput now k r t0 st) as [[[done t1] st1] |] eqn:HI;
        cbn [bind]; [| discriminate].
      pose proof (handleInput_bounded _ _ _ _ _ _ _ _ Hb0 HI) as Hb1.
      pose proof (handleInput_good _ _ _ _ _ _ _ _ Hg HI) as Hg1.
      destruct done; cbn [bind].
      * assert (Hb2 : cursor_bounded
                        (refresh (set_inputBuf "" (set_inputMode "" t1)) st1)).
        { apply refresh_bounded_good; [exact Hg1 | exact Hb1]. }
        destruct (render (refresh (set_inputBuf "" (set_inputMode "" t1)) st1))
          as [u' |] eqn:R; cbn [bind]; [| discriminate].
        intros E. injection E as <- <-.
        split; [exact (Fin _ _ Hb2 R) | exact Hg1].
      * destruct (render t1) as [u' |] eqn:R; cbn [bind]; [| discriminate].
        intros E. injection E as <- <-.
        split; [exact (Fin _ _ Hb1 R) | exact Hg1].
    + cbn [bind]. destruct (normalKey k r t0 st) as [| t1 st1 | t1 st1] eqn:NK;
        [discriminate | |].
      * destruct (normalKey_good _ _ _ _ _ _ Hg Hb0 NK) as [Hb1 ->].
        destruct (render t1) as [u' |] eqn:R; cbn [bind]; [| discriminate].
        intros E. injection E as <- <-.
        split; [exact (Fin _ _ Hb1 R) | exact Hg].
      * exfalso. unfold normalKey in NK.
        destruct k; try discriminate.
        repeat match type of NK with
               | (if ?c then _ else _) = _ => destruct c
               end; discriminate.
  - intros E. injection E as <- <-. split; [| exact Hg].
    split; [exact Hb0 |]. intros Hc. apply Hv. exact Hc.
Qed.

Lemma handleEvent_idle (now : time.Time) (ev : Event) (t u : TUI) (st su : S) :
  handleEvent now ev t st = Ok (Idle u su) ->
  ev = EventOther /\ u = t /\ su = st.
Proof.
  destruct ev as [w h | k r |]; cbn [handleEvent].
  - discriminate.
  - destruct (negb (inputMode t =? "")%string).
    + destruct (handleInput now k r t st) as [[[dn x] y] |]; cbn [bind];
        [destruct dn |]; discriminate.
    + unfold normalKey. destruct k; try discriminate.
      repeat match goal with
             | |- context [if ?c then _ else _] => destruct c
             end; discriminate.
  - intros E. injection E as <- <-. auto.
Qed.

Lemma render_offset_nonneg (u u' : TUI) : render u = Ok u' -> 0 <= offset u'.
Proof.
  intros R.
  pose proof (only_screen_fields _ _ (render_only_screen _ _ R))
    as (_ & _ & F3 & _).
  cbn [offset set_size] in F3. rewrite F3.
  destruct (Z.lt_ge_cases (offset u) 0) as [N | P]; [| lia].
  rewrite (render_offset_negative _ N) in R. discriminate.
Qed.

Lemma loopBody_offset (now : time.Time) (ev : Event) (t t' : TUI) (st st' : S) :
  0 <= offset t -> loopBody now ev t st = Ok (Some (t', st')) ->
  0 <= offset t'.
Proof.
  intros Ho. unfold loopBody. cbv zeta.
  destruct (handleEvent now ev (set_screen (deliver ev (screen t)) t) st)
    as [[| u su | u su] |] eqn:HE; cbn [bind]; try discriminate.
  - destruct (render u) as [u' |] eqn:R; cbn [bind]; [| discriminate].
    intros E. injection E as <- <-. exact (render_offset_nonneg _ _ R).
  - intros E. injection E as <- <-.
    destruct (handleEvent_idle _ _ _ _ _ _ HE) as (_ & -> & _). exact Ho.
Qed.

(** X13.  Over a store that keeps an invariant under which its listings
    fit in a slice, every state that [run] reaches from its start has the
    cursor on an entry whenever there is one, and an offset that is not
    negative; the store still satisfies the invariant. *)
Theorem run_keeps_cursor_on_an_entry (evs : list (time.Time * Event))
    (scr : Screen) (t' : TUI) (st st' : S) :
  Good st ->
  run evs (start scr) st = Ok (Some (t', st')) ->
  (0 < count t' -> 0 <= selected t' < count t') /\
  -1 <= selected t' /\ 0 <= offset t' /\ Good st'.
Proof.
  intros Hg. unfold run.
  assert (Hb : cursor_bounded (refresh (start scr) st)).
  { apply refresh_bounded_good; [exact Hg |].
    unfold cursor_bounded, count. cbn.
    repeat split; try lia; int_arith. }
  destruct (render (refresh (start scr) st)) as [t1 |] eqn:R; cbn [bind];
    [| discriminate].
  pose proof (render_cursor_valid _ _ Hb R) as V1.
  pose proof (render_offset_nonneg _ _ R) as O1.
  clear R Hb. revert t1 st Hg V1 O1.
  induction evs as [| [now ev] evs IH]; intros t1 st1 Hg V1 O1; cbn [loop].
  - intros E. injection E as <- <-.
    destruct V1 as [(B1 & _) V]. unfold cursor_ok in V.
    split; [exact V |]. split; [lia |]. split; assumption.
  - destruct (loopBody now ev t1 st1) as [[[t2 st2] |] |] eqn:L; cbn [bind];
      try discriminate.
    destruct (loopBody_good _ _ _ _ _ _ V1 Hg L) as [V2 Hg2].
    apply IH; [exact Hg2 | exact V2 |].
    exact (loopBody_offset _ _ _ _ _ _ O1 L).
Qed.

End ReachGood.

Lemma run_keeps_cursor_on_an_entry_witness :
  let evs := [(sample.noon, EventKey KeyRune 97);
              (sample.noon, EventKey KeyRune 53);
              (sample.noon, EventKey KeyEnter 13);
              (sample.noon, EventKey KeyRune 97);
              (sample.noon, EventKey KeyRune 55);
              (sample.noon, EventKey KeyEnter 13);
              (sample.noon, EventKey KeyRune 106);
              (sample.noon, EventKey KeyRune 100);
              (sample.noon, EventKey KeyRune 121);
              (sample.noon, EventKey KeyEnter 13)] in
  db.wf sample.emptyDB /\
  exists t' st',
    run (H := decimalLib) evs (start sample.screen80x24) sample.emptyDB
      = Ok (Some (t', st')) /\
    count t' = 1 /\ selected t' = 0 /\ db.wf st'.
Proof.
  cbv zeta.
  assert (W : db.wf sample.emptyDB).
  { unfold db.wf. cbn. split; [split; discriminate |].
    split; constructor. }
  split; [exact W |].
  destruct (run (H := decimalLib)
              [(sample.noon, EventKey KeyRune 97);
               (sample.noon, EventKey KeyRune 53);
               (sample.noon, EventKey KeyEnter 13);
               (sample.noon, EventKey KeyRune 97);
               (sample.noon, EventKey KeyRune 55);
               (sample.noon, EventKey KeyEnter 13);
               (sample.noon, EventKey KeyRune 106);
               (sample.noon, EventKey KeyRune 100);
               (sample.noon, EventKey KeyRune 121);
               (sample.noon, EventKey KeyEnter 13)]
              (start sample.screen80x24) sample.emptyDB)
    as [[[t' st'] |] |] eqn:R.
  - exists t', st'. split; [reflexivity |].
    pose proof (run_keeps_cursor_on_an_entry (H := decimalLib) (H0 := db_store)
                  db.wf
                  (fun a s ty n d st => wf_AddEntry a s ty n d st)
                  (fun id a s n st => wf_UpdateEntry id a s n st)
                  (fun id st => wf_DeleteEntry id st)
                  (fun st es => wf_fit st es)
                  _ _ _ _ _ W R) as (_ & _ & _ & G).
    vm_compute in R. injection R as <- <-.
    split; [reflexivity |]. split; [reflexivity | exact G].
  - vm_compute in R. discriminate.
  - vm_compute in R. discriminate.
Defined.

(** ** Insert, look up, update, delete *)

Lemma find_app_none {A : Type} (f : A -> bool) (l l' : list A) :
  List.find f l = None -> List.find f (l ++ l') = List.find f l'.
Proof.
  induction l as [| x l IH]; cbn; [reflexivity |].
  destruct (f x); [discriminate | exact IH].
Qed.

Lemma find_id_none (id : Z) (l : list Entry) :
  ~ In id (List.map ID l) -> List.find (fun e => ID e =? id) l = None.
Proof.
  induction l as [| x l IH]; cbn; [reflexivity |]. intros Hn.
  destruct (ID x =? id) eqn:E; [apply Z.eqb_eq in E; tauto |].
  apply IH. tauto.
Qed.

Lemma find_id_filter (id j : Z) (l : list Entry) :
  List.find (fun e => ID e =? j)
    (List.filter (fun e => negb (ID e =? id)) l)
  = if j =? id then None else List.find (fun e => ID e =? j) l.
Proof.
  induction l as [| x l IH]; cbn [List.filter List.find].
  - destruct (j =? id); reflexivity.
  - destruct (ID x =? id) eqn:E1; cbn [negb List.find].
    + rewrite IH. apply Z.eqb_eq in E1.
      destruct (j =? id) eqn:E2; [reflexivity |].
      apply Z.eqb_neq in E2.
      destruct (ID x =? j) eqn:E3; [apply Z.eqb_eq in E3; lia | reflexivity].
    + rewrite IH. apply Z.eqb_neq in E1.
      destruct (ID x =? j) eqn:E3; [| reflexivity].
      apply Z.eqb_eq in E3.
      destruct (j =? id) eqn:E2; [apply Z.eqb_eq in E2; lia | reflexivity].
Qed.


(** X14.  The identifiers of the table stay distinct, positive and at
    most the sequence under insert, update and delete; an insert that
    succeeds returns the sequence plus one, an identifier that no row
    has. *)
Theorem store_keeps_ids_distinct (d : db.DB) :
  db.wf d ->
  (forall a s ty n date,
     db.wf (snd (db.AddEntry a s ty n date d)) /\
     (forall id, fst (db.AddEntry a s ty n date d) = Success id ->
        id = db.seq d + 1 /\ ~ In id (List.map ID (db.rows d)))) /\
  (forall id a s n, db.wf (snd (db.UpdateEntry id a s n d))) /\
  (forall id, db.wf (snd (db.DeleteEntry id d))).
Proof.
  intros Hw. split; [| split].
  - intros a s ty n date. split; [apply wf_AddEntry; exact Hw |].
    intros id. unfold db.AddEntry.
    destruct (db.closed d); [discriminate |].
    destruct (int_max <=? db.seq d); [discriminate |].
    cbn [fst]. intros E. injection E as <-. split; [reflexivity |].
    destruct Hw as (_ & _ & Hr). rewrite in_map_iff. intros (e & E & He).
    rewrite Forall_forall in Hr. pose proof (Hr e He). lia.
  - intros. apply wf_UpdateEntry. exact Hw.
  - intros. apply wf_DeleteEntry. exact Hw.
Qed.

Lemma store_keeps_ids_distinct_witness :
  db.wf (sample.storeN 3) /\
  db.wf (snd (db.AddEntry 500 "stripe" "one-time" "" sample.noon
                (sample.storeN 3))) /\
  fst (db.AddEntry 500 "stripe" "one-time" "" sample.noon (sample.storeN 3))
    = Success 4.
Proof.
  assert (W : db.wf (sample.storeN 3)).
  { unfold db.wf. cbn. split; [split; discriminate |]. split.
    - repeat constructor; cbn; intuition discriminate.
    - repeat constructor; cbn; discriminate. }
  split; [exact W |].
  destruct (store_keeps_ids_distinct (sample.storeN 3) W) as (A & _).
  split; [apply A | reflexivity].
Defined.

(** X15.  After an insert that succeeded in a table with distinct
    identifiers, looking the returned identifier up finds the new row,
    with the fields given, the date cut to the day and the creation time
    of the store's clock, and the listing of all entries contains it and
    is one longer. *)
Theorem inserted_entry_is_found_and_listed (a : Z) (s ty n : string)
    (date : time.Time) (d d' : db.DB) (id : Z) :
  db.wf d ->
  db.AddEntry a s ty n date d = (Success id, d') ->
  let e := mkEntry id a s ty n (time.date_only date) (db.clock d) in
  db.GetEntry id d' = Success e /\
  exists es, db.GetAllEntries d' = Success es /\ In e es /\
             List.length es = Datatypes.S (List.length (db.rows d)).
Proof.
  intros Hw. unfold db.AddEntry.
  destruct (db.closed d) eqn:Hc; [discriminate |].
  destruct (int_max <=? db.seq d) eqn:F; [discriminate |].
  intros E. injection E as <- <-. cbv zeta.
  set (e := mkEntry (db.seq d + 1) a s ty n (time.date_only date) (db.clock d)).
  split.
  - unfold db.GetEntry. cbn [db.closed db.rows].
    rewrite find_app_none.
    + cbn [List.find]. subst e. cbn [ID]. rewrite Z.eqb_refl. reflexivity.
    + apply find_id_none. destruct Hw as (_ & _ & Hr).
      rewrite in_map_iff. intros (x & E & Hx).
      rewrite Forall_forall in Hr. pose proof (Hr x Hx). lia.
  - eexists. split; [apply GetAllEntries_open; reflexivity |].
    cbn [db.rows]. split.
    + apply (Permutation_in _ (Permutation_sym (order_by_perm _))).
      apply in_or_app. right. left. reflexivity.
    + rewrite (Permutation_length (order_by_perm _)).
      rewrite List.length_app. cbn. lia.
Qed.

Lemma inserted_entry_is_found_and_listed_witness :
  let d' := db.mkDB
              (sample.entriesN 2
               ++ [mkEntry 3 500 "stripe" "one-time" "" sample.day sample.noon])
              3 sample.noon false in
  db.wf (sample.storeN 2) /\
  db.AddEntry 500 "stripe" "one-time" "" sample.noon (sample.storeN 2)
    = (Success 3, d') /\
  db.GetEntry 3 d'
    = Success (mkEntry 3 500 "stripe" "one-time" "" sample.day sample.noon).
Proof.
  cbv zeta.
  assert (W : db.wf (sample.storeN 2)).
  { unfold db.wf. cbn. split; [split; discriminate |]. split.
    - repeat constructor; cbn; intuition discriminate.
    - repeat constructor; cbn; discriminate. }
  split; [exact W |]. split; [reflexivity |].
  apply (inserted_entry_is_found_and_listed 500 "stripe" "one-time" ""
           sample.noon (sample.storeN 2) _ 3 W eq_refl).
Defined.

(** X16.  A listing that succeeds is in the order of the query: no entry
    comes after one with an earlier date, or with the same date and a
    smaller identifier.  It holds exactly the rows that pass the filters
    given (an empty filter passes every row), and the listing of all
    entries is a rearrangement of the table. *)
Theorem listing_is_ordered_and_filtered (month source ty : string)
    (d : db.DB) (es : list Entry) :
  db.ListEntries month source ty d = Success es ->
  StronglySorted db.ordered es /\
  (forall e, In e es <->
     In e (db.rows d) /\
     (month = "" \/ db.year_month (Date e) = month) /\
     (source = "" \/ Source e = source) /\
     (ty = "" \/ Type_ e = ty)) /\
  (month = "" -> source = "" -> ty = "" -> Permutation es (db.rows d)).
Proof.
  unfold db.ListEntries. destruct (db.closed d); [discriminate |].
  intros E. injection E as <-.
  split; [apply order_by_sorted |]. split.
  - intros e. split.
    + intros He. apply (Permutation_in _ (order_by_perm _)) in He.
      apply filter_In in He. destruct He as [He K]. split; [exact He |].
      rewrite !andb_true_iff, !orb_true_iff, !String.eqb_eq in K. tauto.
    + intros (He & K).
      apply (Permutation_in _ (Permutation_sym (order_by_perm _))).
      apply filter_In. split; [exact He |].
      rewrite !andb_true_iff, !orb_true_iff, !String.eqb_eq. tauto.
  - intros -> -> ->. rewrite order_by_perm.
    rewrite filter_all; [reflexivity |]. intros e. reflexivity.
Qed.

Lemma listing_is_ordered_and_filtered_witness :
  let e1 := mkEntry 1 100 "stripe" "recurring" "" (time.mkTime 2024 5 1 0 0 0)
              sample.noon in
  let e2 := mkEntry 2 200 "manual" "recurring" "" (time.mkTime 2024 6 2 0 0 0)
              sample.noon in
  let e3 := mkEntry 3 300 "stripe" "one-time" "" (time.mkTime 2024 6 2 0 0 0)
              sample.noon in
  let d := db.mkDB [e1; e2; e3] 3 sample.noon false in
  db.ListEntries "" "" "" d = Success [e3; e2; e1] /\
  db.ListEntries "2024-06" "" "" d = Success [e3; e2] /\
  StronglySorted db.ordered [e3; e2; e1].
Proof.
  intros e1 e2 e3 d. split; [reflexivity |]. split; [reflexivity |].
  exact (proj1 (listing_is_ordered_and_filtered "" "" "" d [e3; e2; e1]
                  eq_refl)).
Defined.

Lemma existsb_find_id (id : Z) (l : list Entry) :
  List.existsb (fun e => ID e =? id) l
  = match List.find (fun e => ID e =? id) l with
    | Some _ => true
    | None => false
    end.
Proof.
  induction l as [| x l IH]; cbn; [reflexivity |].
  destruct (ID x =? id); [reflexivity | exact IH].
Qed.

Lemma find_id_some (id : Z) (l : list Entry) (e : Entry) :
  List.find (fun e => ID e =? id) l = Some e -> ID e = id /\ In e l.
Proof.
  intros F. apply List.find_some in F. destruct F as [Hi E].
  apply Z.eqb_eq in E. tauto.
Qed.

(** X17.  On an open store, deleting an identifier that a row has
    succeeds; afterwards looking it up and deleting it again both fail
    with "entry not found" and its number, and every other identifier is
    looked up as before.  Deleting an identifier that no row has fails
    with that same error and leaves the store as it was. *)
Theorem delete_removes_the_entry_only (id : Z) (d : db.DB) :
  db.closed d = false ->
  let missing := "entry not found: " ++ fmt.Sprintf_d id in
  match db.GetEntry id d with
  | Success _ =>
      exists d', db.DeleteEntry id d = (None, d') /\
        db.GetEntry id d' = Failure missing /\
        db.DeleteEntry id d' = (Some missing, d') /\
        (forall j, j <> id -> db.GetEntry j d' = db.GetEntry j d) /\
        (List.length (db.rows d') < List.length (db.rows d))%nat
  | Failure _ => db.DeleteEntry id d = (Some missing, d)
  end.
Proof.
  intros Hc. cbv zeta. unfold db.GetEntry, db.DeleteEntry. rewrite Hc.
  rewrite existsb_find_id.
  destruct (List.find (fun e => ID e =? id) (db.rows d)) as [e |] eqn:F;
    [| reflexivity].
  eexists. split; [reflexivity |]. cbn [db.closed db.rows].
  rewrite existsb_find_id, !find_id_filter, Z.eqb_refl.
  split; [reflexivity |]. split; [reflexivity |]. split.
  - intros j Hj. rewrite find_id_filter.
    destruct (j =? id) eqn:E; [apply Z.eqb_eq in E; lia | reflexivity].
  - apply find_id_some in F. destruct F as [Hid Hin].
    clear Hc. induction (db.rows d) as [| x l IH]; [destruct Hin |].
    cbn [List.filter]. destruct (ID x =? id) eqn:E; cbn [negb].
    + pose proof (List.filter_length_le (fun e => negb (ID e =? id)) l).
      cbn [List.length]. lia.
    + destruct Hin as [-> | Hin]; [apply Z.eqb_neq in E; lia |].
      cbn [List.length]. specialize (IH Hin). lia.
Qed.

Lemma delete_removes_the_entry_only_witness :
  db.closed (sample.storeN 3) = false /\
  exists d', db.DeleteEntry 2 (sample.storeN 3) = (None, d') /\
    db.GetEntry 2 d' = Failure "entry not found: 2" /\
    db.GetEntry 3 d' = db.GetEntry 3 (sample.storeN 3).
Proof.
  split; [reflexivity |].
  pose proof (delete_removes_the_entry_only 2 (sample.storeN 3) eq_refl) as A.
  cbv zeta in A.
  change (db.GetEntry 2 (sample.storeN 3))
    with (Success (sample.entry 2 "")) in A.
  destruct A as (d' & A1 & A2 & _ & A4 & _).
  exists d'. split; [exact A1 |]. split; [exact A2 |].
  apply A4. discriminate.
Defined.





(** ** The monthly report *)

Lemma wrap64_add_r (a b : Z) : wrap64 (a + wrap64 b) = wrap64 (a + b).
Proof. rewrite Z.add_comm, wrap64_add_l, Z.add_comm. reflexivity. Qed.

Lemma wrap64_idem (a : Z) : wrap64 (wrap64 a) = wrap64 a.
Proof.
  replace (wrap64 a) with (wrap64 a + 0) at 1 by lia.
  rewrite wrap64_add_l, Z.add_0_r. reflexivity.
Qed.

Lemma sum_from (p : Entry -> bool) (es : list Entry) (a : Z) :
  List.fold_left
    (fun acc e => if p e then wrap64 (acc + Amount e) else acc) es (wrap64 a)
  = wrap64 (a + amountSum p es).
Proof.
  revert a. induction es as [| e es IH]; intros a;
    cbn [List.fold_left amountSum List.fold_right].
  - rewrite Z.add_0_r. reflexivity.
  - fold (amountSum p es). destruct (p e).
    + rewrite wrap64_add_l, IH. f_equal. lia.
    + apply IH.
Qed.

Lemma sum_from_zero (p : Entry -> bool) (es : list Entry) :
  List.fold_left
    (fun acc e => if p e then wrap64 (acc + Amount e) else acc) es 0
  = wrap64 (amountSum p es).
Proof. exact (sum_from p es 0). Qed.

Lemma amountSum_ext (p q : Entry -> bool) (es : list Entry) :
  (forall e, p e = q e) -> amountSum p es = amountSum q es.
Proof.
  intros E. induction es as [| e es IH]; cbn [amountSum List.fold_right];
    [reflexivity |].
  fold (amountSum p es). fold (amountSum q es). rewrite IH, E. reflexivity.
Qed.

Lemma amountSum_perm (p : Entry -> bool) (es es' : list Entry) :
  Permutation es es' -> amountSum p es = amountSum p es'.
Proof.
  induction 1 as [| e l l' P IH | a b l | l l' l'' P1 IH1 P2 IH2];
    cbn [amountSum List.fold_right].
  - reflexivity.
  - fold (amountSum p l). fold (amountSum p l'). rewrite IH. reflexivity.
  - fold (amountSum p l). destruct (p a), (p b); lia.
  - congruence.
Qed.

Lemma amountSum_filter (p q : Entry -> bool) (es : list Entry) :
  amountSum p (List.filter q es) = amountSum (fun e => q e && p e) es.
Proof.
  induction es as [| e es IH]; cbn [List.filter amountSum List.fold_right];
    [reflexivity |].
  fold (amountSum (fun e => q e && p e) es). rewrite <- IH.
  destruct (q e); cbn [andb amountSum List.fold_right]; reflexivity.
Qed.

Lemma amountSum_split (p : Entry -> bool) (es : list Entry) :
  amountSum (fun _ => true) es
  = amountSum p es + amountSum (fun e => negb (p e)) es.
Proof.
  induction es as [| e es IH]; cbn [amountSum List.fold_right];
    [reflexivity |].
  fold (amountSum (fun _ => true) es). fold (amountSum p es).
  fold (amountSum (fun e => negb (p e)) es).
  destruct (p e); cbn [negb]; lia.
Qed.

Lemma lookup_add_to (m : list (string * Z)) (s k : string) (v : Z) :
  db.lookup (db.add_to m s v) k
  = if String.eqb s k then wrap64 (db.lookup m s + v) else db.lookup m k.
Proof.
  induction m as [| [k' x] m IH]; cbn [db.add_to db.lookup].
  - destruct (String.eqb s k); reflexivity.
  - destruct (String.eqb k' s) eqn:E1; cbn [db.lookup].
    + apply String.eqb_eq in E1. subst k'.
      destruct (String.eqb s k); reflexivity.
    + rewrite IH. destruct (String.eqb s k) eqn:E2; [| reflexivity].
      apply String.eqb_eq in E2. subst k. rewrite E1. reflexivity.
Qed.

Lemma valueSum_add_to (m : list (string * Z)) (s : string) (v : Z) :
  wrap64 (valueSum (db.add_to m s v)) = wrap64 (valueSum m + v).
Proof.
  induction m as [| [k' x] m IH]; cbn [db.add_to].
  - cbn [valueSum List.fold_right snd]. rewrite Z.add_0_r. apply wrap64_idem.
  - destruct (String.eqb k' s); cbn [valueSum List.fold_right snd];
      fold (valueSum m).
    + rewrite wrap64_add_l. f_equal. lia.
    + fold (valueSum (db.add_to m s v)).
      rewrite <- wrap64_add_r, IH, wrap64_add_r. f_equal. lia.
Qed.

Lemma report_fold (es : list Entry) (r : db.MonthlyReport) :
  let r' := List.fold_left db.account es r in
  db.Month r' = db.Month r /\ db.EntryCount r' = db.EntryCount r /\
  db.TotalRevenue r'
  = List.fold_left (fun acc e => if true then wrap64 (acc + Amount e) else acc)
      es (db.TotalRevenue r) /\
  db.RecurringRevenue r'
  = List.fold_left
      (fun acc e => if String.eqb (Type_ e) "recurring"
                    then wrap64 (acc + Amount e) else acc)
      es (db.RecurringRevenue r) /\
  db.OneTimeRevenue r'
  = List.fold_left
      (fun acc e => if negb (String.eqb (Type_ e) "recurring")
                    then wrap64 (acc + Amount e) else acc)
      es (db.OneTimeRevenue r) /\
  (forall k, db.lookup (db.BySource r') k
   = List.fold_left
       (fun acc e => if String.eqb (Source e) k
                     then wrap64 (acc + Amount e) else acc)
       es (db.lookup (db.BySource r) k)) /\
  wrap64 (valueSum (db.BySource r'))
  = wrap64 (valueSum (db.BySource r) + amountSum (fun _ => true) es).
Proof.
  cbv zeta. revert r. induction es as [| e es IH]; intros r;
    cbn [List.fold_left amountSum List.fold_right].
  - rewrite Z.add_0_r. repeat split; reflexivity.
  - fold (amountSum (fun _ => true) es).
    destruct (IH (db.account r e)) as (A1 & A2 & A3 & A4 & A5 & A6 & A7).
    rewrite A1, A2, A3, A4, A5, A7. clear A1 A2 A3 A4 A5 A7.
    unfold db.account at 1 2 3 4 5 6.
    cbn [db.Month db.EntryCount db.TotalRevenue db.RecurringRevenue
         db.OneTimeRevenue db.BySource].
    split; [reflexivity |]. split; [reflexivity |]. split; [reflexivity |].
    split; [destruct (String.eqb (Type_ e) "recurring"); reflexivity |].
    split; [destruct (String.eqb (Type_ e) "recurring"); reflexivity |].
    split.
    + intros k. rewrite A6. unfold db.account. cbn [db.BySource].
      rewrite lookup_add_to.
      destruct (String.eqb (Source e) k) eqn:E; [| reflexivity].
      apply String.eqb_eq in E. subst k. reflexivity.
    + unfold db.account. cbn [db.BySource].
      rewrite <- wrap64_add_l, valueSum_add_to, wrap64_add_l. f_equal. lia.
Qed.

(** X19.  A monthly report that is returned counts the rows of the table
    in that month.  Its total, recurring and one-time revenue are the
    sums, in 64-bit arithmetic, of the amounts of all of them, of those
    of type "recurring" and of the others, so the total is the recurring
    plus the one-time revenue; the value under a source is the sum of the
    amounts with that source, and the values by source add up to the
    total. *)
Theorem monthly_report_adds_up (month : string) (d : db.DB)
    (r : db.MonthlyReport) :
  db.GetMonthlyReport month d = Success r ->
  let inMonth e :=
    String.eqb month "" || String.eqb (db.year_month (Date e)) month in
  let recurring e := String.eqb (Type_ e) "recurring" in
  db.Month r = month /\
  db.EntryCount r = Z.of_nat (List.length (List.filter inMonth (db.rows d))) /\
  db.TotalRevenue r = wrap64 (amountSum inMonth (db.rows d)) /\
  db.RecurringRevenue r
  = wrap64 (amountSum (fun e => inMonth e && recurring e) (db.rows d)) /\
  db.OneTimeRevenue r
  = wrap64 (amountSum (fun e => inMonth e && negb (recurring e)) (db.rows d)) /\
  db.TotalRevenue r
  = wrap64 (db.RecurringRevenue r + db.OneTimeRevenue r) /\
  (forall k, db.lookup (db.BySource r) k
   = wrap64 (amountSum (fun e => inMonth e && String.eqb (Source e) k)
               (db.rows d))) /\
  wrap64 (valueSum (db.BySource r)) = db.TotalRevenue r.
Proof.
  unfold db.GetMonthlyReport, db.ListEntries.
  destruct (db.closed d); [discriminate |].
  intros E. injection E as <-. cbv zeta.
  set (inMonth := fun e : Entry =>
         String.eqb month "" || String.eqb (db.year_month (Date e)) month).
  assert (K : List.filter
                (fun e => (String.eqb month ""
                           || String.eqb (db.year_month (Date e)) month)
                          && true && true)
                (db.rows d)
              = List.filter inMonth (db.rows d)).
  { apply List.filter_ext. intros e. unfold inMonth.
    rewrite !andb_true_r. reflexivity. }
  rewrite K. clear K.
  set (es := db.order_by_date_id (List.filter inMonth (db.rows d))).
  assert (P : Permutation es (List.filter inMonth (db.rows d)))
    by apply order_by_perm.
  assert (S1 : forall p, amountSum p es
                         = amountSum (fun e => inMonth e && p e) (db.rows d)).
  { intros p. rewrite (amountSum_perm p _ _ P). apply amountSum_filter. }
  destruct (report_fold es
              (db.mkReport month 0 0 0 [] (Z.of_nat (List.length es))))
    as (A1 & A2 & A3 & A4 & A5 & A6 & A7).
  cbn [db.Month db.EntryCount db.BySource db.lookup valueSum List.fold_right]
    in A1, A2, A6, A7.
  cbn [db.TotalRevenue db.RecurringRevenue db.OneTimeRevenue] in A3, A4, A5.
  rewrite (sum_from_zero (fun _ => true)) in A3.
  rewrite sum_from_zero in A4, A5.
  cbn [Z.add] in A7.
  split; [exact A1 |]. split.
  { rewrite A2. f_equal. apply Permutation_length. exact P. }
  split.
  { rewrite A3, S1. f_equal. apply amountSum_ext. intros e.
    apply andb_true_r. }
  split; [rewrite A4, S1; reflexivity |].
  split; [rewrite A5, S1; reflexivity |].
  split.
  { rewrite A3, A4, A5, wrap64_add_l, wrap64_add_r. f_equal.
    apply amountSum_split. }
  split.
  { intros k. rewrite A6.
    rewrite sum_from_zero, S1. reflexivity. }
  rewrite A7, A3. reflexivity.
Qed.

Lemma monthly_report_adds_up_witness :
  let e1 := mkEntry 1 100 "stripe" "recurring" "" (time.mkTime 2024 5 1 0 0 0)
              sample.noon in
  let e2 := mkEntry 2 200 "manual" "recurring" "" (time.mkTime 2024 6 2 0 0 0)
              sample.noon in
  let e3 := mkEntry 3 300 "stripe" "one-time" "" (time.mkTime 2024 6 2 0 0 0)
              sample.noon in
  let d := db.mkDB [e1; e2; e3] 3 sample.noon false in
  let r := db.mkReport "2024-06" 500 200 300 [("stripe", 300); ("manual", 200)]
             2 in
  db.GetMonthlyReport "2024-06" d = Success r /\
  db.TotalRevenue r = wrap64 (db.RecurringRevenue r + db.OneTimeRevenue r).
Proof.
  intros e1 e2 e3 d r. split; [reflexivity |].
  exact (proj1 (proj2 (proj2 (proj2 (proj2 (proj2
           (monthly_report_adds_up "2024-06" d r eq_refl))))))).
Defined.

(** ** The controller over the SQLite store *)

Lemma index_nth {A : Type} (l : list A) (i : Z) (a : A) :
  index l i = Ok a <->
  0 <= i /\ List.nth_error l (Z.to_nat i) = Some a.
Proof.
  unfold index. split.
  - destruct ((0 <=? i) && (i <? Z.of_nat (List.length l))) eqn:E;
      [| discriminate].
    apply andb_true_iff in E. destruct E as [E _]. apply Z.leb_le in E.
    destruct (List.nth_error l (Z.to_nat i)); [| discriminate].
    intros K. injection K as ->. tauto.
  - intros [Hi Hn].
    assert (Hl : (Z.to_nat i < List.length l)%nat).
    { apply List.nth_error_Some. rewrite Hn. discriminate. }
    replace ((0 <=? i) && (i <? Z.of_nat (List.length l))) with true.
    + rewrite Hn. reflexivity.
    + symmetry. apply andb_true_iff. rewrite Z.leb_le, Z.ltb_lt. lia.
Qed.



Lemma GetAllEntries_success (d : db.DB) (es : list Entry) :
  db.GetAllEntries d = Success es ->
  db.closed d = false /\ es = db.order_by_date_id (db.rows d).
Proof.
  intros L. assert (Hc : db.closed d = false).
  { unfold db.GetAllEntries, db.ListEntries in L.
    destruct (db.closed d); [discriminate | reflexivity]. }
  split; [exact Hc |]. rewrite (GetAllEntries_open d Hc) in L.
  injection L as <-. reflexivity.
Qed.


Section OverSQLite.

Context `{GoLib}.


End OverSQLite.


(** ** Amounts as text *)

Lemma all_from_spec (f : Z -> bool) (n : nat) (c0 : Z) :
  all_from n c0 f = true ->
  forall c, c0 <= c < c0 + Z.of_nat n -> f c = true.
Proof.
  revert c0. induction n as [| n IH]; intros c0 A c Hc; [lia |].
  cbn [all_from] in A. apply andb_true_iff in A. destruct A as [A1 A2].
  destruct (Z.eq_dec c c0) as [-> | Hne]; [exact A1 |].
  apply (IH (c0 + 1) A2). lia.
Qed.

Lemma amounts_parse_within_a_cent :
  all_from (Z.to_nat checked_amounts) 0 parses_within_a_cent = true.
Proof. vm_cast_no_check (@eq_refl bool true). Qed.

Lemma amounts_print_exactly :
  all_from (Z.to_nat checked_amounts) 0 prints_exactly = true.
Proof. vm_cast_no_check (@eq_refl bool true). Qed.

Section Typed.

Context {S : Type} `{RecordStore S}.

(** X21.  With [strconv.ParseFloat] as above, Enter in the add mode on a
    buffer that holds an amount below 100 written with two decimals
    inserts that amount in cents or one cent less, never anything else:
    the product of the parsed float and 100 is truncated, and for an
    amount like 0.29 it lies just below the whole number of cents. *)
Theorem typed_amount_is_stored_within_a_cent (c : Z) (now : time.Time)
    (t : TUI) (st : S) :
  0 <= c < checked_amounts ->
  inputMode t = "add" ->
  inputBuf t = literal c ->
  exists a, (a = c \/ a = c - 1) /\
    submitInput (H := decimalLib) now t st
    = match AddEntry a "manual" "recurring" "" now st with
      | (Failure err, st') =>
          Ok (true, setMessage ("Error: " ++ err) red t, st')
      | (Success _, st') =>
          Ok (true, setMessage "Entry added!" green t, st')
      end.
Proof.
  intros Hc Hm Hb.
  pose proof (all_from_spec _ _ _ amounts_parse_within_a_cent c) as A.
  rewrite Z2Nat.id in A by (unfold checked_amounts; lia).
  specialize (A ltac:(lia)). unfold parses_within_a_cent in A.
  rewrite (submit_add (H := decimalLib)) by exact Hm. rewrite Hb.
  change (@ParseFloat decimalLib) with golib.ParseFloat.
  destruct (golib.ParseFloat (strings.TrimPrefix (literal c) "$"))
    as [f |]; [| discriminate].
  exists (cents f). split; [| reflexivity].
  apply orb_true_iff in A. rewrite !Z.eqb_eq in A. exact A.
Qed.

End Typed.

Lemma typed_amount_is_stored_within_a_cent_witness :
  let t := sample.typing "add" "0.29" [] 0 in
  0 <= 29 < checked_amounts /\ inputMode t = "add" /\
  inputBuf t = literal 29 /\
  submitInput (H := decimalLib) sample.noon t sample.emptyDB
  = Ok (true, setMessage "Entry added!" green t,
        db.mkDB [mkEntry 1 28 "manual" "recurring" "" sample.day sample.noon]
          1 sample.noon false) /\
  exists a, (a = 29 \/ a = 28) /\
    submitInput (H := decimalLib) sample.noon t sample.emptyDB
    = match AddEntry a "manual" "recurring" "" sample.noon sample.emptyDB with
      | (Failure err, st') =>
          Ok (true, setMessage ("Error: " ++ err) red t, st')
      | (Success _, st') =>
          Ok (true, setMessage "Entry added!" green t, st')
      end.
Proof.
  intros t.
  assert (R : 0 <= 29 < checked_amounts) by (unfold checked_amounts; lia).
  split; [exact R |]. split; [reflexivity |]. split; [reflexivity |].
  split; [reflexivity |].
  exact (typed_amount_is_stored_within_a_cent (H := db_store) 29 sample.noon
           t sample.emptyDB R eq_refl eq_refl).
Defined.

(** X22.  [FormatAmount] prints an amount from 0 to 99.99 exactly: the
    sign of the currency (the dollar for every code but EUR and GBP), the
    whole units, a point and the two digits of the cents; the division by
    100 in floating point and the rounding of the format lose nothing
    there. *)
Theorem FormatAmount_is_exact (c : Z) (currency : string) :
  0 <= c < checked_amounts ->
  FormatAmount c currency
  = (if String.eqb currency "EUR" then euro
     else if String.eqb currency "GBP" then pound else "$")
    ++ fmt.digits (c / 100) ++ "." ++ fmt.appendInt (c mod 100) 2.
Proof.
  intros Hc.
  pose proof (all_from_spec _ _ _ amounts_print_exactly c) as A.
  rewrite Z2Nat.id in A by (unfold checked_amounts; lia).
  specialize (A ltac:(lia)). unfold prints_exactly in A.
  apply String.eqb_eq in A. unfold hundredth, literal in A.
  unfold FormatAmount.
  destruct (String.eqb currency "EUR"); [rewrite A; reflexivity |].
  destruct (String.eqb currency "GBP"); rewrite A; reflexivity.
Qed.

Lemma FormatAmount_is_exact_witness :
  0 <= 4999 < checked_amounts /\ FormatAmount 4999 "USD" = "$49.99".
Proof.
  assert (R : 0 <= 4999 < checked_amounts) by (unfold checked_amounts; lia).
  split; [exact R |].
  exact (FormatAmount_is_exact 4999 "USD" R).
Defined.

(** ** Deleting from the controller over the SQLite store *)

Lemma same_id_same_entry (l : list Entry) (x y : Entry) :
  NoDup (List.map ID l) -> In x l -> In y l -> ID x = ID y -> x = y.
Proof.
  induction l as [| z l IH]; cbn [List.map]; intros Hn Hx Hy E;
    [destruct Hx |].
  inversion Hn as [| ? ? Hz Hn']; subst.
  destruct Hx as [-> | Hx], Hy as [-> | Hy].
  - reflexivity.
  - exfalso. apply Hz. rewrite E. apply in_map. exact Hy.
  - exfalso. apply Hz. rewrite <- E. apply in_map. exact Hx.
  - apply IH; assumption.
Qed.

Lemma filter_all_in {A : Type} (f : A -> bool) (l : list A) :
  (forall x, In x l -> f x = true) -> List.filter f l = l.
Proof.
  induction l as [| x l IH]; cbn [List.filter]; intros Hf; [reflexivity |].
  rewrite (Hf x (or_introl eq_refl)), IH; [reflexivity |].
  intros y Hy. apply Hf. right. exact Hy.
Qed.

Lemma filter_other_ids_length (l : list Entry) (e : Entry) :
  NoDup (List.map ID l) -> In e l ->
  Datatypes.S (List.length (List.filter (fun x => negb (ID x =? ID e)) l))
  = List.length l.
Proof.
  induction l as [| z l IH]; cbn [List.map]; intros Hn Hin; [destruct Hin |].
  inversion Hn as [| ? ? Hz Hn']; subst. cbn [List.filter List.length].
  destruct (ID z =? ID e) eqn:E; cbn [negb List.length].
  - apply Z.eqb_eq in E. f_equal.
    rewrite filter_all_in; [reflexivity |]. intros x Hx.
    destruct (ID x =? ID e) eqn:E'; [| reflexivity].
    apply Z.eqb_eq in E'. exfalso. apply Hz. rewrite E, <- E'.
    apply in_map. exact Hx.
  - f_equal. apply IH; [exact Hn' |].
    destruct Hin as [-> | Hin]; [rewrite Z.eqb_refl in E; discriminate |].
    exact Hin.
Qed.

Section DeleteOverSQLite.

Context `{GoLib}.

(** X23.  The controller over the SQLite store, showing the store's
    listing with the cursor on an entry: Enter in the delete mode on a
    buffer that lower-cases to "y" removes that entry from the store.  The
    list shown afterwards is the store's listing again; it holds the
    entries shown before except the one under the cursor, so one fewer;
    the cursor is one less, or still 0, and is on an entry when one is
    left. *)
Theorem delete_removes_the_entry_under_the_cursor (now : time.Time) (r : Z)
    (t : TUI) (st : db.DB) (e : Entry) :
  well_typed t ->
  inputMode t = "delete" ->
  ToLower (inputBuf t) = "y" ->
  db.GetAllEntries st = Success (entries t) ->
  index (entries t) (selected t) = Ok e ->
  NoDup (List.map ID (db.rows st)) ->
  exists t' st',
    handleEvent now (EventKey KeyEnter r) t st = Ok (Redraw t' st') /\
    db.GetAllEntries st' = Success (entries t') /\
    (forall x, In x (entries t') <-> In x (entries t) /\ x <> e) /\
    count t' = count t - 1 /\
    selected t' = (if selected t >? 0 then selected t - 1 else 0) /\
    (0 < count t' -> 0 <= selected t' < count t').
Proof.
  intros Wt Hm Hy Hl Hi Hnd.
  apply well_typed_spec in Wt. destruct Wt as (Ws & _ & _ & _ & Wn).
  destruct (GetAllEntries_success _ _ Hl) as [Hc He].
  assert (P : Permutation (entries t) (db.rows st)).
  { rewrite He. apply order_by_perm. }
  pose proof (index_Ok_range _ _ _ Hi) as Hr. fold (count t) in Hr.
  assert (Hin' : In e (entries t)).
  { apply index_nth in Hi. destruct Hi as [_ Hi].
    apply List.nth_error_In in Hi. exact Hi. }
  assert (Hin : In e (db.rows st)) by exact (Permutation_in _ P Hin').
  set (q := fun x => negb (ID x =? ID e)).
  set (st' := db.mkDB (List.filter q (db.rows st)) (db.seq st) (db.clock st)
                false).
  assert (D : db.DeleteEntry (ID e) st = (None, st')).
  { unfold db.DeleteEntry. rewrite Hc.
    replace (List.existsb (fun x => ID x =? ID e) (db.rows st)) with true;
      [reflexivity |].
    symmetry. apply List.existsb_exists. exists e. split; [exact Hin |].
    apply Z.eqb_refl. }
  set (t1 := if selected t >? 0
             then set_selected (wrap64 (selected t - 1))
                    (setMessage "Entry deleted!" green t)
             else setMessage "Entry deleted!" green t).
  assert (Hs : submitInput now t st = Ok (true, t1, st')).
  { rewrite submit_delete by exact Hm. rewrite Hy.
    assert (C : (count t >? 0) = true) by (apply Z.gtb_lt; lia).
    rewrite C. cbn [String.eqb Ascii.eqb Bool.eqb andb]. rewrite Hi.
    cbn [bind DeleteEntry db_store]. rewrite D. reflexivity. }
  assert (Hsel : selected t1
                 = (if selected t >? 0 then selected t - 1 else 0)).
  { unfold t1. destruct (selected t >? 0) eqn:E.
    - apply Z.gtb_lt in E. cbn [selected set_selected].
      apply wrap64_small. pose proof int_bounds as [? ?]. lia.
    - cbn [selected setMessage]. assert (~ 0 < selected t).
      { intros K. apply Z.gtb_lt in K. congruence. }
      lia. }
  set (es' := db.order_by_date_id (List.filter q (db.rows st))).
  assert (L' : db.GetAllEntries st' = Success es').
  { apply GetAllEntries_open. reflexivity. }
  assert (P' : Permutation es' (List.filter q (db.rows st)))
    by apply order_by_perm.
  assert (Hn : Z.of_nat (List.length es') = count t - 1).
  { rewrite (Permutation_length P'). unfold count.
    rewrite (Permutation_length P).
    pose proof (filter_other_ids_length _ e Hnd Hin) as K.
    fold q in K. lia. }
  set (t2 := set_inputBuf "" (set_inputMode "" t1)).
  assert (Hsel2 : selected t2 = selected t1) by reflexivity.
  assert (R : refresh t2 st' = set_entries es' t2).
  { rewrite (refresh_success (H0 := db_store) t2 st' _ L').
    rewrite Hn, Hsel2, Hsel.
    destruct ((if selected t >? 0 then selected t - 1 else 0)
              >=? count t - 1) eqn:E1; [| reflexivity].
    destruct (count t - 1 >? 0) eqn:E2; [| reflexivity].
    apply Z.geb_le in E1. apply Z.gtb_lt in E2.
    destruct (selected t >? 0) eqn:E3; [lia |].
    lia. }
  exists (refresh t2 st'), st'. split.
  { apply (enter_in_input_mode now r t t1 st st' true);
      [rewrite Hm; discriminate | exact Hs | reflexivity]. }
  rewrite R. cbn [entries set_entries selected].
  split; [exact L' |]. split.
  { intros x. split.
    - intros Hx. apply (Permutation_in _ P') in Hx.
      apply filter_In in Hx. destruct Hx as [Hx Q]. split.
      + exact (Permutation_in _ (Permutation_sym P) Hx).
      + intros ->. unfold q in Q. rewrite Z.eqb_refl in Q. discriminate.
    - intros [Hx Hne].
      apply (Permutation_in _ (Permutation_sym P')).
      apply filter_In. split; [exact (Permutation_in _ P Hx) |].
      unfold q. destruct (ID x =? ID e) eqn:E; [| reflexivity].
      apply Z.eqb_eq in E. exfalso. apply Hne.
      apply (same_id_same_entry (db.rows st)); try assumption.
      exact (Permutation_in _ P Hx). }
  assert (Hcnt : count (set_entries es' t2) = count t - 1).
  { unfold count at 1. cbn [entries set_entries]. exact Hn. }
  split; [exact Hcnt |].
  change (selected t2) with (selected t1). split; [exact Hsel |].
  rewrite Hcnt, Hsel. intros Hpos.
  destruct (selected t >? 0) eqn:E3; [apply Z.gtb_lt in E3; lia | lia].
Qed.

End DeleteOverSQLite.

Lemma delete_removes_the_entry_under_the_cursor_witness :
  let t := sample.typing "delete" "Y" (sample.entriesN 3) 2 in
  let st := sample.storeN 3 in
  well_typed t /\ inputMode t = "delete" /\
  ToLower (H := decimalLib) (inputBuf t) = "y" /\
  db.GetAllEntries st = Success (entries t) /\
  index (entries t) (selected t) = Ok (sample.entry 1 "") /\
  NoDup (List.map ID (db.rows st)) /\
  exists t' st',
    handleEvent (H := decimalLib) sample.noon (EventKey KeyEnter 13) t st
    = Ok (Redraw t' st') /\
    count t' = 2 /\ selected t' = 1.
Proof.
  intros t st.
  assert (ND : NoDup (List.map ID (db.rows st))).
  { repeat constructor; cbn; intuition discriminate. }
  assert (W : well_typed t) by reflexivity.
  assert (Y : ToLower (H := decimalLib) (inputBuf t) = "y") by reflexivity.
  split; [exact W |]. split; [reflexivity |]. split; [exact Y |].
  split; [reflexivity |]. split; [reflexivity |]. split; [exact ND |].
  destruct (delete_removes_the_entry_under_the_cursor (H := decimalLib)
              sample.noon 13 t st (sample.entry 1 "")
              W eq_refl Y eq_refl eq_refl ND)
    as (t' & st' & A1 & _ & _ & A4 & A5 & _).
  exists t', st'. split; [exact A1 |]. split; [exact A4 | exact A5].
Defined.

(** ** Adding from the controller over the SQLite store *)

Section AddOverSQLite.

Context `{GoLib}.


End AddOverSQLite.

